(** * Intake analytics engine of the caffeine-diary applications

    A shallow embedding of the logic-bearing functions of [Cafe1.py]
    (with the places where [CafeLamiaa.py] and [cafe.py] differ), and the
    properties of the metric calculator, the rule engine, the trend
    analyzer and the duplicate-checked append.  The handlers of the
    pages of [Cafe1.py] and [cafe.py], the counter of [lamiaacafe.py]
    and the accounts of [APPLICATION.py] follow, with their properties.

    Conventions.
    - A Python [float] that is not NaN is a rational number ([Q]): every
      finite double is one, and [<], [<=], [>=] on doubles agree with the
      order of the rationals.  The mean of a bin is the double nearest
      to the exact mean, as the division of an exact sum gives it (the
      scores that are averaged are whole numbers).
    - A cell of a numeric column of a pandas frame is a number or NaN
      ([cell]).
    - A Python [dict] whose iteration order matters is an association
      list in insertion order.
    - A Python [str] is a string of bytes; [upper], [lower], [strip] and
      [isdigit] are those of Python on ASCII text.  What depends on a
      typed identifier is stated for identifiers in ASCII.
    - A CSV file is the frame that [pd.read_csv] returns for it.  How
      pandas reads a saved frame back is not modelled: a property that
      spans two runs names the frame that the second run loads. *)

From Stdlib Require Import ZArith QArith Qround Qabs List Bool Lia.
From Stdlib Require Import Ascii String DecimalString.
From Stdlib Require Qcanon DecimalPos.
From Stdlib Require Import Permutation Sorted.
Import ListNotations.

Open Scope string_scope.
Open Scope Z_scope.

(* ================================================================= *)
(** ** Python and pandas primitives used by the applications *)

Module Py.

(** A value of a numeric column: a number, or NaN (an empty CSV field,
    or what [pd.to_numeric(..., errors="coerce")] makes of a bad one). *)
Inductive cell : Type :=
| Num (q : Q)
| NaN.

(** [x < y] on floats. *)
Definition Qltb (x y : Q) : bool := negb (Qle_bool y x).

(** [int(x)] of a float: truncation toward zero. *)
Definition trunc (q : Q) : Z :=
  if Qle_bool 0 q then Qfloor q else Qceiling q.

(** [safe_float(x, default)]: [default] when [pd.isna(x)], else [float(x)]. *)
Definition safe_float (x : cell) (default : Q) : Q :=
  match x with
  | NaN => default
  | Num q => q
  end.

(** [safe_int(x, default)]: [default] when [pd.isna(x)], else
    [int(float(x))]. *)
Definition safe_int (x : cell) (default : Z) : Z :=
  match x with
  | NaN => default
  | Num q => trunc q
  end.

(** Element-wise comparisons of a numeric Series with a constant: a NaN
    entry compares [False]. *)
Definition series_lt (c : cell) (k : Q) : bool :=
  match c with Num q => Qltb q k | NaN => false end.
Definition series_gt (c : cell) (k : Q) : bool :=
  match c with Num q => Qltb k q | NaN => false end.
Definition series_ge (c : cell) (k : Q) : bool :=
  match c with Num q => Qle_bool k q | NaN => false end.

(** [(mask).sum()]: the number of rows where the mask is [True]. *)
Definition mask_sum {A} (mask : A -> bool) (rows : list A) : Z :=
  Z.of_nat (List.length (filter mask rows)).

(** Rounding of a rational to the nearest integer, ties to even. *)
Definition round_half_even (q : Q) : Z :=
  let f := Qfloor q in
  let twice_frac := Qfloor (2 * (q - inject_Z f)) in (* 0 or 1 *)
  if Qeq_bool (q - inject_Z f) (1 # 2)
  then (if Z.even f then f else f + 1)
  else f + twice_frac.

(** [round(x, 2)]. *)
Definition round2 (q : Q) : Q :=
  Qred (inject_Z (round_half_even (q * 100)) / 100).

(** [str(n)] of an [int], as in [f"{n}"]. *)
Definition str_int (n : Z) : string :=
  NilZero.string_of_int (Z.to_int n).

(** [s] left-padded with zeros to [width] characters. *)
Fixpoint zeros (k : nat) : string :=
  match k with
  | O => ""
  | S k' => "0" ++ zeros k'
  end.

Definition zero_pad (width : nat) (s : string) : string :=
  zeros (width - String.length s) ++ s.

(** The double nearest to a rational, ties to the even mantissa: what
    a correctly rounded operation on doubles returns for an exact
    result in the normal range. *)
Definition double_of (q : Q) : Q :=
  if Qeq_bool q 0 then 0%Q
  else
    let a := Qabs q in
    let k := Z.log2 (Qnum a) - Z.log2 (Zpos (Qden a)) in
    let e := if Qle_bool (Qpower 2 k) a then k else k - 1 in
    let m := round_half_even (a * Qpower 2 (52 - e)) in
    let v := (inject_Z m * Qpower 2 (e - 52))%Q in
    if Qltb q 0 then (- v)%Q else v.

(** [f"{x:.<d>f}"]: the value rounded to [d] decimals (ties to even on
    the exact value), printed with [d] digits after the point; a
    negative value keeps its sign also when it rounds to zero
    ([-0.00]). *)
Definition fmt_fixed (d : nat) (q : Q) : string :=
  let scale := 10 ^ Z.of_nat d in
  let h := round_half_even (q * inject_Z scale) in
  let a := Z.abs h in
  (if Qltb q 0 then "-" else "") ++
  str_int (a / scale) ++ "." ++ zero_pad d (str_int (a mod scale)).

Definition fmt_1f : Q -> string := fmt_fixed 1.
Definition fmt_2f : Q -> string := fmt_fixed 2.

(** [f"{x:.2f}"] of a cell. *)
Definition fmt_cell_2f (c : cell) : string :=
  match c with
  | Num q => fmt_2f q
  | NaN => "nan"
  end.

(** [str(x)] of a float whose value is an integer, such as [8.0]. *)
Definition str_float_integral (q : Q) : string :=
  str_int (Qfloor q) ++ ".0".

(** [sep.join(parts)]. *)
Fixpoint join (sep : string) (parts : list string) : string :=
  match parts with
  | [] => ""
  | [p] => p
  | p :: rest => p ++ sep ++ join sep rest
  end.

(** [s.lower()] on the ASCII letters. *)
Definition lower_ascii (c : ascii) : ascii :=
  let n := nat_of_ascii c in
  if andb (Nat.leb 65 n) (Nat.leb n 90) then ascii_of_nat (n + 32) else c.

Fixpoint lower (s : string) : string :=
  match s with
  | EmptyString => EmptyString
  | String c r => String (lower_ascii c) (lower r)
  end.

(** [s.upper()] on the ASCII letters. *)
Definition upper_ascii (c : ascii) : ascii :=
  let n := nat_of_ascii c in
  if andb (Nat.leb 97 n) (Nat.leb n 122) then ascii_of_nat (n - 32) else c.

Fixpoint upper (s : string) : string :=
  match s with
  | EmptyString => EmptyString
  | String c r => String (upper_ascii c) (upper r)
  end.

(** [s.strip()]: the ASCII white space is removed at both ends. *)
Definition is_space (c : ascii) : bool :=
  let n := nat_of_ascii c in
  orb (andb (Nat.leb 9 n) (Nat.leb n 13))
      (andb (Nat.leb 28 n) (Nat.leb n 32)).

Fixpoint lstrip_chars (l : list ascii) : list ascii :=
  match l with
  | [] => []
  | c :: r => if is_space c then lstrip_chars r else l
  end.

Definition strip (s : string) : string :=
  string_of_list_ascii
    (rev (lstrip_chars (rev (lstrip_chars (list_ascii_of_string s))))).

(** [dict.get(key, default)] on an insertion-ordered dict. *)
Fixpoint dict_get {V} (d : list (string * V)) (key : string) (default : V) : V :=
  match d with
  | [] => default
  | (k, v) :: rest => if String.eqb k key then v else dict_get rest key default
  end.

(** [df.tail(n)]: the last [n] rows (all of them when there are fewer). *)
Definition tail {A} (n : nat) (rows : list A) : list A :=
  skipn (List.length rows - n) rows.

(** [df.sort_values(col)], with [leb] the order of the column.  Rows
    with equal keys keep their order, as they do in pandas on the short
    frames sorted here; the properties below use only that the result
    is a rearrangement of the rows, and the store keeps one row for a
    participant and a date.  For [ascending=False] pandas sorts the
    reversed frame upward and reverses the result. *)
Fixpoint insert_by {A} (leb : A -> A -> bool) (x : A) (sorted : list A)
  : list A :=
  match sorted with
  | [] => [x]
  | y :: rest =>
      if leb x y then x :: y :: rest
      else y :: insert_by leb x rest
  end.

Fixpoint sort_asc {A} (leb : A -> A -> bool) (rows : list A) : list A :=
  match rows with
  | [] => []
  | x :: rest => insert_by leb x (sort_asc leb rest)
  end.

Definition sort_values {A} (leb : A -> A -> bool) (ascending : bool)
  (rows : list A) : list A :=
  if ascending then sort_asc leb rows
  else rev (sort_asc leb (rev rows)).

(** [c.isdigit()] and [s.isdigit()] on the ASCII digits; the empty
    string is not a number. *)
Definition is_digit (c : ascii) : bool :=
  let n := nat_of_ascii c in
  andb (Nat.leb 48 n) (Nat.leb n 57).

Fixpoint all_digits (s : string) : bool :=
  match s with
  | EmptyString => true
  | String c r => andb (is_digit c) (all_digits r)
  end.

Definition isdigit (s : string) : bool :=
  match s with
  | EmptyString => false
  | String _ _ => all_digits s
  end.

(** [int(s)] of a string of digits, read from the left. *)
Fixpoint int_from (acc : Z) (s : string) : Z :=
  match s with
  | EmptyString => acc
  | String c r => int_from (10 * acc + Z.of_nat (nat_of_ascii c - 48)) r
  end.

Definition int_of_digits (s : string) : Z := int_from 0 s.

End Py.

Import Py.

(* ================================================================= *)
(** ** Data model: the two CSV tables *)

(** A row of [daily_logs.csv].  A calendar date is held as its ISO text
    [YYYY-MM-DD], whose order as text is the order of the dates. *)
Record log_row : Type := {
  date : string;
  participant_id : string;
  caffeine_mg_total : cell;
  last_caffeine_hour : cell;
  bed_hour : cell;
  wake_hour : cell;
  sleep_hours : cell;
  sleep_quality_1_5 : cell;
  stress_1_10 : cell;
  anxiety_1_10 : cell;
  focus_1_10 : cell;
  palpitations : cell;
  headache : cell;
  irritability : cell;
  digestive : cell;
  drinks_detail : string;
  created_at : string
}.

(** A row of [participants.csv]; [sensitivity] is the text of the cell
    as [str(...)] gives it. *)
Record participant : Type := {
  p_participant_id : string;
  p_age : Z;
  p_sex : string;
  sensitivity : string;
  screen_time_evening : string;
  sport : string;
  p_created_at : string
}.

(** [df.sort_values("date")]. *)
Definition sort_by_date (rows : list log_row) : list log_row :=
  sort_values (fun a b => String.leb (date a) (date b)) true rows.

(** [today.append(msg)] under a condition, on the list built so far. *)
Definition append_if (cond : bool) (msg : string) (acc : list string)
  : list string :=
  if cond then (acc ++ [msg])%list else acc.

(** [not lst] on a Python list. *)
Definition is_empty {A} (l : list A) : bool :=
  match l with [] => true | _ :: _ => false end.

(** [series.mean()]: NaN entries are skipped; NaN when nothing is left.
    The sum is exact (the scores are whole numbers) and its division by
    the count is rounded to the nearest double. *)
Definition numbers (cells : list cell) : list Q :=
  flat_map (fun c => match c with Num q => [q] | NaN => [] end) cells.

Definition mean (cells : list cell) : cell :=
  match numbers cells with
  | [] => NaN
  | qs =>
      Num (double_of
             (fold_left Qplus qs 0%Q / inject_Z (Z.of_nat (List.length qs))))
  end.

(** The row of a bin after [groupby("caf_bin", observed=True).agg(...)]. *)
Record bin_row : Type := {
  caf_bin : string;
  sleep_q : cell;
  sleep_h : cell;
  anxiety : cell;
  n : Z
}.

(** [pd.cut(x, bins=[b0, b1, b2, b3], labels=[l1, l2, l3])]: the label of
    the right-closed interval that holds [x]; none for NaN or a value
    outside [(b0, b3]]. *)
Definition cut (x : cell) (b0 b1 b2 b3 : Q) (l1 l2 l3 : string)
  : option string :=
  match x with
  | NaN => None
  | Num q =>
      if Qltb b0 q && Qle_bool q b1 then Some l1
      else if Qltb b1 q && Qle_bool q b2 then Some l2
      else if Qltb b2 q && Qle_bool q b3 then Some l3
      else None
  end.

(** [df.groupby("caf_bin", observed=True).agg(sleep_q=..., sleep_h=...,
    anxiety=..., n=("caf_bin", "size")).reset_index()]: one row for each
    label that occurs, in the order of the labels. *)
Definition group_by_bin (labels : list string)
  (bin_of : log_row -> option string) (rows : list log_row)
  : list bin_row :=
  flat_map
    (fun label =>
       let members :=
         filter (fun r => match bin_of r with
                          | Some l => String.eqb l label
                          | None => false
                          end) rows in
       if is_empty members then []
       else [ {| caf_bin := label;
                 sleep_q := mean (map sleep_quality_1_5 members);
                 sleep_h := mean (map sleep_hours members);
                 anxiety := mean (map anxiety_1_10 members);
                 n := Z.of_nat (List.length members) |} ])
    labels.

(** [g.dropna(subset=["sleep_q"])]. *)
Definition dropna_sleep_q (g : list bin_row) : list bin_row :=
  filter (fun b => match sleep_q b with Num _ => true | NaN => false end) g.

(** The order of the [sleep_q] column of rows that hold a number. *)
Definition sleep_q_leb (a b : bin_row) : bool :=
  match sleep_q a, sleep_q b with
  | Num x, Num y => Qle_bool x y
  | _, _ => true
  end.

(** [g["n"].sum()]. *)
Definition sum_n (g : list bin_row) : Z :=
  fold_left Z.add (map n g) 0.

(** What the presentation layer receives from [build_recommendations]. *)
Record report : Type := {
  summary : list string;
  today : list string;
  patterns : list string
}.

(** What a submit handler shows: [st.error(msg)] or [st.success(msg)]. *)
Inductive feedback : Type :=
| Error (msg : string)
| Success (msg : string).

(** What a page shows with [st.info], [st.warning], [st.error] or
    [st.success]. *)
Inductive shown : Type :=
| st_info (msg : string)
| st_warning (msg : string)
| st_error (msg : string)
| st_success (msg : string).

(** [df[(df["date"] >= start_date) & (df["date"] <= end_date)]]. *)
Definition in_period (start_date end_date : string) (df : list log_row)
  : list log_row :=
  filter (fun r => String.leb start_date (date r)
                   && String.leb (date r) end_date) df.

(** [df[df["participant_id"] == pid]]. *)
Definition rows_of (pid : string) (df : list log_row) : list log_row :=
  filter (fun r => String.eqb (participant_id r) pid) df.

(** A [datetime.time] as the time inputs of the forms give it: an hour
    and a minute, the seconds being zero. *)
Record time : Type := {
  hour : Z;
  minute : Z
}.

(** The widgets of the [daily_entry] form when it is submitted.
    [f_qty] is the value of the number input of each drink. *)
Record daily_entry : Type := {
  f_pid : string;
  f_entry_date : string;
  f_qty : string -> Z;
  f_last_caffeine_hour : Z;
  f_bed_hour : Z;
  f_wake_hour : Z;
  f_sleep_quality : Z;
  f_stress : Z;
  f_anxiety : Z;
  f_focus : Z;
  f_sym_values : string -> bool
}.

(** The widgets of the form [add_participant] when it is submitted;
    [a_pid] is the text of the identifier as typed. *)
Record participant_form : Type := {
  a_pid : string;
  a_age : Z;
  a_sex : string;
  a_sensitivity : string;
  a_screen_time : string;
  a_sport : string
}.

(** [int(flag)] of a check box, as stored in the row. *)
Definition int_of_bool (b : bool) : cell := Num (if b then 1 else 0)%Q.

(** The loop shared by [compute_caffeine_total] ([Cafe1.py], [cafe.py])
    and [compute_caffeine_from_units] ([CafeLamiaa.py]), which differ in
    the table they look up.  [breakdown_part] is the text
    [f"{drink} x{qty} ({mg} mg)"]; the state of the loop is
    [(total, parts)]. *)
Definition breakdown_part (drink : string) (qty mg : Z) : string :=
  drink ++ " x" ++ str_int qty ++ " (" ++ str_int mg ++ " mg)".

Definition caffeine_step (catalog : list (string * Z))
  (st : Z * list string) (item : string * Z) : Z * list string :=
  let '(total, parts) := st in
  let '(drink, qty) := item in
  if qty <=? 0 then (total, parts)
  else
    let mg_unit := dict_get catalog drink 0 in
    let mg := qty * mg_unit in
    (total + mg,
     (parts ++ [breakdown_part drink qty mg])%list).

Definition caffeine_total_with (catalog drink_qty : list (string * Z))
  : Z * string :=
  let '(total, parts) := fold_left (caffeine_step catalog) drink_qty (0, []) in
  (total, if is_empty parts then "" else join " | " parts).

(* ================================================================= *)
(** ** Cafe1.py *)

Module Cafe1.

Definition CAFFEINE_CATALOG : list (string * Z) :=
  [ ("Espresso (30 ml)", 75);
    ("Café filtre (250 ml)", 95);
    ("Café instantané (250 ml)", 60);
    ("Thé noir (250 ml)", 45);
    ("Thé vert (250 ml)", 30);
    ("Boisson énergétique (250 ml)", 80);
    ("Cola (330 ml)", 35);
    ("Chocolat (50 g)", 10) ].

Definition compute_sleep_hours_from_hours (bed_hour wake_hour : Z) : Q :=
  let bed := bed_hour in
  let wake := wake_hour in
  let wake := if wake <=? bed then wake + 24 else wake in
  let sleep_hours := wake - bed in
  round2 (inject_Z sleep_hours).

Definition compute_caffeine_total (drink_qty : list (string * Z))
  : Z * string :=
  caffeine_total_with CAFFEINE_CATALOG drink_qty.

Definition caffeine_level (mg : Q) : string :=
  let mg := if Qeq_bool mg 0 then 0%Q else mg in (* [mg or 0] *)
  if Qltb mg 100 then "Faible"
  else if Qle_bool mg 200 then "Moyen"
  else "Élevé".

(** *** The advisory texts of the day *)

Definition msg_late : string :=
  "🧠 **Cerveau & sommeil :** ta dernière prise est tardive (≥ 17h). La caféine peut retarder l’endormissement et réduire la qualité du sommeil. ➡️ Essaie de terminer la caféine avant **16–17h**.".
Definition msg_short_sleep : string :=
  "🌙 **Sommeil :** tu as dormi moins de 7h. ➡️ Priorise la récupération (routine de coucher, écran ↓, caféine plus tôt). Le manque de sommeil augmente fatigue, stress et baisse la mémoire/concentration.".
Definition msg_heart_dose : string :=
  "❤️ **Cœur :** dose élevée (> 200 mg). Cela peut augmenter le rythme cardiaque, provoquer nervosité et palpitations. ➡️ Réduis progressivement (ex: -25 à -50 mg par jour) et évite de concentrer toute la caféine en une seule prise.".
Definition msg_palpitations : string :=
  "❤️ **Cœur :** palpitations signalées aujourd’hui. ➡️ Diminue la caféine, évite les boissons énergétiques, hydrate-toi bien. Si ça se répète souvent ou devient gênant, il vaut mieux demander avis médical.".
Definition msg_useful_band : string :=
  "🎯 **Concentration :** ta dose est dans une zone souvent utile pour l’alerte (≈ 80–150 mg). ➡️ Pour rester stable, préfère des petites doses réparties plutôt qu’un “gros shot”.".
Definition msg_overstimulation : string :=
  "⚡ **Concentration :** au-dessus de 200 mg, on voit souvent des effets inverses : agitation, difficulté à se concentrer, “crash”. ➡️ Diminue la dose ou remplace une boisson par décaféiné/thé léger.".
Definition msg_anxiety : string :=
  "😰 **Anxiété :** anxiété élevée + caféine modérée/forte. ➡️ Réduis la caféine, surtout les énergétiques, et essaie une alternative (eau, tisane).".
Definition msg_stress : string :=
  "🧩 **Stress :** stress élevé + caféine élevée peut amplifier la tension. ➡️ Fais une pause (respiration 2–3 minutes), hydrate-toi, et évite une nouvelle dose tardive.".
Definition msg_headache : string :=
  "🤕 **Maux de tête :** parfois liés à excès de caféine, déshydratation, ou manque de sommeil. ➡️ Eau + sommeil + réduction progressive si consommation élevée.".
Definition msg_irritability : string :=
  "😤 **Irritabilité :** peut augmenter quand la caféine est trop forte ou quand le sommeil est faible. ➡️ Ajuste la dose et évite les prises tardives.".
Definition msg_digestive : string :=
  "🫃 **Digestif :** le café/caféine peut irriter l’estomac chez certains. ➡️ Évite à jeun et préfère une dose plus faible.".
Definition msg_sensitivity_high : string :=
  "🧬 **Sensibilité forte :** tu pourrais ressentir les effets avec des doses plus faibles. ➡️ Essaie de rester ≤ **150 mg/jour** et observe l’impact sur le sommeil et l’anxiété.".
Definition msg_sensitivity_low : string :=
  "🧬 **Même si sensibilité faible :** >300 mg/jour augmente quand même le risque (sommeil, anxiété, cœur). ➡️ Essaie de revenir vers **200–250 mg max**.".
Definition msg_nothing_alarming : string :=
  "✅ **Globalement :** rien d’alarmant détecté aujourd’hui selon les seuils. ➡️ Garde une consommation modérée et une dernière prise assez tôt.".

(** *** The texts of the trends *)

Definition msg_high_caf_days (high_caf_days : Z) : string :=
  "📌 **Tendance (7 derniers jours) :** " ++ str_int high_caf_days ++
  " jours avec caféine > 200 mg. ➡️ Objectif simple : réduire à **≤ 200 mg** la plupart des jours.".
Definition msg_late_days (late_days : Z) : string :=
  "📌 **Tendance :** " ++ str_int late_days ++
  " jours avec dernière prise ≥ 17h. ➡️ Avancer la dernière prise est souvent le changement le plus efficace pour améliorer le sommeil.".
Definition msg_low_sleep_days (low_sleep_days : Z) : string :=
  "📌 **Tendance :** " ++ str_int low_sleep_days ++
  " jours avec sommeil < 7h. ➡️ Le manque de sommeil peut augmenter envie de caféine → cercle vicieux. Essaye d’abord de stabiliser l’heure de coucher.".
Definition msg_comparison (best worst : bin_row) : string :=
  "📊 **Comparaison (sur tes données) :** meilleure qualité de sommeil en **" ++
  caf_bin best ++ "** (≈ " ++ fmt_cell_2f (sleep_q best) ++
  "/5), plus faible en **" ++
  caf_bin worst ++ "** (≈ " ++ fmt_cell_2f (sleep_q worst) ++ "/5).".
Definition msg_no_trend : string :=
  "Pas assez de jours (ou trop de valeurs manquantes) pour dégager une tendance fiable.".

Definition bin_labels : list string :=
  ["Faible (<100)"; "Moyen (100–200)"; "Élevé (>200)"].

(** [pd.cut(last7["caffeine_mg_total"], bins=[-1, 99, 200, 10_000],
    labels=[...])]. *)
Definition caf_bin_of (r : log_row) : option string :=
  cut (caffeine_mg_total r) (-1) 99 200 10000
      "Faible (<100)" "Moyen (100–200)" "Élevé (>200)".

(** *** [build_recommendations] *)

(** The section "Conseils du jour": one conditional [today.append]
    after the other on the values read from the latest row, and the
    default text when nothing was appended. *)
Definition conseils_du_jour (sensitivity : string) (latest : log_row)
  : list string :=
  let caf := safe_float (caffeine_mg_total latest) 0 in
  let last_h := safe_int (last_caffeine_hour latest) 0 in
  let sleep_h := safe_float (sleep_hours latest) 0 in
  let anxiety := safe_int (anxiety_1_10 latest) 0 in
  let stress := safe_int (stress_1_10 latest) 0 in
  let palpitations := safe_int (palpitations latest) 0 in
  let headache := safe_int (headache latest) 0 in
  let irritability := safe_int (irritability latest) 0 in
  let digestive := safe_int (digestive latest) 0 in
  let today := [] in
  let today := append_if ((17 <=? last_h) && Qle_bool 100 caf) msg_late today in
  let today := append_if (Qltb sleep_h 7) msg_short_sleep today in
  let today := append_if (Qltb 200 caf) msg_heart_dose today in
  let today := append_if (palpitations =? 1) msg_palpitations today in
  let today := append_if (Qle_bool 80 caf && Qle_bool caf 150) msg_useful_band today in
  let today := append_if (Qltb 200 caf) msg_overstimulation today in
  let today := append_if ((7 <=? anxiety) && Qle_bool 150 caf) msg_anxiety today in
  let today := append_if ((7 <=? stress) && Qle_bool 150 caf) msg_stress today in
  let today := append_if (headache =? 1) msg_headache today in
  let today := append_if (irritability =? 1) msg_irritability today in
  let today := append_if (digestive =? 1) msg_digestive today in
  let today :=
    append_if (String.eqb (lower sensitivity) "forte" && Qle_bool 150 caf)
              msg_sensitivity_high today in
  let today :=
    append_if (String.eqb (lower sensitivity) "faible" && Qltb 300 caf)
              msg_sensitivity_low today in
  let today := append_if (is_empty today) msg_nothing_alarming today in
  today.

(** The three day counts over the window. *)
Definition low_sleep_days (last7 : list log_row) : Z :=
  mask_sum (fun r => series_lt (sleep_hours r) 7) last7.
Definition high_caf_days (last7 : list log_row) : Z :=
  mask_sum (fun r => series_gt (caffeine_mg_total r) 200) last7.
Definition late_days (last7 : list log_row) : Z :=
  mask_sum (fun r => series_ge (last_caffeine_hour r) 17) last7.

(** The comparison of the bins: the text that is appended, if any.
    [.iloc[0]] on an empty frame raises, and the [except] clause then
    skips the append. *)
Definition comparaison (last7 : list log_row) : list string :=
  let g := group_by_bin bin_labels caf_bin_of last7 in
  if negb (is_empty g) && (5 <=? sum_n g) then
    match sort_values sleep_q_leb false (dropna_sleep_q g),
          sort_values sleep_q_leb true (dropna_sleep_q g) with
    | best :: _, worst :: _ => [msg_comparison best worst]
    | _, _ => []
    end
  else [].

(** The section "Tendances" on the sorted frame [df]. *)
Definition tendances (df : list log_row) : list string :=
  let patterns := [] in
  let last7 := tail 7 df in
  let patterns :=
    if (3 <=? List.length last7)%nat then
      let patterns :=
        append_if (3 <=? high_caf_days last7)
                  (msg_high_caf_days (high_caf_days last7)) patterns in
      let patterns :=
        append_if (3 <=? late_days last7)
                  (msg_late_days (late_days last7)) patterns in
      let patterns :=
        append_if (3 <=? low_sleep_days last7)
                  (msg_low_sleep_days (low_sleep_days last7)) patterns in
      (patterns ++ comparaison last7)%list
    else patterns in
  let patterns := append_if (is_empty patterns) msg_no_trend patterns in
  patterns.

(** The section "Résumé". *)
Definition resume (sensitivity : string) (latest : log_row) : list string :=
  let caf := safe_float (caffeine_mg_total latest) 0 in
  let last_h := safe_int (last_caffeine_hour latest) 0 in
  let sleep_h := safe_float (sleep_hours latest) 0 in
  let anxiety := safe_int (anxiety_1_10 latest) 0 in
  let stress := safe_int (stress_1_10 latest) 0 in
  let focus := safe_int (focus_1_10 latest) 0 in
  let level := caffeine_level caf in
  let summary :=
    [ "**Dernière date :** " ++ date latest;
      "**Caféine totale :** " ++ str_int (trunc caf) ++ " mg (**niveau : "
        ++ level ++ "**)";
      "**Dernière prise :** " ++ str_int last_h ++ "h";
      "**Sommeil :** " ++ fmt_1f sleep_h ++ " h (qualité "
        ++ str_int (safe_int (sleep_quality_1_5 latest) 0) ++ "/5)";
      "**Anxiété :** " ++ str_int anxiety ++ "/10 • **Stress :** "
        ++ str_int stress ++ "/10 • **Concentration :** "
        ++ str_int focus ++ "/10" ] in
  append_if (negb (is_empty (list_ascii_of_string sensitivity)))
            ("**Sensibilité déclarée :** " ++ sensitivity) summary.

Definition build_recommendations (participant_row : option participant)
  (logs_df : list log_row) : report :=
  match logs_df with
  | [] =>
      {| summary := ["Aucune donnée pour ce participant."];
         today := [];
         patterns := [] |}
  | first :: _ =>
      let df := sort_by_date logs_df in
      let latest := last df first in
      let sensitivity :=
        match participant_row with
        | Some row => strip (sensitivity row)
        | None => ""
        end in
      {| summary := resume sensitivity latest;
         today := conseils_du_jour sensitivity latest;
         patterns := tendances df |}
  end.

(** *** The form of the daily journal *)

(** [load_logs()], from the frame that its [pd.read_csv] returns:
    [file] holds the rows as pandas has read them, the identifier of a
    row being the text that [astype(str)] gives for its cell (for a
    column that pandas has read as numbers, the text of the number).
    The identifiers are put in upper case; the dates, parsed there, are
    ISO text here from the start.  How pandas reads a saved file back
    (an identifier column of digits only comes back as numbers) is not
    modelled: the properties below are on the frame that one run loads
    and on the frame that it saves. *)
Definition load_logs (file : list log_row) : list log_row :=
  map (fun r =>
         {| date := date r;
            participant_id := upper (participant_id r);
            caffeine_mg_total := caffeine_mg_total r;
            last_caffeine_hour := last_caffeine_hour r;
            bed_hour := bed_hour r;
            wake_hour := wake_hour r;
            sleep_hours := sleep_hours r;
            sleep_quality_1_5 := sleep_quality_1_5 r;
            stress_1_10 := stress_1_10 r;
            anxiety_1_10 := anxiety_1_10 r;
            focus_1_10 := focus_1_10 r;
            palpitations := palpitations r;
            headache := headache r;
            irritability := irritability r;
            digestive := digestive r;
            drinks_detail := drinks_detail r;
            created_at := created_at r |}) file.

(** The dict the form fills: one entry for each drink of the
    catalogue, in the order of the catalogue. *)
Definition drink_qty_of (form : daily_entry) : list (string * Z) :=
  map (fun item => (fst item, f_qty form (fst item))) CAFFEINE_CATALOG.

Definition msg_duplicate : string :=
  "Une saisie existe déjà pour ce participant à cette date. Va à 'Export & Qualité' pour supprimer/corriger.".

(** The rows of [logs] for the participant and the date of the form. *)
Definition dup (logs : list log_row) (pid entry_date : string)
  : list log_row :=
  filter (fun r => String.eqb (participant_id r) pid
                   && String.eqb (date r) entry_date) logs.

(** The handler of the button "Enregistrer" of the daily form, on the
    frame read from [daily_logs.csv]; [now] is [datetime.now()] as ISO
    text.  It returns the frame that it saves (the frame read, when it
    saves nothing) and what is shown.  The
    source writes the same [new_row] and the same [save_logs] call in
    its two accepting branches; they are [saved] here. *)
Definition daily_entry_submit (file : list log_row) (form : daily_entry)
  (now : string) : list log_row * feedback :=
  let pid := f_pid form in
  let entry_date := f_entry_date form in
  let sleep_h := compute_sleep_hours_from_hours (f_bed_hour form) (f_wake_hour form) in
  let '(caf_total, detail) := compute_caffeine_total (drink_qty_of form) in
  let logs := load_logs file in
  let new_row :=
    {| date := entry_date;
       participant_id := pid;
       caffeine_mg_total := Num (inject_Z caf_total);
       last_caffeine_hour := Num (inject_Z (f_last_caffeine_hour form));
       bed_hour := Num (inject_Z (f_bed_hour form));
       wake_hour := Num (inject_Z (f_wake_hour form));
       sleep_hours := Num sleep_h;
       sleep_quality_1_5 := Num (inject_Z (f_sleep_quality form));
       stress_1_10 := Num (inject_Z (f_stress form));
       anxiety_1_10 := Num (inject_Z (f_anxiety form));
       focus_1_10 := Num (inject_Z (f_focus form));
       palpitations := int_of_bool (f_sym_values form "palpitations");
       headache := int_of_bool (f_sym_values form "headache");
       irritability := int_of_bool (f_sym_values form "irritability");
       digestive := int_of_bool (f_sym_values form "digestive");
       drinks_detail := detail;
       created_at := now |} in
  let saved :=
    ((logs ++ [new_row])%list,
     Success ("✅ Enregistré: " ++ pid ++ " • " ++ entry_date ++ " • "
              ++ str_int caf_total ++ " mg • Sommeil "
              ++ str_float_integral sleep_h ++ " h")) in
  if negb (is_empty logs) then
    if negb (is_empty (dup logs pid entry_date)) then
      (file, Error msg_duplicate)
    else saved
  else saved.

(** *** The participants *)

(** [next_participant_id(existing_ids)], on identifiers in ASCII of
    at most 4300 characters: the largest number among the identifiers
    of the shape [P<digits>], plus one, as [f"P{max_n+1:03d}"].  On
    other identifiers [str.isdigit()] and [int()] follow the Unicode
    tables and [int()] can raise [ValueError] (on a superscript digit,
    on more than 4300 digits); the properties below are stated for
    identifiers in that range ([typed_id]). *)
Definition next_participant_id (existing_ids : list string) : string :=
  let max_n :=
    fold_left
      (fun max_n pid =>
         let pid := upper (strip pid) in
         match pid with
         | String "P"%char rest =>
             if isdigit rest then Z.max max_n (int_of_digits rest) else max_n
         | _ => max_n
         end)
      existing_ids 0 in
  "P" ++ zero_pad 3 (str_int (max_n + 1)).

(** [load_participants()], from the frame that its [pd.read_csv]
    returns, read as for [load_logs]: the identifiers are put in upper
    case. *)
Definition load_participants (file : list participant) : list participant :=
  map (fun p =>
         {| p_participant_id := upper (p_participant_id p);
            p_age := p_age p;
            p_sex := p_sex p;
            sensitivity := sensitivity p;
            screen_time_evening := screen_time_evening p;
            sport := sport p;
            p_created_at := p_created_at p |}) file.

(** [participant_ids]: the identifiers of the loaded participants. *)
Definition participant_ids_of (file : list participant) : list string :=
  map p_participant_id (load_participants file).

(** The identifier that the form proposes. *)
Definition auto_id (file : list participant) : string :=
  if is_empty (participant_ids_of file) then "P001"
  else next_participant_id (participant_ids_of file).

Definition msg_id_required : string := "Participant ID est obligatoire.".
Definition msg_id_exists : string := "Cet ID existe déjà. Choisis un autre ID.".

(** The handler of the button "Enregistrer" of the form
    [add_participant], on the frame read from [participants.csv]: the
    frame that it saves (the frame read, when it saves nothing) and
    what is shown.  The identifier typed is in ASCII ([strip] and
    [upper] are those of the ASCII characters). *)
Definition add_participant_submit (file : list participant)
  (form : participant_form) (now : string) : list participant * feedback :=
  let participants := load_participants file in
  let existing_ids := map p_participant_id participants in
  let pid := upper (strip (a_pid form)) in
  if is_empty (list_ascii_of_string pid) then (file, Error msg_id_required)
  else if existsb (String.eqb pid) existing_ids then (file, Error msg_id_exists)
  else
    let new_row :=
      {| p_participant_id := pid;
         p_age := a_age form;
         p_sex := a_sex form;
         sensitivity := a_sensitivity form;
         screen_time_evening := a_screen_time form;
         sport := a_sport form;
         p_created_at := now |} in
    ((participants ++ [new_row])%list,
     Success ("✅ Participant " ++ pid ++ " ajouté.")).

(** *** The deletion of an entry *)

(** The handler of the button "Supprimer la saisie": the rows of the
    participant at the date are dropped from the loaded rows, and the
    frame that is left is saved. *)
Definition delete_entry_submit (file : list log_row)
  (del_pid del_date : string) : list log_row * feedback :=
  let logs := load_logs file in
  (filter (fun r => negb (String.eqb (participant_id r) del_pid
                          && String.eqb (date r) del_date)) logs,
   Success ("✅ Saisie supprimée: " ++ del_pid ++ " • " ++ del_date)).

(** *** The page of the recommendations *)

(** What the page shows for the chosen participant and period: a
    notice, or the three sections of the report. *)
Inductive page_view : Type :=
| Notice (s : shown)
| Pack (r : report).

Definition page_recommandations (participants_file : list participant)
  (logs_file : list log_row) (pid start_date end_date : string)
  : page_view :=
  let logs := load_logs logs_file in
  let participants := load_participants participants_file in
  if is_empty participants || is_empty logs then
    Notice (st_info "Ajoute des participants et des saisies pour voir les recommandations.")
  else
    let dfp := rows_of pid logs in
    if is_empty dfp then Notice (st_warning "Aucune donnée pour ce participant.")
    else
      let dff := in_period start_date end_date dfp in
      let prow :=
        find (fun p => String.eqb (p_participant_id p) pid) participants in
      Pack (build_recommendations prow dff).

(** *** The quality controls of the export page *)

(** [df.duplicated(subset=["participant_id", "date"], keep=False)]: a
    row is marked when its participant and date occur more than once. *)
Definition duplicated (df : list log_row) : list bool :=
  map (fun r => (1 <? List.length (dup df (participant_id r) (date r)))%nat)
      df.

(** [int(dup.sum())]. *)
Definition n_dup (df : list log_row) : Z :=
  Z.of_nat (List.length (filter (fun b : bool => b) (duplicated df))).

(** The rows selected for the export. *)
Definition selection (logs : list log_row)
  (pid_choice start_date end_date : string) : list log_row :=
  let df := in_period start_date end_date logs in
  if negb (String.eqb pid_choice "Tous") then rows_of pid_choice df else df.

Definition controle_doublons (df : list log_row) : shown :=
  if 0 <? n_dup df then
    st_warning ("Doublons détectés (participant + date) : " ++ str_int (n_dup df))
  else st_success "Pas de doublons (participant + date) sur la sélection.".

End Cafe1.

(* ================================================================= *)
(** ** CafeLamiaa.py *)

Module CafeLamiaa.

Definition UNIT_OPTIONS : list (string * Z) :=
  [ ("Café espresso (tasse)", 75);
    ("Café filtre (tasse)", 95);
    ("Café instantané (tasse)", 60);
    ("Thé noir (tasse)", 45);
    ("Thé vert (tasse)", 30);
    ("Boisson énergétique (canette machi tassa hhhhhhh)", 80);
    ("Soda/Cola (canette)", 35);
    ("Chocolat (portion)", 10) ].

(** As in [Cafe1.py], without the final [round]. *)
Definition compute_sleep_hours_from_hours (bed_hour wake_hour : Z) : Q :=
  let bed := bed_hour in
  let wake := wake_hour in
  let wake := if wake <=? bed then wake + 24 else wake in
  inject_Z (wake - bed).

Definition compute_caffeine_from_units (unit_counts : list (string * Z))
  : Z * string :=
  caffeine_total_with UNIT_OPTIONS unit_counts.

Definition msg_late : string :=
  "🧠 **Sommeil & cerveau :** dernière prise tardive (≥ 17h). ➡️ Essaie de finir la caféine **avant 16–17h** (meilleur levier pour améliorer le sommeil).".
Definition msg_short_sleep : string :=
  "🌙 **Sommeil :** < 7h. ➡️ Le manque de sommeil baisse la mémoire et la concentration et augmente stress/anxiété.".
Definition msg_heart_dose : string :=
  "❤️ **Cœur :** > 200 mg (dose élevée). ➡️ Peut augmenter le rythme cardiaque, provoquer nervosité/palpitations. Réduis progressivement.".
Definition msg_palpitations : string :=
  "❤️ **Palpitations :** signalées aujourd’hui. ➡️ Réduis la caféine, évite les énergétiques, hydrate-toi. Si ça se répète souvent, avis médical.".
Definition msg_useful_band : string :=
  "🎯 **Concentration :** 80–150 mg est souvent une zone ‘utile’. ➡️ Préfère des petites doses réparties plutôt qu’une grosse dose.".
Definition msg_overstimulation : string :=
  "⚡ **Concentration :** > 200 mg peut donner l’effet inverse : agitation, difficulté à se concentrer, ‘crash’. ➡️ Diminue la dose ou remplace par thé léger/décaféiné.".
Definition msg_anxiety : string :=
  "😰 **Anxiété :** anxiété élevée + caféine ≥ 150 mg. ➡️ Réduis la caféine (surtout énergétiques) et augmente hydratation.".
Definition msg_stress : string :=
  "🧩 **Stress :** stress élevé + caféine élevée peut amplifier la tension. ➡️ Pause + respiration + éviter une dose tardive.".
Definition msg_headache : string :=
  "🤕 **Maux de tête :** parfois liés à caféine + déshydratation + manque de sommeil. ➡️ Eau + sommeil + réduction progressive.".
Definition msg_irritability : string :=
  "😤 **Irritabilité :** souvent liée à excès de caféine ou sommeil faible. ➡️ Ajuster dose et éviter l’après-midi/soir.".
Definition msg_digestive : string :=
  "🫃 **Digestif :** la caféine peut irriter l’estomac. ➡️ Évite à jeun et réduis la dose.".
Definition msg_sensitivity_high : string :=
  "🧬 **Sensibilité forte :** essaie de viser **≤ 150 mg/jour** et observe l’effet sur sommeil/anxiété.".
Definition msg_sensitivity_low : string :=
  "🧬 **Même sensibilité faible :** > 300 mg/jour augmente quand même les risques. ➡️ Revenir vers **200–250 mg max**.".
Definition msg_nothing_alarming : string :=
  "✅ Rien d’alarmant détecté selon les seuils. ➡️ Garde une consommation modérée et une dernière prise assez tôt.".

Definition msg_high_caf_days (high_caf_days : Z) : string :=
  "📌 **Tendance :** " ++ str_int high_caf_days ++
  " jours/7 avec caféine > 200 mg. ➡️ Objectif : ≤ 200 mg la plupart des jours.".
Definition msg_late_days (late_days : Z) : string :=
  "📌 **Tendance :** " ++ str_int late_days ++
  " jours/7 avec dernière prise ≥ 17h. ➡️ Avancer l’heure est souvent le changement le plus efficace.".
Definition msg_low_sleep_days (low_sleep_days : Z) : string :=
  "📌 **Tendance :** " ++ str_int low_sleep_days ++
  " jours/7 avec sommeil < 7h. ➡️ Stabiliser l’heure de coucher pour casser le cercle caféine-fatigue.".
Definition msg_no_trend : string :=
  "Pas assez de données (≥ 3 jours) pour dégager une tendance fiable.".

(** The rules of the day: the conditions of [Cafe1.py], with the texts
    of this file. *)
Definition conseils_du_jour (sensitivity : string) (latest : log_row)
  : list string :=
  let caf := safe_float (caffeine_mg_total latest) 0 in
  let last_h := safe_int (last_caffeine_hour latest) 0 in
  let sleep_h := safe_float (sleep_hours latest) 0 in
  let anxiety := safe_int (anxiety_1_10 latest) 0 in
  let stress := safe_int (stress_1_10 latest) 0 in
  let palpitations := safe_int (palpitations latest) 0 in
  let headache := safe_int (headache latest) 0 in
  let irritability := safe_int (irritability latest) 0 in
  let digestive := safe_int (digestive latest) 0 in
  let today := [] in
  let today := append_if ((17 <=? last_h) && Qle_bool 100 caf) msg_late today in
  let today := append_if (Qltb sleep_h 7) msg_short_sleep today in
  let today := append_if (Qltb 200 caf) msg_heart_dose today in
  let today := append_if (palpitations =? 1) msg_palpitations today in
  let today := append_if (Qle_bool 80 caf && Qle_bool caf 150) msg_useful_band today in
  let today := append_if (Qltb 200 caf) msg_overstimulation today in
  let today := append_if ((7 <=? anxiety) && Qle_bool 150 caf) msg_anxiety today in
  let today := append_if ((7 <=? stress) && Qle_bool 150 caf) msg_stress today in
  let today := append_if (headache =? 1) msg_headache today in
  let today := append_if (irritability =? 1) msg_irritability today in
  let today := append_if (digestive =? 1) msg_digestive today in
  let today :=
    append_if (String.eqb (lower sensitivity) "forte" && Qle_bool 150 caf)
              msg_sensitivity_high today in
  let today :=
    append_if (String.eqb (lower sensitivity) "faible" && Qltb 300 caf)
              msg_sensitivity_low today in
  let today := append_if (is_empty today) msg_nothing_alarming today in
  today.

(** The trends: the three counts of [Cafe1.py]; this file has no
    comparison of bins. *)
Definition tendances (df : list log_row) : list string :=
  let patterns := [] in
  let last7 := tail 7 df in
  let patterns :=
    if (3 <=? List.length last7)%nat then
      let high_caf_days := Cafe1.high_caf_days last7 in
      let low_sleep_days := Cafe1.low_sleep_days last7 in
      let late_days := Cafe1.late_days last7 in
      let patterns :=
        append_if (3 <=? high_caf_days) (msg_high_caf_days high_caf_days) patterns in
      let patterns :=
        append_if (3 <=? late_days) (msg_late_days late_days) patterns in
      let patterns :=
        append_if (3 <=? low_sleep_days) (msg_low_sleep_days low_sleep_days) patterns in
      patterns
    else patterns in
  let patterns := append_if (is_empty patterns) msg_no_trend patterns in
  patterns.

Definition resume (sensitivity : string) (latest : log_row) : list string :=
  let caf := safe_float (caffeine_mg_total latest) 0 in
  let last_h := safe_int (last_caffeine_hour latest) 0 in
  let sleep_h := safe_float (sleep_hours latest) 0 in
  let anxiety := safe_int (anxiety_1_10 latest) 0 in
  let stress := safe_int (stress_1_10 latest) 0 in
  let focus := safe_int (focus_1_10 latest) 0 in
  let level := Cafe1.caffeine_level caf in
  let summary :=
    [ "**Dernière date :** " ++ date latest;
      "**Caféine totale :** " ++ str_int (trunc caf) ++ " mg (**niveau : "
        ++ level ++ "**)";
      "**Dernière prise :** " ++ str_int last_h ++ "h";
      "**Sommeil (calculé) :** " ++ fmt_1f sleep_h ++ " h (qualité "
        ++ str_int (safe_int (sleep_quality_1_5 latest) 0) ++ "/5)";
      "**Anxiété :** " ++ str_int anxiety ++ "/10 • **Stress :** "
        ++ str_int stress ++ "/10 • **Concentration :** "
        ++ str_int focus ++ "/10" ] in
  append_if (negb (is_empty (list_ascii_of_string sensitivity)))
            ("**Sensibilité déclarée :** " ++ sensitivity) summary.

Definition build_recommendations (participant_row : option participant)
  (logs_df : list log_row) : report :=
  match logs_df with
  | [] =>
      {| summary := ["Aucune donnée pour ce participant."];
         today := [];
         patterns := [] |}
  | first :: _ =>
      let df := sort_by_date logs_df in
      let latest := last df first in
      let sensitivity :=
        match participant_row with
        | Some row => strip (sensitivity row)
        | None => ""
        end in
      {| summary := resume sensitivity latest;
         today := conseils_du_jour sensitivity latest;
         patterns := tendances df |}
  end.

End CafeLamiaa.

(* ================================================================= *)
(** ** cafe.py *)

Module Cafe.

Definition CAFFEINE_CATALOG : list (string * Z) := Cafe1.CAFFEINE_CATALOG.

Definition compute_caffeine_total (drink_qty : list (string * Z))
  : Z * string :=
  caffeine_total_with CAFFEINE_CATALOG drink_qty.

Definition risk_level (caffeine_mg_total : Q) : string :=
  if Qltb caffeine_mg_total 100 then "Faible"
  else if Qle_bool caffeine_mg_total 200 then "Moyen"
  else "Élevé".

Definition msg_high_dose : string :=
  "Dose élevée aujourd’hui (> 200 mg). Essaie de réduire progressivement (ex: -25 à -50 mg).".
Definition msg_late : string :=
  "Dernière prise tardive (≥ 17h) : risque de sommeil perturbé. Vise plutôt avant 16–17h.".
Definition msg_short_sleep : string :=
  "Sommeil < 7h : priorité à l’hygiène du sommeil (écran ↓ le soir, routine, caféine plus tôt).".
Definition msg_anxiety : string :=
  "Anxiété élevée + caféine modérée/forte : réduis la caféine et évite les boissons énergétiques.".
Definition msg_stress : string :=
  "Stress élevé : privilégie hydratation + pauses, et limite la caféine surtout l’après-midi.".
Definition msg_palpitations : string :=
  "Palpitations signalées : forte sensibilité possible. Diminue la caféine et évite les énergétiques.".
Definition msg_ras : string :=
  "RAS majeur détecté aujourd’hui. Garde une consommation modérée et une dernière prise assez tôt.".

(** [float(x or 0)] of a cell: zero stays zero, NaN stays NaN. *)
Definition float_or_0 (x : cell) : cell :=
  match x with
  | Num q => Num (if Qeq_bool q 0 then 0%Q else q)
  | NaN => NaN
  end.

(** [recommendations_for_row(row)].  [int(x or 0)] of a NaN cell raises
    [ValueError], which nothing catches: the result is then [None].
    [int(float(last_h))] of NaN raises inside the [try], and the late
    rule is skipped. *)
Definition recommendations_for_row (row : log_row) : option (list string) :=
  let recs := [] in
  let caf := float_or_0 (caffeine_mg_total row) in
  let last_h := last_caffeine_hour row in
  let sleep_h := float_or_0 (sleep_hours row) in
  let anxiety := float_or_0 (anxiety_1_10 row) in
  let stress := float_or_0 (stress_1_10 row) in
  match palpitations row with
  | NaN => None
  | Num p =>
      let palpitations := trunc p in
      let recs := append_if (series_gt caf 200) msg_high_dose recs in
      let recs :=
        match last_h with
        | Num h =>
            let last_h_int := trunc h in
            append_if ((17 <=? last_h_int) && series_ge caf 100) msg_late recs
        | NaN => recs
        end in
      let recs := append_if (series_lt sleep_h 7) msg_short_sleep recs in
      let recs :=
        append_if (series_ge anxiety 7 && series_ge caf 150) msg_anxiety recs in
      let recs :=
        append_if (series_ge stress 7 && series_ge caf 150) msg_stress recs in
      let recs := append_if (palpitations =? 1) msg_palpitations recs in
      let recs := append_if (is_empty recs) msg_ras recs in
      Some recs
  end.

(** *** The sleep duration from two times of the day *)

(** [(wake_dt - bed_dt).total_seconds()], both times taken on the same
    day and the waking time moved to the next day when it is not after
    the bed time. *)
Definition total_seconds (bed wake : time) : Z :=
  let bed_dt := hour bed * 3600 + minute bed * 60 in
  let wake_dt := hour wake * 3600 + minute wake * 60 in
  let wake_dt := if wake_dt <=? bed_dt then wake_dt + 86400 else wake_dt in
  wake_dt - bed_dt.

Definition compute_sleep_hours (bed wake : time) : Q :=
  let hours := (inject_Z (total_seconds bed wake) / 3600)%Q in
  round2 hours.

(** *** [weekly_insights] *)

Definition msg_few_days : string :=
  "Pas assez de données (≥ 5 jours) pour générer des insights fiables.".
Definition msg_no_insight : string :=
  "Insights non générés (données insuffisantes ou trop de valeurs manquantes).".
Definition msg_comparison (best worst : bin_row) : string :=
  "Comparaison qualité sommeil : meilleure en **" ++ caf_bin best
  ++ "** (moyenne " ++ fmt_cell_2f (sleep_q best) ++ ", n="
  ++ str_int (n best) ++ "), plus faible en **" ++ caf_bin worst
  ++ "** (moyenne " ++ fmt_cell_2f (sleep_q worst) ++ ", n="
  ++ str_int (n worst) ++ ").".
Definition msg_corr_quality (csq : cell) : string :=
  "Corrélation (approx.) caféine ↔ qualité sommeil : **"
  ++ fmt_cell_2f csq ++ "**.".
Definition msg_corr_hours (csh : cell) : string :=
  "Corrélation (approx.) caféine ↔ durée sommeil : **"
  ++ fmt_cell_2f csh ++ "**.".
Definition msg_corr_anxiety (cax : cell) : string :=
  "Corrélation (approx.) caféine ↔ anxiété : **" ++ fmt_cell_2f cax ++ "**.".

Section Insights.

(** The three coefficients that the function reads from
    [DataFrame.corr()]: caffeine against sleep quality, sleep duration
    and anxiety.  The frame of the four numeric columns always has the
    row and the column of the caffeine total. *)
Variable corr : list log_row -> cell * cell * cell.

Definition comparison_of (g : list bin_row) : list string :=
  let valid := dropna_sleep_q g in
  if (2 <=? List.length valid)%nat then
    match sort_values sleep_q_leb false valid,
          sort_values sleep_q_leb true valid with
    | best :: _, worst :: _ => [msg_comparison best worst]
    | _, _ => []
    end
  else [].

Definition weekly_insights (logs_df : list log_row) : list string :=
  let insights := [] in
  if is_empty logs_df || (List.length logs_df <? 5)%nat then [msg_few_days]
  else
    let g := group_by_bin Cafe1.bin_labels Cafe1.caf_bin_of logs_df in
    let insights :=
      if negb (is_empty g) then
        let insights := (insights ++ comparison_of g)%list in
        let '(csq, csh, cax) := corr logs_df in
        (insights ++ [msg_corr_quality csq; msg_corr_hours csh;
                      msg_corr_anxiety cax])%list
      else insights in
    append_if (is_empty insights) msg_no_insight insights.

End Insights.

(** *** The alert on the last three entries *)

Definition msg_alert : string :=
  "Alerte: sur les 3 derniers jours, caféine élevée + sommeil faible → risque de fatigue et baisse performance.".
Definition msg_attention : string :=
  "Attention: sommeil faible + anxiété élevée sur plusieurs jours → réduire caféine et prioriser récupération.".
Definition msg_no_alert : string :=
  "Pas d’alerte forte sur les 3 derniers jours (selon les seuils définis).".
Definition msg_alert_needs_3 : string :=
  "Ajoute au moins 3 jours de données pour l’alerte multi-jours.".

Definition alerte_simple (dff : list log_row) : shown :=
  let last_n := tail 3 (sort_by_date dff) in
  if (3 <=? List.length last_n)%nat then
    let cond_sleep := mask_sum (fun r => series_lt (sleep_hours r) 7) last_n in
    let cond_caf :=
      mask_sum (fun r => series_gt (caffeine_mg_total r) 200) last_n in
    let cond_anx := mask_sum (fun r => series_ge (anxiety_1_10 r) 7) last_n in
    if (2 <=? cond_sleep) && (2 <=? cond_caf) then st_error msg_alert
    else if (2 <=? cond_sleep) && (2 <=? cond_anx) then st_warning msg_attention
    else st_success msg_no_alert
  else st_info msg_alert_needs_3.

(** *** The deletion of a participant *)

(** The handler of the button "Supprimer" on the loaded participants
    and logs: what is saved as participants, what the logs are
    afterwards (they are saved only when they change), and what is
    shown. *)
Definition delete_participant_submit (participants : list participant)
  (logs : list log_row) (del_pid : string) (delete_logs : bool)
  : list participant * list log_row * shown :=
  let participants :=
    filter (fun p => negb (String.eqb (p_participant_id p) del_pid))
           participants in
  let logs :=
    if delete_logs && negb (is_empty logs) then
      filter (fun r => negb (String.eqb (participant_id r) del_pid)) logs
    else logs in
  (participants, logs, st_success ("✅ Participant " ++ del_pid ++ " supprimé.")).

End Cafe.

(* ================================================================= *)
(** ** lamiaacafe.py *)

Module Lamiaacafe.

Definition MAX_CAFEINE : Z := 400.
Definition HEURE_LIMITE : Z := 16.

Definition CAFEINE_BOISSONS : list (string * Z) :=
  [ ("Expresso", 70);
    ("Café filtre", 100);
    ("Thé", 40) ].

(** [st.session_state]: the running total and the cups of the day, each
    with its drink, its milligrams and its hour. *)
Record session_state : Type := {
  total_cafeine : Z;
  historique : list (string * Z * Z)
}.

(** The state of a new session. *)
Definition initial_state : session_state :=
  {| total_cafeine := 0; historique := [] |}.

Definition msg_sain : string := "✅ Statut : Consommation saine".
Definition msg_attention : string := "⚠️ Statut : Attention à l’excès".
Definition msg_danger : string := "❌ Statut : Excès dangereux".

Definition stat_global (state : session_state) : string :=
  let total := total_cafeine state in
  if total <? 250 then msg_sain
  else if total <? 400 then msg_attention
  else msg_danger.

Definition msg_vigilance : string := "🧠 Bonne vigilance sans risque.".
Definition msg_stress : string := "❤️ Attention au stress et aux palpitations.".
Definition msg_risque : string := "😴 Risque élevé : sommeil et cœur affectés.".

Definition conseils_sante (state : session_state) : string :=
  let total := total_cafeine state in
  if total <? 200 then msg_vigilance
  else if total <? 350 then msg_stress
  else msg_risque.

(** The line feed of the Python texts. *)
Definition nl : string := String (ascii_of_nat 10) EmptyString.

Definition msg_tard : string :=
  "⚠️ Café après 16h : risque pour le sommeil." ++ nl ++ nl.

(** [d[key]] on a dict: nothing stands for [KeyError]. *)
Fixpoint getitem (d : list (string * Z)) (key : string) : option Z :=
  match d with
  | [] => None
  | (k, v) :: rest => if String.eqb k key then Some v else getitem rest key
  end.

(** The handler of the button "Ajouter une tasse", with [heure] the
    hour of [datetime.now()]: the state afterwards and what is shown. *)
Definition ajouter_une_tasse (state : session_state) (boisson : string)
  (heure : Z) : option (session_state * list shown) :=
  match getitem CAFEINE_BOISSONS boisson with
  | None => None
  | Some mg =>
      let state :=
        {| total_cafeine := total_cafeine state + mg;
           historique := (historique state ++ [(boisson, mg, heure)])%list |} in
      let message := "" in
      let message :=
        if HEURE_LIMITE <=? heure then message ++ msg_tard else message in
      let message :=
        message ++ conseils_sante state ++ nl ++ stat_global state in
      Some (state,
            [ st_success ("Ajouté : " ++ boisson ++ " (+" ++ str_int mg
                          ++ " mg)");
              st_info message ])
  end.

(** The handler of the button "Nouvelle journée". *)
Definition nouvelle_journee (state : session_state)
  : session_state * list shown :=
  ({| total_cafeine := 0; historique := [] |},
   [ st_success "Nouvelle journée ! Les compteurs ont été réinitialisés." ]).

End Lamiaacafe.

(* ================================================================= *)
(** ** APPLICATION.py *)

Module Application.

(** The accounts of [accounts.json], as the application writes them:
    one object with the password for each user name, in the order of
    their creation. *)
Definition accounts : Type := list (string * string).

(** [accounts[username]["password"]], when [username in accounts]. *)
Fixpoint password_of (a : accounts) (username : string) : option string :=
  match a with
  | [] => None
  | (u, p) :: rest =>
      if String.eqb u username then Some p else password_of rest username
  end.

(** The handler of the button "Se connecter": the user of the session
    afterwards, given the one before, and what is shown. *)
Definition se_connecter (a : accounts) (user : option string)
  (username password : string) : option string * shown :=
  match password_of a username with
  | Some p =>
      if String.eqb p password
      then (Some username, st_success ("Bienvenue " ++ username))
      else (user, st_error "Identifiants incorrects")
  | None => (user, st_error "Identifiants incorrects")
  end.

(** The handler of the button "Créer le compte": the accounts that are
    saved, and what is shown. *)
Definition creer_le_compte (a : accounts) (new_user new_pass : string)
  : accounts * shown :=
  match password_of a new_user with
  | Some _ => (a, st_error "Ce nom existe déjà.")
  | None =>
      ((a ++ [(new_user, new_pass)])%list,
       st_success "Compte créé ! Connectez-vous.")
  end.

End Application.

(* ================================================================= *)
(** ** The rule table of the specification

    The rows of the table of the rule engine, in the order of the
    table, with the predicate of each row on the values read from the
    latest record (a missing value reads as 0) and on the sensitivity of
    the participant (empty when there is no profile).  The two rows on a
    total above 200 are kept apart, and the row of the symptom flags is
    one rule for each flag. *)

Inductive rule : Type :=
| LateIntake
| ShortSleep
| HighDoseHeart
| PalpitationsFlag
| UsefulBand
| Overstimulation
| AnxietyAmplified
| StressAmplified
| HeadacheFlag
| IrritabilityFlag
| DigestiveFlag
| SensitivityHigh
| SensitivityLow.

Definition rule_table : list rule :=
  [ LateIntake; ShortSleep; HighDoseHeart; PalpitationsFlag; UsefulBand;
    Overstimulation; AnxietyAmplified; StressAmplified; HeadacheFlag;
    IrritabilityFlag; DigestiveFlag; SensitivityHigh; SensitivityLow ].

Section RuleTable.

Variable sensitivity_read : string.
Variable latest : log_row.

Let total : Q := safe_float (caffeine_mg_total latest) 0.
Let last_hour : Z := safe_int (last_caffeine_hour latest) 0.
Let sleep_duration : Q := safe_float (sleep_hours latest) 0.
Let flag (c : cell) : Z := safe_int c 0.

Definition holds (r : rule) : Prop :=
  match r with
  | LateIntake => 17 <= last_hour /\ (100 <= total)%Q
  | ShortSleep => (sleep_duration < 7)%Q
  | HighDoseHeart => (200 < total)%Q
  | PalpitationsFlag => flag (palpitations latest) = 1
  | UsefulBand => (80 <= total)%Q /\ (total <= 150)%Q
  | Overstimulation => (200 < total)%Q
  | AnxietyAmplified =>
      7 <= safe_int (anxiety_1_10 latest) 0 /\ (150 <= total)%Q
  | StressAmplified =>
      7 <= safe_int (stress_1_10 latest) 0 /\ (150 <= total)%Q
  | HeadacheFlag => flag (headache latest) = 1
  | IrritabilityFlag => flag (irritability latest) = 1
  | DigestiveFlag => flag (digestive latest) = 1
  | SensitivityHigh =>
      lower sensitivity_read = "forte" /\ (150 <= total)%Q
  | SensitivityLow =>
      lower sensitivity_read = "faible" /\ (300 < total)%Q
  end.

(** The predicate of a row, decided. *)
Definition holdsb (r : rule) : bool :=
  match r with
  | LateIntake => (17 <=? last_hour) && Qle_bool 100 total
  | ShortSleep => Qltb sleep_duration 7
  | HighDoseHeart => Qltb 200 total
  | PalpitationsFlag => flag (palpitations latest) =? 1
  | UsefulBand => Qle_bool 80 total && Qle_bool total 150
  | Overstimulation => Qltb 200 total
  | AnxietyAmplified =>
      (7 <=? safe_int (anxiety_1_10 latest) 0) && Qle_bool 150 total
  | StressAmplified =>
      (7 <=? safe_int (stress_1_10 latest) 0) && Qle_bool 150 total
  | HeadacheFlag => flag (headache latest) =? 1
  | IrritabilityFlag => flag (irritability latest) =? 1
  | DigestiveFlag => flag (digestive latest) =? 1
  | SensitivityHigh =>
      String.eqb (lower sensitivity_read) "forte" && Qle_bool 150 total
  | SensitivityLow =>
      String.eqb (lower sensitivity_read) "faible" && Qltb 300 total
  end.

(** The rules of the table whose predicate holds, in table order. *)
Definition fired : list rule := filter holdsb rule_table.

End RuleTable.

(** The text [Cafe1.py] gives for each row. *)
Definition message (r : rule) : string :=
  match r with
  | LateIntake => Cafe1.msg_late
  | ShortSleep => Cafe1.msg_short_sleep
  | HighDoseHeart => Cafe1.msg_heart_dose
  | PalpitationsFlag => Cafe1.msg_palpitations
  | UsefulBand => Cafe1.msg_useful_band
  | Overstimulation => Cafe1.msg_overstimulation
  | AnxietyAmplified => Cafe1.msg_anxiety
  | StressAmplified => Cafe1.msg_stress
  | HeadacheFlag => Cafe1.msg_headache
  | IrritabilityFlag => Cafe1.msg_irritability
  | DigestiveFlag => Cafe1.msg_digestive
  | SensitivityHigh => Cafe1.msg_sensitivity_high
  | SensitivityLow => Cafe1.msg_sensitivity_low
  end.

(** The sensitivity the engine reads from the profile row, if any. *)
Definition sensitivity_of (participant_row : option participant) : string :=
  match participant_row with
  | Some row => strip (sensitivity row)
  | None => ""
  end.

(** A day of the daily log with the given values in the columns the
    rules read, for the examples. *)
Definition sample_day (day : string) (total : Q) (last_hour : Z)
  (sleep : Q) (quality : Z) : log_row :=
  {| date := day;
     participant_id := "P001";
     caffeine_mg_total := Num total;
     last_caffeine_hour := Num (inject_Z last_hour);
     bed_hour := Num 23;
     wake_hour := Num 7;
     sleep_hours := Num sleep;
     sleep_quality_1_5 := Num (inject_Z quality);
     stress_1_10 := Num 5;
     anxiety_1_10 := Num 4;
     focus_1_10 := Num 6;
     palpitations := Num 0;
     headache := Num 0;
     irritability := Num 0;
     digestive := Num 0;
     drinks_detail := "";
     created_at := "2024-01-01T08:00:00" |}.

(* ================================================================= *)
(** ** The total intake of the specification

    For a mapping from the items of a catalogue to counts: the sum over
    the items of the catalogue of count times milligrams per unit, and
    the listing of the items with a positive count, in the order of the
    catalogue. *)

Section TotalIntake.

Variable catalog : list (string * Z).
Variable quantities : list (string * Z).

Definition count_of (item : string) : Z := dict_get quantities item 0.

Definition intake_sum : Z :=
  fold_right Z.add 0
    (map (fun entry => count_of (fst entry) * snd entry) catalog).

Definition intake_listing : string :=
  join " | "
    (map (fun entry =>
            breakdown_part (fst entry) (count_of (fst entry))
                           (count_of (fst entry) * snd entry))
         (filter (fun entry => 0 <? count_of (fst entry)) catalog)).

End TotalIntake.

(** The keys of a mapping come in the order of the keys of the
    catalogue: they are picked from them, from first to last. *)
Inductive in_order {A : Type} : list A -> list A -> Prop :=
| in_order_nil : forall l, in_order [] l
| in_order_take : forall x l1 l2, in_order l1 l2 -> in_order (x :: l1) (x :: l2)
| in_order_skip : forall x l1 l2, in_order l1 l2 -> in_order l1 (x :: l2).

(** [needle] occurs in [text]. *)
Definition occurs_in (needle text : string) : Prop :=
  exists before after, text = before ++ needle ++ after.

(* ================================================================= *)
(** ** The record store and the window of the specification *)

(** The pair (participant identifier, date) is already in the store:
    some row that the store loads carries it. *)
Definition key_present (file : list log_row) (pid day : string) : Prop :=
  exists r, In r (Cafe1.load_logs file)
            /\ participant_id r = pid /\ date r = day.

(** The days that the three counters of the trend analyzer count. *)
Definition total_over_200 (r : log_row) : Prop :=
  exists q, caffeine_mg_total r = Num q /\ (200 < q)%Q.
Definition last_intake_from_17h (r : log_row) : Prop :=
  exists q, last_caffeine_hour r = Num q /\ (17 <= q)%Q.
Definition sleep_under_7h (r : log_row) : Prop :=
  exists q, sleep_hours r = Num q /\ (q < 7)%Q.

(** The window of a history: the last seven records by date. *)
Definition window (logs_df : list log_row) : list log_row :=
  tail 7 (sort_by_date logs_df).

(** The text of a pattern, under its threshold of three days. *)
Definition pattern_if (count : Z) (text : Z -> string) : list string :=
  if 3 <=? count then [text count] else [].

(** The conditional appends of a list of (condition, text) pairs, one
    after the other. *)
Definition append_all (rules : list (bool * string)) (acc : list string)
  : list string :=
  fold_left (fun acc rule => append_if (fst rule) (snd rule) acc) rules acc.

(** What the rule engine answers for the rules that fired. *)
Definition answer (fallback : string) (texts : list string) : list string :=
  match texts with
  | [] => [fallback]
  | _ :: _ => texts
  end.

(** The six rules of [recommendations_for_row] of [cafe.py], in the
    order in which that function evaluates them. *)
Definition cafe_py_rules (row : log_row) : list (bool * string) :=
  let caf := Cafe.float_or_0 (caffeine_mg_total row) in
  [ (series_gt caf 200, Cafe.msg_high_dose);
    (match last_caffeine_hour row with
     | Num h => (17 <=? trunc h) && series_ge caf 100
     | NaN => false
     end, Cafe.msg_late);
    (series_lt (Cafe.float_or_0 (sleep_hours row)) 7, Cafe.msg_short_sleep);
    (series_ge (Cafe.float_or_0 (anxiety_1_10 row)) 7 && series_ge caf 150,
     Cafe.msg_anxiety);
    (series_ge (Cafe.float_or_0 (stress_1_10 row)) 7 && series_ge caf 150,
     Cafe.msg_stress);
    (safe_int (palpitations row) 0 =? 1, Cafe.msg_palpitations) ].

(** Five days with a total of 50 mg, an early last intake, 8 hours of
    sleep and a sleep quality of 3: every day falls in the lowest bin. *)
Definition five_low_days : list log_row :=
  [ sample_day "2024-01-01" 50 10 8 3;
    sample_day "2024-01-02" 50 10 8 3;
    sample_day "2024-01-03" 50 10 8 3;
    sample_day "2024-01-04" 50 10 8 3;
    sample_day "2024-01-05" 50 10 8 3 ].

(** The bins of a window, as the trend analyzer groups them. *)
Definition bins_of (last7 : list log_row) : list bin_row :=
  group_by_bin Cafe1.bin_labels Cafe1.caf_bin_of last7.

(** A filled form, for the examples: two espressos on 2024-01-01. *)
Definition sample_form : daily_entry :=
  {| f_pid := "P001";
     f_entry_date := "2024-01-01";
     f_qty := fun drink => if String.eqb drink "Espresso (30 ml)" then 2 else 0;
     f_last_caffeine_hour := 16;
     f_bed_hour := 23;
     f_wake_hour := 7;
     f_sleep_quality := 3;
     f_stress := 5;
     f_anxiety := 4;
     f_focus := 6;
     f_sym_values := fun _ => false |}.

(** The text [CafeLamiaa.py] gives for each row. *)
Definition lamiaa_message (r : rule) : string :=
  match r with
  | LateIntake => CafeLamiaa.msg_late
  | ShortSleep => CafeLamiaa.msg_short_sleep
  | HighDoseHeart => CafeLamiaa.msg_heart_dose
  | PalpitationsFlag => CafeLamiaa.msg_palpitations
  | UsefulBand => CafeLamiaa.msg_useful_band
  | Overstimulation => CafeLamiaa.msg_overstimulation
  | AnxietyAmplified => CafeLamiaa.msg_anxiety
  | StressAmplified => CafeLamiaa.msg_stress
  | HeadacheFlag => CafeLamiaa.msg_headache
  | IrritabilityFlag => CafeLamiaa.msg_irritability
  | DigestiveFlag => CafeLamiaa.msg_digestive
  | SensitivityHigh => CafeLamiaa.msg_sensitivity_high
  | SensitivityLow => CafeLamiaa.msg_sensitivity_low
  end.

(** The doubles that the literals [99.9] and [200.01] denote. *)
Definition double_99_9 : Q := 3514918771674317 # 35184372088832.
Definition double_200_01 : Q := 879653282685911 # 4398046511104.

(** Three days with 250 mg, a last intake at 18h and 6 hours of sleep. *)
Definition three_heavy_days : list log_row :=
  [ sample_day "2024-01-01" 250 18 6 3;
    sample_day "2024-01-02" 250 18 6 3;
    sample_day "2024-01-03" 250 18 6 3 ].

(* ================================================================= *)
(** ** Notions used to state the further properties *)

(** The number of an identifier of the shape [P<digits>], as
    [next_participant_id] reads it. *)
Definition id_number (pid : string) : option Z :=
  match upper (strip pid) with
  | String "P"%char rest =>
      if isdigit rest then Some (int_of_digits rest) else None
  | _ => None
  end.

(** The key of a row of the daily log. *)
Definition key_of (r : log_row) : string * string :=
  (participant_id r, date r).

(** The counts of the number inputs of the daily form lie in 0..20. *)
Definition counts_in_form_range (form : daily_entry) : Prop :=
  forall drink, 0 <= f_qty form drink <= 20.

(** A log row that holds the given total, with the other columns of
    [sample_day]. *)
Definition day_with_total (total : Q) : log_row :=
  sample_day "2024-01-01" total 10 8 3.

(** A day on which every flag is set and every score is high, and a
    participant of low sensitivity. *)
Definition heavy_day : log_row :=
  {| date := "2024-01-01";
     participant_id := "P001";
     caffeine_mg_total := Num 301;
     last_caffeine_hour := Num 18;
     bed_hour := Num 1;
     wake_hour := Num 6;
     sleep_hours := Num 5;
     sleep_quality_1_5 := Num 2;
     stress_1_10 := Num 8;
     anxiety_1_10 := Num 8;
     focus_1_10 := Num 3;
     palpitations := Num 1;
     headache := Num 1;
     irritability := Num 1;
     digestive := Num 1;
     drinks_detail := "";
     created_at := "2024-01-01T21:00:00" |}.

Definition low_sensitivity_participant : participant :=
  {| p_participant_id := "P001";
     p_age := 20;
     p_sex := "";
     sensitivity := "Faible";
     screen_time_evening := "";
     sport := "";
     p_created_at := "2024-01-01T08:00:00" |}.

(** [x] is strictly older than every row of [logs]. *)
Definition older_than_all (x : log_row) (logs : list log_row) : Prop :=
  forall r, In r logs -> String.leb (date r) (date x) = false.

(** The line of the summary that gives the total and its level. *)
Definition level_line (latest : log_row) (level : string) : string :=
  "**Caféine totale :** "
  ++ str_int (trunc (safe_float (caffeine_mg_total latest) 0))
  ++ " mg (**niveau : " ++ level ++ "**)".

(** A time of the day as a time input gives it. *)
Definition valid_time (t : time) : Prop :=
  0 <= hour t <= 23 /\ 0 <= minute t <= 59.

(** A bin whose mean sleep quality is a number. *)
Definition has_mean (b : bin_row) : Prop :=
  exists q, sleep_q b = Num q.

(** The mean sleep quality of [a] is at most that of [b]. *)
Definition mean_le (a b : bin_row) : Prop :=
  exists x y, sleep_q a = Num x /\ sleep_q b = Num y /\ (x <= y)%Q.

(** A day on which the anxiety score is at least 7. *)
Definition anxiety_from_7 (r : log_row) : Prop :=
  exists q, anxiety_1_10 r = Num q /\ (7 <= q)%Q.

(** What the user of [lamiaacafe.py] can do, and the session after a
    sequence of such actions; nothing when a drink is not in the
    catalogue. *)
Inductive action : Type :=
| Ajouter (boisson : string) (heure : Z)
| NouvelleJournee.

Definition step (state : Lamiaacafe.session_state) (a : action)
  : option Lamiaacafe.session_state :=
  match a with
  | Ajouter boisson heure =>
      option_map fst (Lamiaacafe.ajouter_une_tasse state boisson heure)
  | NouvelleJournee => Some (fst (Lamiaacafe.nouvelle_journee state))
  end.

Fixpoint run (state : Lamiaacafe.session_state) (actions : list action)
  : option Lamiaacafe.session_state :=
  match actions with
  | [] => Some state
  | a :: rest =>
      match step state a with
      | Some state' => run state' rest
      | None => None
      end
  end.

(** The drink of an action is one of the select box. *)
Definition offered (a : action) : Prop :=
  match a with
  | Ajouter boisson _ => In boisson (map fst Lamiaacafe.CAFEINE_BOISSONS)
  | NouvelleJournee => True
  end.

(** The milligrams of the cups of the day. *)
Definition cups_total (state : Lamiaacafe.session_state) : Z :=
  fold_right Z.add 0 (map (fun h => snd (fst h)) (Lamiaacafe.historique state)).

(** A filled form of the participants, for the examples. *)
Definition sample_participant_form : participant_form :=
  {| a_pid := "P002";
     a_age := 21;
     a_sex := "F";
     a_sensitivity := "Forte";
     a_screen_time := "";
     a_sport := "Oui" |}.

(** A day whose sleep duration is missing. *)
Definition day_without_sleep : log_row :=
  {| date := "2024-01-01";
     participant_id := "P001";
     caffeine_mg_total := Num 50;
     last_caffeine_hour := Num 10;
     bed_hour := NaN;
     wake_hour := NaN;
     sleep_hours := NaN;
     sleep_quality_1_5 := Num 3;
     stress_1_10 := Num 5;
     anxiety_1_10 := Num 4;
     focus_1_10 := Num 6;
     palpitations := Num 0;
     headache := Num 0;
     irritability := Num 0;
     digestive := Num 0;
     drinks_detail := "";
     created_at := "2024-01-01T21:00:00" |}.

(** A day of a second participant, for the examples. *)
Definition day_of_P002 : log_row :=
  {| date := "2024-01-01";
     participant_id := "P002";
     caffeine_mg_total := Num 80;
     last_caffeine_hour := Num 9;
     bed_hour := Num 22;
     wake_hour := Num 6;
     sleep_hours := Num 8;
     sleep_quality_1_5 := Num 4;
     stress_1_10 := Num 3;
     anxiety_1_10 := Num 2;
     focus_1_10 := Num 7;
     palpitations := Num 0;
     headache := Num 0;
     irritability := Num 0;
     digestive := Num 0;
     drinks_detail := "";
     created_at := "2024-01-01T20:00:00" |}.

(** Half past eleven in the evening and seven in the morning. *)
Definition half_past_23 : time := {| hour := 23; minute := 30 |}.
Definition seven_o_clock : time := {| hour := 7; minute := 0 |}.

(** The number of elements of a list that satisfy a condition: the
    count of the days of a window that match it. *)
Inductive number_of {A : Type} (P : A -> Prop) : list A -> Z -> Prop :=
| number_of_nil : number_of P [] 0
| number_of_yes (x : A) (l : list A) (n : Z) :
    P x -> number_of P l n -> number_of P (x :: l) (n + 1)
| number_of_no (x : A) (l : list A) (n : Z) :
    ~ P x -> number_of P l n -> number_of P (x :: l) n.

(** A text in ASCII, and an identifier as the properties of the
    participants take it: in ASCII and of at most 4300 characters. *)
Definition is_ascii (c : ascii) : bool := (nat_of_ascii c <? 128)%nat.

Definition ascii_text (s : string) : Prop :=
  Forall (fun c => is_ascii c = true) (list_ascii_of_string s).

Definition typed_id (s : string) : Prop :=
  ascii_text s /\ (String.length s <= 4300)%nat.

(** Discharges [typed_id] on a literal identifier. *)
Ltac typed_id_holds :=
  split; [unfold ascii_text; cbn; repeat constructor | cbn; lia].

(* ================================================================= *)
(** * Properties *)

(** ** Comparisons of rationals *)

Lemma Qltb_lt (x y : Q) : Qltb x y = true <-> (x < y)%Q.
Proof.
  unfold Qltb. rewrite negb_true_iff.
  split; intro H.
  - apply Qnot_le_lt. intro Hle. apply Qle_bool_iff in Hle. congruence.
  - destruct (Qle_bool y x) eqn:E; [|reflexivity].
    apply Qle_bool_iff in E. exfalso. exact (Qlt_not_le _ _ H E).
Qed.

Lemma Qltb_ge (x y : Q) : Qltb x y = false <-> (y <= x)%Q.
Proof.
  unfold Qltb. rewrite negb_false_iff. apply Qle_bool_iff.
Qed.

Lemma Qle_bool_gt (x y : Q) : Qle_bool x y = false <-> (y < x)%Q.
Proof.
  rewrite <- Qltb_lt. unfold Qltb. now rewrite negb_true_iff.
Qed.

(** ** Metric calculator: the duration of sleep *)

Lemma round_half_even_Z (z : Z) : round_half_even (inject_Z z) = z.
Proof.
  unfold round_half_even. rewrite Qfloor_Z.
  assert (E : (inject_Z z - inject_Z z == 0)%Q) by ring.
  replace (Qeq_bool (inject_Z z - inject_Z z) (1 # 2)) with false.
  - assert (F : Qfloor (2 * (inject_Z z - inject_Z z)) = 0).
    { transitivity (Qfloor 0); [|reflexivity].
      apply Qfloor_comp. rewrite E. ring. }
    rewrite F. lia.
  - symmetry. apply not_true_iff_false. intro H.
    apply Qeq_bool_iff in H. rewrite E in H. discriminate H.
Qed.

Lemma round_half_even_comp (p q : Q) :
  (p == q)%Q -> round_half_even p = round_half_even q.
Proof.
  intro E. unfold round_half_even.
  rewrite (Qfloor_comp _ _ E).
  assert (E1 : (p - inject_Z (Qfloor q) == q - inject_Z (Qfloor q))%Q)
    by (rewrite E; reflexivity).
  assert (E2 : Qfloor (2 * (p - inject_Z (Qfloor q)))
               = Qfloor (2 * (q - inject_Z (Qfloor q)))).
  { apply Qfloor_comp. rewrite E1. reflexivity. }
  rewrite E2.
  replace (Qeq_bool (p - inject_Z (Qfloor q)) (1 # 2))
    with (Qeq_bool (q - inject_Z (Qfloor q)) (1 # 2)); [reflexivity|].
  apply eq_true_iff_eq. rewrite !Qeq_bool_iff. rewrite E1. reflexivity.
Qed.

Lemma round2_Z (z : Z) : round2 (inject_Z z) = inject_Z z.
Proof.
  unfold round2.
  rewrite (round_half_even_comp _ (inject_Z (z * 100))).
  2:{ rewrite inject_Z_mult. reflexivity. }
  rewrite round_half_even_Z.
  transitivity (Qred (inject_Z z)).
  - apply Qred_complete. rewrite inject_Z_mult. field.
  - apply Qcanon.Qred_identity. simpl. apply Z.gcd_1_r.
Qed.

Lemma sleep_hours_unfold (bed wake : Z) :
  Cafe1.compute_sleep_hours_from_hours bed wake
  = inject_Z ((if wake <=? bed then wake + 24 else wake) - bed).
Proof.
  unfold Cafe1.compute_sleep_hours_from_hours. apply round2_Z.
Qed.

(** [CafeLamiaa.py] computes the same duration: the [round] of
    [Cafe1.py] changes nothing on a whole number of hours. *)
Lemma lamiaa_sleep_hours_agree (bed wake : Z) :
  CafeLamiaa.compute_sleep_hours_from_hours bed wake
  = Cafe1.compute_sleep_hours_from_hours bed wake.
Proof.
  rewrite sleep_hours_unfold. reflexivity.
Qed.

(** C2.  For all bed and wake hours (in particular those in 0..23) the
    duration of sleep is [wake - bed] when [wake > bed] and
    [wake + 24 - bed] when [wake <= bed]; 23 to 7 is 8 hours, 7 to 23 is
    16 hours and 7 to 7 is a full 24 hours. *)
Theorem sleep_duration_wraps_midnight :
  forall bed wake : Z,
    (bed < wake ->
     Cafe1.compute_sleep_hours_from_hours bed wake = inject_Z (wake - bed)) /\
    (wake <= bed ->
     Cafe1.compute_sleep_hours_from_hours bed wake
     = inject_Z (wake + 24 - bed)) /\
    Cafe1.compute_sleep_hours_from_hours 23 7 = 8%Q /\
    Cafe1.compute_sleep_hours_from_hours 7 23 = 16%Q /\
    Cafe1.compute_sleep_hours_from_hours 7 7 = 24%Q.
Proof.
  intros bed wake. rewrite sleep_hours_unfold.
  repeat split; try reflexivity; intro H.
  - destruct (Z.leb_spec wake bed); [lia | reflexivity].
  - destruct (Z.leb_spec wake bed); [reflexivity | lia].
Qed.

(** ** Metric calculator: the level of the intake *)

Lemma or_0_eq (mg : Q) : ((if Qeq_bool mg 0 then 0 else mg) == mg)%Q.
Proof.
  destruct (Qeq_bool mg 0) eqn:E; [|reflexivity].
  apply Qeq_bool_iff in E. symmetry. exact E.
Qed.

Lemma caffeine_level_cases (mg : Q) :
  ((mg < 100)%Q /\ Cafe1.caffeine_level mg = "Faible") \/
  ((100 <= mg)%Q /\ (mg <= 200)%Q /\ Cafe1.caffeine_level mg = "Moyen") \/
  ((200 < mg)%Q /\ Cafe1.caffeine_level mg = "Élevé").
Proof.
  unfold Cafe1.caffeine_level.
  pose proof (or_0_eq mg) as E.
  set (m := if Qeq_bool mg 0 then 0%Q else mg) in *.
  destruct (Qltb m 100) eqn:E1.
  - left. apply Qltb_lt in E1. rewrite E in E1. auto.
  - apply Qltb_ge in E1. rewrite E in E1.
    destruct (Qle_bool m 200) eqn:E2.
    + right; left. apply Qle_bool_iff in E2. rewrite E in E2. auto.
    + right; right. apply Qle_bool_gt in E2. rewrite E in E2. auto.
Qed.

(** [risk_level] of [cafe.py] is the same classification. *)
Lemma risk_level_agrees (mg : Q) :
  Cafe.risk_level mg = Cafe1.caffeine_level mg.
Proof.
  unfold Cafe.risk_level, Cafe1.caffeine_level.
  pose proof (or_0_eq mg) as E.
  set (m := if Qeq_bool mg 0 then 0%Q else mg) in *.
  replace (Qltb m 100) with (Qltb mg 100).
  - replace (Qle_bool m 200) with (Qle_bool mg 200); [reflexivity|].
    apply eq_true_iff_eq. rewrite !Qle_bool_iff, E. reflexivity.
  - apply eq_true_iff_eq. rewrite !Qltb_lt, E. reflexivity.
Qed.

(** C3.  The level is Low ("Faible") exactly below 100, Medium ("Moyen")
    exactly from 100 to 200, both bounds included, and High ("Élevé")
    exactly above 200; 99.9 is Low, 100 and 200 are Medium and 200.01 is
    High. *)
Theorem intake_level_three_way :
  forall mg : Q,
    (Cafe1.caffeine_level mg = "Faible" <-> (mg < 100)%Q) /\
    (Cafe1.caffeine_level mg = "Moyen" <-> (100 <= mg)%Q /\ (mg <= 200)%Q) /\
    (Cafe1.caffeine_level mg = "Élevé" <-> (200 < mg)%Q) /\
    Cafe1.caffeine_level (999 # 10) = "Faible" /\
    Cafe1.caffeine_level 100 = "Moyen" /\
    Cafe1.caffeine_level 200 = "Moyen" /\
    Cafe1.caffeine_level (20001 # 100) = "Élevé".
Proof.
  intro mg.
  assert (L100 : forall q : Q, (q < 100)%Q -> (100 <= q)%Q -> False)
    by (intros q A B; exact (Qlt_not_le _ _ A B)).
  assert (L200 : forall q : Q, (200 < q)%Q -> (q <= 200)%Q -> False)
    by (intros q A B; exact (Qlt_not_le _ _ A B)).
  assert (L12 : forall q : Q, (q < 100)%Q -> (200 < q)%Q -> False).
  { intros q A B. apply (Qlt_irrefl q).
    apply Qlt_trans with (1 := A). apply Qlt_trans with (2 := B).
    reflexivity. }
  destruct (caffeine_level_cases mg)
    as [[H1 E] | [[H1 [H2 E]] | [H1 E]]]; rewrite E;
    (split; [|split; [|split; [|repeat split; reflexivity]]]); split;
    try (intros _; solve [assumption | split; assumption]);
    try (intro H; discriminate H);
    try (intro H; exfalso; solve [eauto]);
    try (intros [A B]; exfalso; solve [eauto]);
    try reflexivity.
Qed.

(** The same at the doubles nearest to 99.9 and 200.01. *)
Lemma intake_level_at_the_doubles :
  (double_99_9 < 100)%Q /\ Cafe1.caffeine_level double_99_9 = "Faible" /\
  (200 < double_200_01)%Q /\ Cafe1.caffeine_level double_200_01 = "Élevé".
Proof. repeat split. Qed.

(** ** Metric calculator: the total intake *)

Lemma string_app_assoc (a b c : string) : (a ++ b) ++ c = a ++ (b ++ c).
Proof.
  induction a as [|ch a IH]; simpl; [reflexivity | now rewrite IH].
Qed.

Lemma string_app_nil_r (a : string) : a ++ "" = a.
Proof.
  induction a as [|ch a IH]; simpl; [reflexivity | now rewrite IH].
Qed.

Section CaffeineLoop.

Variable catalog : list (string * Z).

(** What one entry of the dict adds to the total and to the parts. *)
Let mg_of (item : string * Z) : Z :=
  if snd item <=? 0 then 0 else snd item * dict_get catalog (fst item) 0.
Let part_of (item : string * Z) : list string :=
  if snd item <=? 0 then []
  else [breakdown_part (fst item) (snd item)
          (snd item * dict_get catalog (fst item) 0)].

Lemma caffeine_loop (items : list (string * Z)) :
  forall (total : Z) (parts : list string),
    fold_left (caffeine_step catalog) items (total, parts)
    = (total + fold_right Z.add 0 (map mg_of items),
       (parts ++ flat_map part_of items)%list).
Proof.
  induction items as [|[drink qty] items IH]; intros total parts.
  - simpl. now rewrite Z.add_0_r, app_nil_r.
  - cbn [fold_left caffeine_step]. subst mg_of part_of. cbn [fst snd].
    destruct (qty <=? 0) eqn:E; rewrite IH; cbn [map flat_map fold_right fst snd];
      rewrite E; cbn [app].
    + reflexivity.
    + rewrite <- app_assoc. cbn [app]. f_equal. lia.
Qed.

Lemma caffeine_total_with_eq (items : list (string * Z)) :
  caffeine_total_with catalog items
  = (fold_right Z.add 0 (map mg_of items),
     join " | " (flat_map part_of items)).
Proof.
  unfold caffeine_total_with. rewrite caffeine_loop. cbn [app].
  f_equal. destruct (flat_map part_of items); reflexivity.
Qed.

(** An item that is not in the catalogue counts for 0 mg. *)
Lemma dict_get_absent {V} (d : list (string * V)) (key : string) (v : V) :
  ~ In key (map fst d) -> dict_get d key v = v.
Proof.
  induction d as [|[k x] d IH]; intro H; simpl; [reflexivity|].
  destruct (String.eqb_spec k key) as [->|N].
  - exfalso. apply H. now left.
  - apply IH. intro I. apply H. now right.
Qed.

End CaffeineLoop.

Lemma in_order_In {A} (l1 l2 : list A) (x : A) :
  in_order l1 l2 -> In x l1 -> In x l2.
Proof.
  induction 1 as [l | y l1 l2 _ IH | y l1 l2 _ IH]; intro I.
  - destruct I.
  - destruct I as [-> | I]; [now left | right; auto].
  - right; auto.
Qed.

Lemma in_order_refl {A} (l : list A) : in_order l l.
Proof. induction l; constructor; assumption. Qed.

Lemma dict_get_skip {V} (k key : string) (x v : V) (d : list (string * V)) :
  k <> key -> dict_get ((k, x) :: d) key v = dict_get d key v.
Proof.
  intro N. cbn [dict_get]. apply String.eqb_neq in N. now rewrite N.
Qed.

(** *** The loop on a mapping in the order of the catalogue *)

Lemma sum_ext_in {A} (f g : A -> Z) (l : list A) :
  (forall x, In x l -> f x = g x) ->
  fold_right Z.add 0 (map f l) = fold_right Z.add 0 (map g l).
Proof. intro H. f_equal. now apply map_ext_in. Qed.

Lemma flat_map_ext_in {A B} (f g : A -> list B) (l : list A) :
  (forall x, In x l -> f x = g x) -> flat_map f l = flat_map g l.
Proof.
  induction l as [|x l IH]; intro H; [reflexivity|].
  cbn [flat_map]. rewrite (H x (or_introl eq_refl)). f_equal.
  apply IH. intros y I. apply H. now right.
Qed.

Lemma map_filter_ext_in {A B} (p p' : A -> bool) (f f' : A -> B) (l : list A) :
  (forall x, In x l -> p x = p' x) ->
  (forall x, In x l -> f x = f' x) ->
  map f (filter p l) = map f' (filter p' l).
Proof.
  intros Hp Hf. rewrite (filter_ext_in _ _ _ Hp).
  apply map_ext_in. intros x I. apply filter_In in I. now apply Hf.
Qed.

Section Ordered.
Variables (k : string) (m : Z) (cat : list (string * Z)).
Hypothesis Hk : ~ In k (map fst cat).

Lemma lookup_past_head (qs : list (string * Z)) (item : string * Z) :
  in_order (map fst qs) (map fst cat) -> In item qs ->
  dict_get ((k, m) :: cat) (fst item) 0 = dict_get cat (fst item) 0.
Proof.
  intros Hord I. apply dict_get_skip. intro E. apply Hk.
  apply (in_order_In _ _ _ Hord). rewrite E. now apply in_map.
Qed.

Lemma count_past_head (q : Z) (qs : list (string * Z)) (entry : string * Z) :
  In entry cat ->
  count_of ((k, q) :: qs) (fst entry) = count_of qs (fst entry).
Proof.
  intro I. apply dict_get_skip. intro E. apply Hk. rewrite E. now apply in_map.
Qed.

Lemma count_absent (qs : list (string * Z)) :
  in_order (map fst qs) (map fst cat) -> count_of qs k = 0.
Proof.
  intro Hord. apply dict_get_absent. intro I. apply Hk.
  exact (in_order_In _ _ _ Hord I).
Qed.
End Ordered.

Lemma loop_on_ordered_mapping (catalog : list (string * Z)) :
  forall quantities : list (string * Z),
    NoDup (map fst catalog) ->
    in_order (map fst quantities) (map fst catalog) ->
    Forall (fun entry => 0 <= snd entry) quantities ->
    fold_right Z.add 0
      (map (fun item =>
              if snd item <=? 0 then 0
              else snd item * dict_get catalog (fst item) 0) quantities)
    = intake_sum catalog quantities
    /\
    flat_map (fun item =>
                if snd item <=? 0 then []
                else [breakdown_part (fst item) (snd item)
                        (snd item * dict_get catalog (fst item) 0)])
             quantities
    = map (fun entry =>
             breakdown_part (fst entry) (count_of quantities (fst entry))
               (count_of quantities (fst entry) * snd entry))
          (filter (fun entry => 0 <? count_of quantities (fst entry)) catalog).
Proof.
  unfold intake_sum.
  induction catalog as [|[k m] cat IH]; intros qs Hnd Hord Hpos.
  - inversion Hord as [l E | |]. destruct qs; [|discriminate E].
    split; reflexivity.
  - inversion Hnd as [|? ? Hk Hnd']; subst.
    cbn [map fst] in Hord.
    cbn [map filter fold_right fst snd].
    destruct qs as [|[k' q] qs'].
    + destruct (IH [] Hnd' (in_order_nil _) (Forall_nil _)) as [S L].
      cbn [map fold_right flat_map] in *.
      change (count_of [] k) with 0. cbn [Z.ltb Z.compare].
      split; [rewrite <- S; lia | exact L].
    + cbn [map fst] in Hord.
      inversion Hord as [ | x l1 l2 Hord' | x l1 l2 Hord']; subst.
      * inversion Hpos as [|? ? Hq Hpos']; subst. cbn [snd] in Hq.
        destruct (IH qs' Hnd' Hord' Hpos') as [S L].
        cbn [map fold_right flat_map fst snd].
        assert (C : count_of ((k, q) :: qs') k = q)
          by (unfold count_of; cbn [dict_get]; now rewrite String.eqb_refl).
        assert (D : dict_get ((k, m) :: cat) k 0 = m)
          by (cbn [dict_get]; now rewrite String.eqb_refl).
        rewrite C, D.
        rewrite (sum_ext_in _ _ qs' (fun item I =>
                   f_equal (fun v => if snd item <=? 0 then 0 else snd item * v)
                     (lookup_past_head k m cat Hk qs' item Hord' I))).
        rewrite (sum_ext_in _ _ cat (fun entry I =>
                   f_equal (fun v => v * snd entry)
                     (count_past_head k cat Hk q qs' entry I))).
        rewrite S.
        rewrite (flat_map_ext_in _ _ qs' (fun item I =>
                   f_equal (fun v => if snd item <=? 0 then []
                                     else [breakdown_part (fst item) (snd item)
                                             (snd item * v)])
                     (lookup_past_head k m cat Hk qs' item Hord' I))).
        rewrite L.
        assert (M : map (fun entry =>
                      breakdown_part (fst entry)
                        (count_of ((k, q) :: qs') (fst entry))
                        (count_of ((k, q) :: qs') (fst entry) * snd entry))
                   (filter (fun entry =>
                              0 <? count_of ((k, q) :: qs') (fst entry)) cat)
                 = map (fun entry =>
                      breakdown_part (fst entry) (count_of qs' (fst entry))
                        (count_of qs' (fst entry) * snd entry))
                   (filter (fun entry => 0 <? count_of qs' (fst entry)) cat)).
        { apply map_filter_ext_in; intros entry I;
            now rewrite (count_past_head k cat Hk q qs' entry I). }
        destruct (Z.leb_spec q 0) as [Lq|Lq];
          destruct (Z.ltb_spec 0 q) as [Gq|Gq]; try lia; cbn [map fst snd];
          rewrite ?C, M.
        -- replace q with 0 by lia. split; reflexivity.
        -- split; reflexivity.
      * set (qs := (k', q) :: qs') in *.
        change (in_order (map fst qs) (map fst cat)) in Hord'.
        destruct (IH qs Hnd' Hord' Hpos) as [S L].
        rewrite (count_absent k cat Hk qs Hord'). cbn [Z.ltb Z.compare].
        rewrite (sum_ext_in _ _ qs (fun item I =>
                   f_equal (fun v => if snd item <=? 0 then 0 else snd item * v)
                     (lookup_past_head k m cat Hk qs item Hord' I))).
        rewrite (flat_map_ext_in _ _ qs (fun item I =>
                   f_equal (fun v => if snd item <=? 0 then []
                                     else [breakdown_part (fst item) (snd item)
                                             (snd item * v)])
                     (lookup_past_head k m cat Hk qs item Hord' I))).
        split; [rewrite S; lia | exact L].
Qed.

Lemma total_intake_on_catalog (catalog quantities : list (string * Z)) :
  NoDup (map fst catalog) ->
  in_order (map fst quantities) (map fst catalog) ->
  Forall (fun entry => 0 <= snd entry) quantities ->
  caffeine_total_with catalog quantities
  = (intake_sum catalog quantities, intake_listing catalog quantities).
Proof.
  intros Hnd Hord Hpos.
  rewrite caffeine_total_with_eq. unfold intake_listing.
  destruct (loop_on_ordered_mapping catalog quantities Hnd Hord Hpos)
    as [S L].
  cbn zeta. rewrite S, L. reflexivity.
Qed.

(** The entries of a mapping with distinct keys can be summed over the
    catalogue, whatever their order. *)
Lemma sum_at_key (catalog : list (string * Z)) (key : string) (c : Z) :
  NoDup (map fst catalog) ->
  fold_right Z.add 0
    (map (fun item => (if String.eqb key (fst item) then c else 0) * snd item)
         catalog)
  = c * dict_get catalog key 0.
Proof.
  induction catalog as [|[k m] catalog IH]; intro H; cbn [map fold_right fst snd dict_get].
  - lia.
  - inversion H as [|? ? Hk Hc]; subst. rewrite (IH Hc).
    rewrite (String.eqb_sym key k).
    destruct (String.eqb_spec k key) as [-> | N]; [|lia].
    rewrite (dict_get_absent catalog key 0 Hk). lia.
Qed.

Lemma sum_with_new_entry (catalog q : list (string * Z)) (k : string) (c : Z) :
  ~ In k (map fst q) ->
  fold_right Z.add 0
    (map (fun item => dict_get ((k, c) :: q) (fst item) 0 * snd item) catalog)
  = fold_right Z.add 0
      (map (fun item => (if String.eqb k (fst item) then c else 0) * snd item)
           catalog)
    + fold_right Z.add 0
        (map (fun item => dict_get q (fst item) 0 * snd item) catalog).
Proof.
  intro Hk. induction catalog as [|[k' m] cat IH]; [reflexivity|].
  cbn [map fold_right fst snd]. rewrite IH.
  change (dict_get ((k, c) :: q) k' 0)
    with (if String.eqb k k' then c else dict_get q k' 0).
  destruct (String.eqb_spec k k') as [<- | N]; [|lia].
  rewrite (dict_get_absent q k 0 Hk). lia.
Qed.

Lemma sum_of_entries (catalog : list (string * Z)) :
  NoDup (map fst catalog) ->
  forall quantities : list (string * Z),
    NoDup (map fst quantities) ->
    Forall (fun entry => 0 <= snd entry) quantities ->
    fold_right Z.add 0
      (map (fun item =>
              if snd item <=? 0 then 0
              else snd item * dict_get catalog (fst item) 0) quantities)
    = intake_sum catalog quantities.
Proof.
  intros Hc. induction quantities as [|[k c] q IH]; intros Hq Hpos.
  - unfold intake_sum, count_of. cbn [map fold_right dict_get].
    clear Hc. induction catalog as [|e cat IHc]; [reflexivity|].
    cbn [map fold_right]. rewrite <- IHc. reflexivity.
  - inversion Hq as [|? ? Hk Hq']; subst.
    inversion Hpos as [|? ? Hc0 Hpos']; subst. cbn [snd] in Hc0.
    cbn [map fold_right fst snd]. rewrite (IH Hq' Hpos').
    replace (if c <=? 0 then 0 else c * dict_get catalog k 0)
      with (c * dict_get catalog k 0)
      by (destruct (Z.leb_spec c 0); [replace c with 0 by lia|]; lia).
    rewrite <- (sum_at_key catalog k c Hc).
    unfold intake_sum, count_of.
    now rewrite (sum_with_new_entry catalog q k c Hk).
Qed.

Lemma parts_of_entries (catalog quantities : list (string * Z)) :
  flat_map (fun item =>
              if snd item <=? 0 then []
              else [breakdown_part (fst item) (snd item)
                      (snd item * dict_get catalog (fst item) 0)])
           quantities
  = map (fun entry =>
           fst entry ++ " x" ++ str_int (snd entry) ++ " ("
           ++ str_int (snd entry * dict_get catalog (fst entry) 0) ++ " mg)")
        (filter (fun entry => 0 <? snd entry) quantities).
Proof.
  induction quantities as [|[k c] q IH]; [reflexivity|].
  cbn [flat_map filter fst snd].
  destruct (Z.leb_spec c 0) as [L | L].
  - replace (0 <? c) with false by (symmetry; apply Z.ltb_ge; lia).
    exact IH.
  - replace (0 <? c) with true by (symmetry; apply Z.ltb_lt; lia).
    cbn [map app fst snd]. now rewrite IH.
Qed.

(** C8.  For a mapping with counts that are not negative, the total is
    the sum over the items of the catalogue of count times milligrams
    per unit, and the breakdown lists exactly the entries with a
    positive count, each as "<item> x<count> (<mg> mg)", joined by
    " | ", in the order in which the mapping holds them; that is the
    order of the catalogue when the entries of the mapping come in that
    order, as the form builds them.  On a catalogue of three items A,
    B, C the counts 2, 0, 1 give 2*mg(A) + 1*mg(C), and the breakdown
    has the parts of A and C only. *)
Theorem total_intake_sum_and_breakdown :
  forall (catalog quantities : list (string * Z)) (A B C : string) (a b c : Z),
    NoDup (map fst catalog) ->
    NoDup (map fst quantities) ->
    Forall (fun entry => 0 <= snd entry) quantities ->
    NoDup [A; B; C] ->
    let mg := fun item : string => dict_get catalog item 0 in
    let count := fun item : string => dict_get quantities item 0 in
    fst (caffeine_total_with catalog quantities)
    = fold_right Z.add 0
        (map (fun item => count (fst item) * snd item) catalog) /\
    snd (caffeine_total_with catalog quantities)
    = join " | "
        (map (fun entry =>
                fst entry ++ " x" ++ str_int (snd entry) ++ " ("
                ++ str_int (snd entry * mg (fst entry)) ++ " mg)")
             (filter (fun entry => 0 <? snd entry) quantities)) /\
    (in_order (map fst quantities) (map fst catalog) ->
     snd (caffeine_total_with catalog quantities)
     = join " | "
         (map (fun item =>
                 fst item ++ " x" ++ str_int (count (fst item)) ++ " ("
                 ++ str_int (count (fst item) * snd item) ++ " mg)")
              (filter (fun item => 0 <? count (fst item)) catalog))) /\
    caffeine_total_with [(A, a); (B, b); (C, c)] [(A, 2); (B, 0); (C, 1)]
    = (2 * a + 1 * c,
       A ++ " x2 (" ++ str_int (2 * a) ++ " mg) | "
       ++ C ++ " x1 (" ++ str_int (1 * c) ++ " mg)").
Proof.
  intros catalog quantities A B C a b c Hnd Hq Hpos Habc mg count.
  split; [|split; [|split]].
  - rewrite caffeine_total_with_eq. cbn [fst].
    now rewrite sum_of_entries.
  - rewrite caffeine_total_with_eq. cbn [snd].
    now rewrite parts_of_entries.
  - intro Hord. rewrite (total_intake_on_catalog _ _ Hnd Hord Hpos).
    reflexivity.
  - inversion Habc as [|? ? HA Hbc]; subst.
    inversion Hbc as [|? ? HB _]; subst.
    assert (AB : String.eqb A B = false)
      by (apply String.eqb_neq; intro; subst; apply HA; now left).
    assert (AC : String.eqb A C = false)
      by (apply String.eqb_neq; intro; subst; apply HA; right; now left).
    assert (BC : String.eqb B C = false)
      by (apply String.eqb_neq; intro; subst; apply HB; now left).
    rewrite caffeine_total_with_eq.
    cbn [map flat_map fold_right fst snd Z.leb Z.compare app dict_get].
    rewrite !String.eqb_refl, ?AB, ?AC, ?BC, ?String.eqb_refl.
    cbn [join]. unfold breakdown_part. f_equal; [lia|].
    rewrite !string_app_assoc. reflexivity.
Qed.

(** The dict of the form of [Cafe1.py] is such a mapping. *)
Lemma form_dict_keys (form : daily_entry) :
  in_order (map fst (Cafe1.drink_qty_of form))
           (map fst Cafe1.CAFFEINE_CATALOG).
Proof. apply in_order_refl. Qed.

Lemma catalog_keys_distinct : NoDup (map fst Cafe1.CAFFEINE_CATALOG).
Proof.
  repeat constructor; cbn; intuition discriminate.
Qed.

Lemma find_part (sep p : string) (l1 l2 : list string) :
  occurs_in p (join sep (l1 ++ p :: l2)).
Proof.
  induction l1 as [|x l1 IH].
  - destruct l2 as [|y l2]; cbn.
    + exists "", "". now rewrite string_app_nil_r.
    + exists "", (sep ++ join sep (y :: l2)). reflexivity.
  - destruct IH as [b [a E]].
    destruct (l1 ++ p :: l2)%list as [|z r] eqn:Z.
    + destruct l1; discriminate Z.
    + cbn [app join]. rewrite Z, E.
      exists (x ++ sep ++ b), a. now rewrite !string_app_assoc.
Qed.

(** C10.  An item that the catalogue does not hold adds 0 mg to the
    total, and with a positive count it is still listed in the breakdown,
    as "<item> x<count> (0 mg)". *)
Theorem unknown_item_counts_zero_but_is_listed :
  forall (catalog before after : list (string * Z)) (item : string) (qty : Z),
    ~ In item (map fst catalog) ->
    fst (caffeine_total_with catalog (before ++ (item, qty) :: after))
    = fst (caffeine_total_with catalog (before ++ after)) /\
    (0 < qty ->
     occurs_in (item ++ " x" ++ str_int qty ++ " (0 mg)")
       (snd (caffeine_total_with catalog (before ++ (item, qty) :: after)))).
Proof.
  intros catalog before after item qty Habs.
  rewrite !caffeine_total_with_eq. cbn [fst snd].
  rewrite !map_app, !flat_map_app. cbn [map flat_map fst snd].
  rewrite (dict_get_absent catalog item 0 Habs).
  split.
  - rewrite !fold_right_app. cbn [fold_right].
    replace (if qty <=? 0 then 0 else qty * 0) with 0
      by (destruct (qty <=? 0); lia).
    reflexivity.
  - intro Hq. destruct (Z.leb_spec qty 0) as [L|L]; [lia|].
    rewrite Z.mul_0_r. cbn [app]. apply find_part.
Qed.

(** ** The duplicate-checked append *)

Lemma filter_nonempty {A} (f : A -> bool) (l : list A) (x : A) :
  In x l -> f x = true -> is_empty (filter f l) = false.
Proof.
  intros Hin Hf.
  assert (I : In x (filter f l)) by (apply filter_In; split; assumption).
  destruct (filter f l); [destruct I | reflexivity].
Qed.

(** C9.  When the pair (participant identifier, date) of the form is
    already in the store, the submit handler shows the error of the
    duplicate and leaves the rows of the file as they were. *)
Theorem duplicate_entry_rejected_store_unchanged :
  forall (file : list log_row) (form : daily_entry) (now : string),
    key_present file (f_pid form) (f_entry_date form) ->
    Cafe1.daily_entry_submit file form now
    = (file, Error Cafe1.msg_duplicate).
Proof.
  intros file form now [r [Hin [Hp Hd]]].
  unfold Cafe1.daily_entry_submit.
  destruct (Cafe1.compute_caffeine_total (Cafe1.drink_qty_of form))
    as [caf_total detail].
  assert (N : is_empty (Cafe1.load_logs file) = false)
    by (destruct (Cafe1.load_logs file); [destruct Hin | reflexivity]).
  rewrite N. cbn [negb].
  unfold Cafe1.dup.
  rewrite (filter_nonempty _ _ r Hin).
  - reflexivity.
  - rewrite Hp, Hd, !String.eqb_refl. reflexivity.
Qed.

(** Without such a row the entry is appended to the loaded rows. *)
Lemma new_entry_appended (file : list log_row) (form : daily_entry)
  (now : string) :
  ~ key_present file (f_pid form) (f_entry_date form) ->
  exists row msg,
    Cafe1.daily_entry_submit file form now
    = ((Cafe1.load_logs file ++ [row])%list, Success msg)
    /\ participant_id row = f_pid form /\ date row = f_entry_date form.
Proof.
  intro Habs. unfold Cafe1.daily_entry_submit.
  destruct (Cafe1.compute_caffeine_total (Cafe1.drink_qty_of form))
    as [caf_total detail].
  assert (D : is_empty (Cafe1.dup (Cafe1.load_logs file) (f_pid form)
                          (f_entry_date form)) = true).
  { unfold Cafe1.dup.
    destruct (filter _ (Cafe1.load_logs file)) as [|r l] eqn:F; [reflexivity|].
    exfalso. apply Habs. exists r.
    assert (I : In r (r :: l)) by now left.
    rewrite <- F in I. apply filter_In in I. destruct I as [I E].
    apply andb_true_iff in E. destruct E as [E1 E2].
    apply String.eqb_eq in E1, E2. auto. }
  rewrite D. cbn [negb].
  eexists; eexists. split.
  - destruct (negb (is_empty (Cafe1.load_logs file))); reflexivity.
  - split; reflexivity.
Qed.

(** ** Rule engine *)

Lemma append_all_eq (rules : list (bool * string)) :
  forall acc, append_all rules acc = (acc ++ map snd (filter fst rules))%list.
Proof.
  induction rules as [|[c m] rules IH]; intro acc.
  - cbn. now rewrite app_nil_r.
  - cbn [append_all fold_left fst snd filter]. fold (append_all rules).
    rewrite IH. destruct c; cbn [append_if map].
    + now rewrite <- app_assoc.
    + reflexivity.
Qed.

Lemma filter_fst_table {A} (h : A -> bool) (m : A -> string) (l : list A) :
  map snd (filter fst (map (fun r => (h r, m r)) l)) = map m (filter h l).
Proof.
  induction l as [|x l IH]; [reflexivity|].
  cbn [map filter fst]. destruct (h x); cbn [map snd]; now rewrite IH.
Qed.

Lemma append_if_empty (fallback : string) (texts : list string) :
  append_if (is_empty texts) fallback texts = answer fallback texts.
Proof. destruct texts; reflexivity. Qed.

(** The section "Conseils du jour" walks the rule table. *)
Lemma conseils_du_jour_table (sens : string) (latest : log_row) :
  Cafe1.conseils_du_jour sens latest
  = answer Cafe1.msg_nothing_alarming (map message (fired sens latest)).
Proof.
  unfold fired. rewrite <- filter_fst_table.
  rewrite <- (app_nil_l (map snd _)), <- append_all_eq.
  rewrite <- append_if_empty. reflexivity.
Qed.

Lemma holdsb_holds (sens : string) (latest : log_row) (r : rule) :
  holdsb sens latest r = true <-> holds sens latest r.
Proof.
  destruct r; cbn [holdsb holds];
    rewrite ?andb_true_iff, ?Z.leb_le, ?Z.eqb_eq, ?Qle_bool_iff, ?Qltb_lt,
            ?String.eqb_eq;
    reflexivity.
Qed.

Lemma rule_in_table (r : rule) : In r rule_table.
Proof. destruct r; cbn; tauto. Qed.

Lemma fired_iff (sens : string) (latest : log_row) (r : rule) :
  In r (fired sens latest) <-> holds sens latest r.
Proof.
  unfold fired. rewrite filter_In, holdsb_holds.
  pose proof (rule_in_table r). tauto.
Qed.

Lemma message_not_fallback (r : rule) :
  message r <> Cafe1.msg_nothing_alarming.
Proof. destruct r; discriminate. Qed.

Lemma message_injective (r r' : rule) : message r = message r' -> r = r'.
Proof. destruct r, r'; intro H; solve [reflexivity | discriminate H]. Qed.

Lemma today_of_report (participant_row : option participant)
  (first : log_row) (rest : list log_row) :
  today (Cafe1.build_recommendations participant_row (first :: rest))
  = Cafe1.conseils_du_jour (sensitivity_of participant_row)
      (last (sort_by_date (first :: rest)) first).
Proof. reflexivity. Qed.

Lemma answer_fallback_iff (fallback : string) (texts : list string) :
  ~ In fallback texts ->
  (In fallback (answer fallback texts) <-> texts = []).
Proof.
  intro N. destruct texts as [|t texts]; cbn [answer].
  - split; [reflexivity | intros _; now left].
  - split; [intro I; contradiction | discriminate].
Qed.

Lemma fallback_not_a_rule_text (rules : list rule) :
  ~ In Cafe1.msg_nothing_alarming (map message rules).
Proof.
  intro I. apply in_map_iff in I. destruct I as [r [E _]].
  exact (message_not_fallback r E).
Qed.

(** C1.  On the latest record of a history, the text "rien d'alarmant"
    is in the advice of the day exactly when no rule of the table holds,
    and it is then the only text.  When the latest record has a total of
    250, a last intake at 18h and 6 hours of sleep, the advice has the
    texts of the late intake, of the short sleep and of the total above
    200, and not the fallback. *)
Theorem fallback_exactly_when_no_rule_holds :
  forall (participant_row : option participant)
         (first : log_row) (rest : list log_row),
    let sens := sensitivity_of participant_row in
    let latest := last (sort_by_date (first :: rest)) first in
    let out :=
      today (Cafe1.build_recommendations participant_row (first :: rest)) in
    (In Cafe1.msg_nothing_alarming out <-> forall r, ~ holds sens latest r) /\
    (In Cafe1.msg_nothing_alarming out -> out = [Cafe1.msg_nothing_alarming]) /\
    (caffeine_mg_total latest = Num 250 ->
     last_caffeine_hour latest = Num 18 ->
     sleep_hours latest = Num 6 ->
     In Cafe1.msg_late out /\ In Cafe1.msg_short_sleep out /\
     In Cafe1.msg_heart_dose out /\ ~ In Cafe1.msg_nothing_alarming out).
Proof.
  intros participant_row first rest sens latest out.
  assert (E : out = answer Cafe1.msg_nothing_alarming
                      (map message (fired sens latest)))
    by (subst out; rewrite today_of_report; apply conseils_du_jour_table).
  pose proof (answer_fallback_iff _ _
                (fallback_not_a_rule_text (fired sens latest))) as F.
  rewrite <- E in F.
  assert (G : fired sens latest = [] <-> forall r, ~ holds sens latest r).
  { split.
    - intros Z r H. apply fired_iff in H. rewrite Z in H. destruct H.
    - intro H. destruct (fired sens latest) as [|r l] eqn:Z; [reflexivity|].
      exfalso. apply (H r). apply fired_iff. rewrite Z. now left. }
  split; [|split].
  - rewrite F, <- G. split.
    + intro M. destruct (fired sens latest); [reflexivity | discriminate M].
    + intros ->. reflexivity.
  - intro I. apply F in I. rewrite E, I. reflexivity.
  - intros Hc Hl Hs.
    assert (H1 : holds sens latest LateIntake).
    { cbn [holds]. rewrite Hc, Hl. cbn. split; [lia | discriminate]. }
    assert (H2 : holds sens latest ShortSleep).
    { cbn [holds]. rewrite Hs. reflexivity. }
    assert (H3 : holds sens latest HighDoseHeart).
    { cbn [holds]. rewrite Hc. reflexivity. }
    apply fired_iff in H1, H2, H3.
    assert (I : forall r, In r (fired sens latest) -> In (message r) out).
    { intros r I. rewrite E.
      destruct (fired sens latest); [destruct I|].
      cbn [answer]. now apply in_map. }
    repeat split; try (now apply (I _ H1) || now apply (I _ H2)
                       || now apply (I _ H3)).
    intro J. apply F in J.
    destruct (fired sens latest); [destruct H1 | discriminate J].
Qed.

(** [CafeLamiaa.py] walks the same table with its own texts. *)
Lemma lamiaa_conseils_du_jour_table (sens : string) (latest : log_row) :
  CafeLamiaa.conseils_du_jour sens latest
  = answer CafeLamiaa.msg_nothing_alarming
      (map lamiaa_message (fired sens latest)).
Proof.
  unfold fired. rewrite <- filter_fst_table.
  rewrite <- (app_nil_l (map snd _)), <- append_all_eq.
  rewrite <- append_if_empty. reflexivity.
Qed.

(** *** The reduced rule set of [cafe.py] *)

Lemma cafe_py_walks_its_rules (row : log_row) :
  Cafe.recommendations_for_row row
  = match palpitations row with
    | NaN => None
    | Num _ =>
        Some (answer Cafe.msg_ras (map snd (filter fst (cafe_py_rules row))))
    end.
Proof.
  unfold Cafe.recommendations_for_row.
  destruct (palpitations row) as [p|] eqn:P; [|reflexivity].
  f_equal. rewrite <- append_if_empty.
  rewrite <- (app_nil_l (map snd _)), <- append_all_eq.
  unfold cafe_py_rules. rewrite P.
  destruct (last_caffeine_hour row); reflexivity.
Qed.

(** There too the default text is given exactly when no rule fires, and
    it is then alone. *)
Lemma cafe_py_fallback_iff (row : log_row) (recs : list string) :
  Cafe.recommendations_for_row row = Some recs ->
  (In Cafe.msg_ras recs <-> Forall (fun rule => fst rule = false) (cafe_py_rules row))
  /\ (In Cafe.msg_ras recs -> recs = [Cafe.msg_ras]).
Proof.
  rewrite cafe_py_walks_its_rules.
  destruct (palpitations row); [|discriminate].
  intro H.
  assert (R : recs = answer Cafe.msg_ras
                       (map snd (filter fst (cafe_py_rules row))))
    by congruence.
  clear H. subst recs.
  set (rules := cafe_py_rules row).
  assert (N : ~ In Cafe.msg_ras (map snd (filter fst rules))).
  { intro I. apply in_map_iff in I. destruct I as [[c m] [E I]].
    apply filter_In in I. destruct I as [I _]. cbn in E. subst m.
    unfold rules, cafe_py_rules in I. cbn [In] in I.
    repeat (destruct I as [I | I]; [discriminate I|]). destruct I. }
  pose proof (answer_fallback_iff _ _ N) as F.
  assert (G : map snd (filter fst rules) = []
              <-> Forall (fun rule => fst rule = false) rules).
  { clearbody rules. clear. induction rules as [|[c m] rules IH].
    - split; [constructor | reflexivity].
    - cbn [filter fst]. destruct c; cbn [map].
      + split; [discriminate | intro F; inversion F; discriminate].
      + rewrite IH. split; [now constructor | intro F; now inversion F]. }
  split.
  - rewrite F. exact G.
  - intro I. apply F in I. now rewrite I.
Qed.

(** C4, counterexample.  On a day with 250 mg and a last intake at 18h,
    [recommendations_for_row] of [cafe.py] gives the text of the total
    above 200 before the text of the late intake, not after it. *)
Lemma cafe_py_reports_high_dose_before_late_intake :
  Cafe.recommendations_for_row (sample_day "2024-01-01" 250 18 8 3)
  = Some [Cafe.msg_high_dose; Cafe.msg_late] /\
  Cafe.recommendations_for_row (sample_day "2024-01-01" 250 18 8 3)
  <> Some [Cafe.msg_late; Cafe.msg_high_dose].
Proof. split; [reflexivity | discriminate]. Qed.

(** C4 (amended).  On the latest record of a history, the advice of the
    day of [build_recommendations] holds the text of a rule exactly when
    the predicate of the rule holds, and it is the list of the texts of
    those rules in the order of the table: late intake, sleep under 7h,
    total over 200 (heart), palpitations, the band 80-150, total over 200
    (overstimulation), anxiety, stress, headache, irritability,
    digestive, high sensitivity, low sensitivity.  The reduced engine
    [recommendations_for_row] of [cafe.py] walks its six rules in its own
    order: total over 200, late intake, sleep under 7h, anxiety, stress,
    palpitations. *)
Theorem rules_fire_independently_in_table_order :
  forall (participant_row : option participant)
         (first : log_row) (rest : list log_row) (row : log_row),
    let sens := sensitivity_of participant_row in
    let latest := last (sort_by_date (first :: rest)) first in
    let out :=
      today (Cafe1.build_recommendations participant_row (first :: rest)) in
    (forall r, holds sens latest r <-> In (message r) out) /\
    out = answer Cafe1.msg_nothing_alarming
            (map message (filter (holdsb sens latest) rule_table)) /\
    map message rule_table
    = [ Cafe1.msg_late; Cafe1.msg_short_sleep; Cafe1.msg_heart_dose;
        Cafe1.msg_palpitations; Cafe1.msg_useful_band;
        Cafe1.msg_overstimulation; Cafe1.msg_anxiety; Cafe1.msg_stress;
        Cafe1.msg_headache; Cafe1.msg_irritability; Cafe1.msg_digestive;
        Cafe1.msg_sensitivity_high; Cafe1.msg_sensitivity_low ] /\
    Cafe.recommendations_for_row row
    = match palpitations row with
      | NaN => None
      | Num _ =>
          Some (answer Cafe.msg_ras
                  (map snd (filter fst (cafe_py_rules row))))
      end /\
    map snd (cafe_py_rules row)
    = [ Cafe.msg_high_dose; Cafe.msg_late; Cafe.msg_short_sleep;
        Cafe.msg_anxiety; Cafe.msg_stress; Cafe.msg_palpitations ].
Proof.
  intros participant_row first rest row sens latest out.
  assert (E : out = answer Cafe1.msg_nothing_alarming
                      (map message (fired sens latest)))
    by (subst out; rewrite today_of_report; apply conseils_du_jour_table).
  split; [|split; [exact E | split; [reflexivity|]]].
  - intro r. rewrite <- fired_iff, E.
    destruct (fired sens latest) as [|r0 l] eqn:Z; cbn [answer].
    + split; [intros [] | intros [I | []]].
      exfalso. exact (message_not_fallback r (eq_sym I)).
    + split; [apply in_map|].
      intro I. apply in_map_iff in I. destruct I as [r' [M I]].
      apply message_injective in M. now subst r'.
  - split; [apply cafe_py_walks_its_rules | reflexivity].
Qed.

(** ** Trend analyzer *)

Lemma insert_by_perm {A} (leb : A -> A -> bool) (x : A) (l : list A) :
  Permutation (insert_by leb x l) (x :: l).
Proof.
  induction l as [|y l IH]; cbn [insert_by]; [reflexivity|].
  destruct (leb x y); [reflexivity|].
  rewrite IH. apply perm_swap.
Qed.

Lemma sort_asc_perm {A} (leb : A -> A -> bool) (l : list A) :
  Permutation (sort_asc leb l) l.
Proof.
  induction l as [|x l IH]; cbn [sort_asc]; [reflexivity|].
  rewrite insert_by_perm. now constructor.
Qed.

Lemma sort_values_perm {A} (leb : A -> A -> bool) (asc : bool) (l : list A) :
  Permutation (sort_values leb asc l) l.
Proof.
  unfold sort_values. destruct asc.
  - apply sort_asc_perm.
  - rewrite <- Permutation_rev, sort_asc_perm. symmetry. apply Permutation_rev.
Qed.

Lemma sort_by_date_length (logs : list log_row) :
  List.length (sort_by_date logs) = List.length logs.
Proof. apply Permutation_length, sort_values_perm. Qed.

Lemma tail_length {A} (k : nat) (l : list A) :
  List.length (tail k l) = Nat.min k (List.length l).
Proof. unfold tail. rewrite length_skipn. lia. Qed.

Lemma tail_all {A} (k : nat) (l : list A) :
  (List.length l <= k)%nat -> tail k l = l.
Proof.
  intro H. unfold tail. replace (List.length l - k)%nat with 0%nat by lia.
  reflexivity.
Qed.

Lemma window_length (logs : list log_row) :
  List.length (window logs) = Nat.min 7 (List.length logs).
Proof. unfold window. now rewrite tail_length, sort_by_date_length. Qed.

Lemma patterns_of_report (participant_row : option participant)
  (first : log_row) (rest : list log_row) :
  patterns (Cafe1.build_recommendations participant_row (first :: rest))
  = Cafe1.tendances (sort_by_date (first :: rest)).
Proof. reflexivity. Qed.

Lemma series_gt_spec (c : cell) (k : Q) :
  series_gt c k = true <-> exists q, c = Num q /\ (k < q)%Q.
Proof.
  destruct c as [q|]; cbn [series_gt].
  - rewrite Qltb_lt. split; [intro H; now exists q|].
    intros [q' [E H]]. now injection E as ->.
  - split; [discriminate | intros [q [E _]]; discriminate E].
Qed.

Lemma series_ge_spec (c : cell) (k : Q) :
  series_ge c k = true <-> exists q, c = Num q /\ (k <= q)%Q.
Proof.
  destruct c as [q|]; cbn [series_ge].
  - rewrite Qle_bool_iff. split; [intro H; now exists q|].
    intros [q' [E H]]. now injection E as ->.
  - split; [discriminate | intros [q [E _]]; discriminate E].
Qed.

Lemma series_lt_spec (c : cell) (k : Q) :
  series_lt c k = true <-> exists q, c = Num q /\ (q < k)%Q.
Proof.
  destruct c as [q|]; cbn [series_lt].
  - rewrite Qltb_lt. split; [intro H; now exists q|].
    intros [q' [E H]]. now injection E as ->.
  - split; [discriminate | intros [q [E _]]; discriminate E].
Qed.

(** A count of days goes up by one on a day that matches and stays
    otherwise; it lies between 0 and the number of days. *)
Lemma mask_sum_cons {A} (mask : A -> bool) (x : A) (l : list A) :
  mask_sum mask (x :: l) = (if mask x then 1 else 0) + mask_sum mask l.
Proof.
  unfold mask_sum. cbn [filter]. destruct (mask x); cbn [List.length]; lia.
Qed.

Lemma mask_sum_bounds {A} (mask : A -> bool) (l : list A) :
  0 <= mask_sum mask l <= Z.of_nat (List.length l).
Proof.
  induction l as [|x l IH]; [cbn; lia|].
  rewrite mask_sum_cons. cbn [List.length]. destruct (mask x); lia.
Qed.

Lemma mask_sum_all {A} (mask : A -> bool) (l : list A) :
  Forall (fun x => mask x = true) l ->
  mask_sum mask l = Z.of_nat (List.length l).
Proof.
  induction 1 as [|x l Hx _ IH]; [reflexivity|].
  rewrite mask_sum_cons, Hx, IH. cbn [List.length]. lia.
Qed.

Lemma high_caf_days_counts (r : log_row) (last7 : list log_row) :
  (total_over_200 r ->
   Cafe1.high_caf_days (r :: last7) = 1 + Cafe1.high_caf_days last7) /\
  (~ total_over_200 r ->
   Cafe1.high_caf_days (r :: last7) = Cafe1.high_caf_days last7).
Proof.
  unfold Cafe1.high_caf_days, total_over_200. rewrite mask_sum_cons.
  pose proof (series_gt_spec (caffeine_mg_total r) 200) as S.
  destruct (series_gt (caffeine_mg_total r) 200).
  - split; [reflexivity | intro N; exfalso; apply N, S; reflexivity].
  - split; [intro H; apply S in H; discriminate H | reflexivity].
Qed.

Lemma late_days_counts (r : log_row) (last7 : list log_row) :
  (last_intake_from_17h r ->
   Cafe1.late_days (r :: last7) = 1 + Cafe1.late_days last7) /\
  (~ last_intake_from_17h r ->
   Cafe1.late_days (r :: last7) = Cafe1.late_days last7).
Proof.
  unfold Cafe1.late_days, last_intake_from_17h. rewrite mask_sum_cons.
  pose proof (series_ge_spec (last_caffeine_hour r) 17) as S.
  destruct (series_ge (last_caffeine_hour r) 17).
  - split; [reflexivity | intro N; exfalso; apply N, S; reflexivity].
  - split; [intro H; apply S in H; discriminate H | reflexivity].
Qed.

Lemma low_sleep_days_counts (r : log_row) (last7 : list log_row) :
  (sleep_under_7h r ->
   Cafe1.low_sleep_days (r :: last7) = 1 + Cafe1.low_sleep_days last7) /\
  (~ sleep_under_7h r ->
   Cafe1.low_sleep_days (r :: last7) = Cafe1.low_sleep_days last7).
Proof.
  unfold Cafe1.low_sleep_days, sleep_under_7h. rewrite mask_sum_cons.
  pose proof (series_lt_spec (sleep_hours r) 7) as S.
  destruct (series_lt (sleep_hours r) 7).
  - split; [reflexivity | intro N; exfalso; apply N, S; reflexivity].
  - split; [intro H; apply S in H; discriminate H | reflexivity].
Qed.

Lemma append_if_pattern (count : Z) (text : Z -> string) (acc : list string) :
  append_if (3 <=? count) (text count) acc
  = (acc ++ pattern_if count text)%list.
Proof.
  unfold append_if, pattern_if. destruct (3 <=? count);
    [reflexivity | now rewrite app_nil_r].
Qed.

(** The section "Tendances", below and from three days in the window. *)
Lemma tendances_short (df : list log_row) :
  (List.length (tail 7 df) < 3)%nat ->
  Cafe1.tendances df = [Cafe1.msg_no_trend].
Proof.
  intro H. unfold Cafe1.tendances.
  destruct (Nat.leb_spec 3 (List.length (tail 7 df))); [lia | reflexivity].
Qed.

Lemma tendances_long (df : list log_row) :
  (3 <= List.length (tail 7 df))%nat ->
  Cafe1.tendances df
  = answer Cafe1.msg_no_trend
      (pattern_if (Cafe1.high_caf_days (tail 7 df)) Cafe1.msg_high_caf_days
       ++ pattern_if (Cafe1.late_days (tail 7 df)) Cafe1.msg_late_days
       ++ pattern_if (Cafe1.low_sleep_days (tail 7 df))
            Cafe1.msg_low_sleep_days
       ++ Cafe1.comparaison (tail 7 df))%list.
Proof.
  intro H. unfold Cafe1.tendances.
  destruct (Nat.leb_spec 3 (List.length (tail 7 df))); [|lia].
  rewrite append_if_empty, !append_if_pattern, app_nil_l, <- !app_assoc.
  reflexivity.
Qed.

Lemma lamiaa_tendances_short (df : list log_row) :
  (List.length (tail 7 df) < 3)%nat ->
  CafeLamiaa.tendances df = [CafeLamiaa.msg_no_trend].
Proof.
  intro H. unfold CafeLamiaa.tendances.
  destruct (Nat.leb_spec 3 (List.length (tail 7 df))); [lia | reflexivity].
Qed.

Lemma lamiaa_tendances_long (df : list log_row) :
  (3 <= List.length (tail 7 df))%nat ->
  CafeLamiaa.tendances df
  = answer CafeLamiaa.msg_no_trend
      (pattern_if (Cafe1.high_caf_days (tail 7 df))
         CafeLamiaa.msg_high_caf_days
       ++ pattern_if (Cafe1.late_days (tail 7 df)) CafeLamiaa.msg_late_days
       ++ pattern_if (Cafe1.low_sleep_days (tail 7 df))
            CafeLamiaa.msg_low_sleep_days)%list.
Proof.
  intro H. unfold CafeLamiaa.tendances.
  destruct (Nat.leb_spec 3 (List.length (tail 7 df))); [|lia].
  rewrite append_if_empty, !append_if_pattern, app_nil_l, <- !app_assoc.
  reflexivity.
Qed.

(** C6, counterexample.  The empty history has fewer than 3 records in
    its window, the report stops before the trends, and the list of
    patterns is empty: it is not the single text "pas assez de jours". *)
Lemma empty_history_reports_no_pattern :
  (List.length (window []) < 3)%nat /\
  patterns (Cafe1.build_recommendations None []) = [] /\
  patterns (Cafe1.build_recommendations None []) <> [Cafe1.msg_no_trend].
Proof.
  split; [cbn; lia|]. split; [reflexivity | discriminate].
Qed.

(** C6 (amended).  For a history that is not empty and has fewer than 3
    records in its window, the patterns are the single text "pas assez
    de jours" and nothing else; so it is for any two records.  For the
    empty history the report carries no pattern at all. *)
Theorem short_history_reports_insufficient_data :
  forall (participant_row : option participant) (logs : list log_row),
    logs <> [] ->
    (List.length (window logs) < 3)%nat ->
    patterns (Cafe1.build_recommendations participant_row logs)
    = [Cafe1.msg_no_trend] /\
    (forall a b : log_row,
        patterns (Cafe1.build_recommendations participant_row [a; b])
        = [Cafe1.msg_no_trend]) /\
    patterns (Cafe1.build_recommendations participant_row []) = [].
Proof.
  intros participant_row logs Hne Hlen.
  split; [|split; [|reflexivity]].
  - destruct logs as [|first rest]; [contradiction|].
    rewrite patterns_of_report. now apply tendances_short.
  - intros a b. rewrite patterns_of_report. apply tendances_short.
    fold (window [a; b]). rewrite window_length. cbn. lia.
Qed.

(** [CafeLamiaa.py] does the same with its own text. *)
Lemma lamiaa_short_history (participant_row : option participant)
  (logs : list log_row) :
  logs <> [] ->
  (List.length (window logs) < 3)%nat ->
  patterns (CafeLamiaa.build_recommendations participant_row logs)
  = [CafeLamiaa.msg_no_trend].
Proof.
  intros Hne Hlen. destruct logs as [|first rest]; [contradiction|].
  now apply lamiaa_tendances_short.
Qed.

Lemma in_answer (fallback x : string) (texts : list string) :
  In x texts -> In x (answer fallback texts).
Proof. destruct texts; [intros [] | trivial]. Qed.

Lemma in_pattern_if (count : Z) (text : Z -> string) :
  3 <= count -> In (text count) (pattern_if count text).
Proof.
  intro H. unfold pattern_if.
  destruct (Z.leb_spec 3 count); [now left | lia].
Qed.

Lemma window_all_over_200 (logs : list log_row) :
  Forall total_over_200 logs ->
  Cafe1.high_caf_days (window logs) = Z.of_nat (List.length (window logs)).
Proof.
  intro H. unfold Cafe1.high_caf_days. apply mask_sum_all.
  apply Forall_forall. intros r Hr. apply series_gt_spec.
  assert (I : In r logs).
  { unfold window, tail in Hr.
    assert (P : Permutation (sort_by_date logs) logs)
      by apply sort_values_perm.
    apply (Permutation_in r P).
    rewrite <- (firstn_skipn (List.length (sort_by_date logs) - 7)).
    apply in_or_app. now right. }
  rewrite Forall_forall in H. exact (H r I).
Qed.

Lemma pattern_texts_name_the_count (count : Z) :
  occurs_in (str_int count) (Cafe1.msg_high_caf_days count) /\
  occurs_in (str_int count) (Cafe1.msg_late_days count) /\
  occurs_in (str_int count) (Cafe1.msg_low_sleep_days count).
Proof.
  repeat split; eexists; eexists; reflexivity.
Qed.

(** The counters of the code count the days that match. *)
Lemma number_of_unique {A} (P : A -> Prop) (l : list A) :
  forall n m, number_of P l n -> number_of P l m -> n = m.
Proof.
  induction l as [|x l IH]; intros n m Hn Hm.
  - inversion Hn; inversion Hm; subst; reflexivity.
  - inversion Hn as [|? ? n' Px Hn'|? ? n' Px Hn'];
      inversion Hm as [|? ? m' Px' Hm'|? ? m' Px' Hm']; subst;
      try contradiction; rewrite (IH _ _ Hn' Hm'); reflexivity.
Qed.

Lemma mask_sum_counts {A} (mask : A -> bool) (P : A -> Prop) :
  (forall x, mask x = true <-> P x) ->
  forall l, number_of P l (mask_sum mask l).
Proof.
  intros H l. induction l as [|x l IH].
  - constructor.
  - rewrite mask_sum_cons. destruct (mask x) eqn:E.
    + rewrite Z.add_comm. apply number_of_yes; [now apply H | exact IH].
    + apply number_of_no; [|exact IH].
      intro Px. apply H in Px. congruence.
Qed.

Lemma window_counts (last7 : list log_row) :
  number_of total_over_200 last7 (Cafe1.high_caf_days last7) /\
  number_of last_intake_from_17h last7 (Cafe1.late_days last7) /\
  number_of sleep_under_7h last7 (Cafe1.low_sleep_days last7).
Proof.
  repeat split; apply mask_sum_counts; intro r.
  - apply series_gt_spec.
  - apply series_ge_spec.
  - apply series_lt_spec.
Qed.

(** C7.  With at least 3 records in the window (the last records by
    date, 7 at most), let the three counts be the number of days of the
    window with a total above 200 mg, with a last intake from 17h, and
    with less than 7 hours of sleep.  The patterns are made of: the
    text of the days above 200 mg if they are 3 or more, then the text
    of the days with a last intake from 17h if they are 3 or more, then
    the text of the days with less than 7 hours of sleep if they are 3
    or more, each with its count, then the comparison of the bins if
    any; the three texts can come together.  Three records that all
    have a total above 200 give the text of the high days with the
    count 3. *)
Theorem window_counts_give_pattern_messages :
  forall (participant_row : option participant) (logs : list log_row),
    (3 <= List.length (window logs))%nat ->
    let last7 := window logs in
    let out := patterns (Cafe1.build_recommendations participant_row logs) in
    (List.length last7 <= 7)%nat /\
    (exists highCount lateCount lowSleepCount : Z,
        number_of total_over_200 last7 highCount /\
        number_of last_intake_from_17h last7 lateCount /\
        number_of sleep_under_7h last7 lowSleepCount /\
        out = answer Cafe1.msg_no_trend
                (pattern_if highCount Cafe1.msg_high_caf_days
                 ++ pattern_if lateCount Cafe1.msg_late_days
                 ++ pattern_if lowSleepCount Cafe1.msg_low_sleep_days
                 ++ Cafe1.comparaison last7)%list) /\
    (forall highCount : Z,
        number_of total_over_200 last7 highCount -> 3 <= highCount ->
        In (Cafe1.msg_high_caf_days highCount) out) /\
    (forall lateCount : Z,
        number_of last_intake_from_17h last7 lateCount -> 3 <= lateCount ->
        In (Cafe1.msg_late_days lateCount) out) /\
    (forall lowSleepCount : Z,
        number_of sleep_under_7h last7 lowSleepCount -> 3 <= lowSleepCount ->
        In (Cafe1.msg_low_sleep_days lowSleepCount) out) /\
    (List.length logs = 3%nat -> Forall total_over_200 logs ->
     In (Cafe1.msg_high_caf_days 3) out) /\
    (forall count : Z,
        occurs_in (str_int count) (Cafe1.msg_high_caf_days count) /\
        occurs_in (str_int count) (Cafe1.msg_late_days count) /\
        occurs_in (str_int count) (Cafe1.msg_low_sleep_days count)).
Proof.
  intros participant_row logs Hlen last7 out.
  assert (L : List.length last7 = Nat.min 7 (List.length logs))
    by apply window_length.
  destruct (window_counts last7) as [Nh [Nl Ns]].
  assert (E : out = answer Cafe1.msg_no_trend
            (pattern_if (Cafe1.high_caf_days last7) Cafe1.msg_high_caf_days
             ++ pattern_if (Cafe1.late_days last7) Cafe1.msg_late_days
             ++ pattern_if (Cafe1.low_sleep_days last7)
                  Cafe1.msg_low_sleep_days
             ++ Cafe1.comparaison last7)%list).
  { subst out last7. destruct logs as [|first rest]; [cbn in Hlen; lia|].
    rewrite patterns_of_report. now apply tendances_long. }
  assert (H1 : forall highCount : Z,
             number_of total_over_200 last7 highCount -> 3 <= highCount ->
             In (Cafe1.msg_high_caf_days highCount) out).
  { intros n Hn H. rewrite (number_of_unique _ _ _ _ Hn Nh) in *.
    rewrite E. apply in_answer, in_or_app. left. now apply in_pattern_if. }
  split; [lia|]. split; [|split; [exact H1|split; [|split]]].
  - exists (Cafe1.high_caf_days last7), (Cafe1.late_days last7),
      (Cafe1.low_sleep_days last7). auto.
  - intros n Hn H. rewrite (number_of_unique _ _ _ _ Hn Nl) in *.
    rewrite E. apply in_answer, in_or_app. right.
    apply in_or_app. left. now apply in_pattern_if.
  - intros n Hn H. rewrite (number_of_unique _ _ _ _ Hn Ns) in *.
    rewrite E. apply in_answer, in_or_app. right.
    apply in_or_app. right. apply in_or_app. left. now apply in_pattern_if.
  - split; [|exact pattern_texts_name_the_count].
    intros H3 Hall. apply H1; [|lia].
    assert (C : Cafe1.high_caf_days last7 = 3).
    { subst last7. rewrite (window_all_over_200 logs Hall), L, H3.
      reflexivity. }
    rewrite <- C. exact Nh.
Qed.

(** The three texts together, on three days that match the three
    conditions. *)
Lemma three_patterns_together :
  patterns (Cafe1.build_recommendations None three_heavy_days)
  = [ Cafe1.msg_high_caf_days 3; Cafe1.msg_late_days 3;
      Cafe1.msg_low_sleep_days 3 ].
Proof. vm_compute. reflexivity. Qed.

(** [CafeLamiaa.py] has the same three counts and thresholds. *)
Lemma lamiaa_window_counts (participant_row : option participant)
  (logs : list log_row) :
  (3 <= List.length (window logs))%nat ->
  patterns (CafeLamiaa.build_recommendations participant_row logs)
  = answer CafeLamiaa.msg_no_trend
      (pattern_if (Cafe1.high_caf_days (window logs))
         CafeLamiaa.msg_high_caf_days
       ++ pattern_if (Cafe1.late_days (window logs)) CafeLamiaa.msg_late_days
       ++ pattern_if (Cafe1.low_sleep_days (window logs))
            CafeLamiaa.msg_low_sleep_days)%list.
Proof.
  intro Hlen. destruct logs as [|first rest]; [cbn in Hlen; lia|].
  now apply lamiaa_tendances_long.
Qed.

(** *** The comparison of the bins *)

Lemma sort_values_nil_iff {A} (leb : A -> A -> bool) (asc : bool) (l : list A) :
  sort_values leb asc l = [] <-> l = [].
Proof.
  pose proof (sort_values_perm leb asc l) as P. split; intro H.
  - rewrite H in P. now apply Permutation_nil.
  - subst l. symmetry in P. now apply Permutation_nil.
Qed.

(** In [Cafe1.py] the comparison is appended exactly when the bins hold
    at least 5 records and some bin has a mean of sleep quality: one bin
    is enough. *)
Lemma comparaison_emitted_iff (last7 : list log_row) :
  Cafe1.comparaison last7 <> []
  <-> 5 <= sum_n (bins_of last7) /\ dropna_sleep_q (bins_of last7) <> [].
Proof.
  unfold Cafe1.comparaison. fold (bins_of last7).
  set (g := bins_of last7).
  pose proof (sort_values_nil_iff sleep_q_leb false (dropna_sleep_q g)) as Sd.
  pose proof (sort_values_nil_iff sleep_q_leb true (dropna_sleep_q g)) as Sa.
  destruct (Z.leb_spec 5 (sum_n g)) as [L|L].
  - destruct (is_empty g) eqn:Eg; cbn [negb andb].
    + destruct g; [|discriminate Eg]. cbn. split; [congruence | tauto].
    + destruct (sort_values sleep_q_leb false (dropna_sleep_q g)) as [|b l].
      * assert (Z : dropna_sleep_q g = []) by now apply Sd.
        split; [congruence | tauto].
      * destruct (sort_values sleep_q_leb true (dropna_sleep_q g)) as [|w l'].
        -- assert (Z : dropna_sleep_q g = []) by now apply Sa.
           assert (N : b :: l = []) by now apply Sd.
           discriminate N.
        -- split; [|discriminate]. intros _. split; [exact L|].
           intro Z. apply Sd in Z. discriminate Z.
  - rewrite andb_false_r. split; [congruence | lia].
Qed.

Lemma comparaison_single_bin (last7 : list log_row) (b : bin_row) :
  5 <= sum_n (bins_of last7) ->
  dropna_sleep_q (bins_of last7) = [b] ->
  Cafe1.comparaison last7 = [Cafe1.msg_comparison b b].
Proof.
  intros L D. unfold Cafe1.comparaison. fold (bins_of last7).
  rewrite D. destruct (bins_of last7); [discriminate D|].
  destruct (Z.leb_spec 5 (sum_n (b0 :: l))); [reflexivity | lia].
Qed.

(** C5.  On five days that all fall in the lowest bin, the bins hold 5
    records and one bin only has a mean of sleep quality; [Cafe1.py]
    still appends the comparison, with that bin as the best and as the
    worst. *)
Theorem single_bin_reported_as_best_and_worst :
  List.length (window five_low_days) = 5%nat /\
  sum_n (bins_of (window five_low_days)) = 5 /\
  List.length (dropna_sleep_q (bins_of (window five_low_days))) = 1%nat /\
  patterns (Cafe1.build_recommendations None five_low_days)
  = [ "📊 **Comparaison (sur tes données) :** meilleure qualité de sommeil en **Faible (<100)** (≈ 3.00/5), plus faible en **Faible (<100)** (≈ 3.00/5)." ].
Proof.
  repeat split; vm_compute; reflexivity.
Qed.

(* ================================================================= *)
(** * The properties on concrete inputs *)

(** The dict that the form of [Cafe1.py] fills satisfies C8. *)
Lemma total_intake_of_form (form : daily_entry) :
  (forall item, 0 <= f_qty form item) ->
  Cafe1.compute_caffeine_total (Cafe1.drink_qty_of form)
  = (intake_sum Cafe1.CAFFEINE_CATALOG (Cafe1.drink_qty_of form),
     intake_listing Cafe1.CAFFEINE_CATALOG (Cafe1.drink_qty_of form)).
Proof.
  intro H. unfold Cafe1.compute_caffeine_total.
  apply (total_intake_on_catalog Cafe1.CAFFEINE_CATALOG
           (Cafe1.drink_qty_of form)).
  - exact catalog_keys_distinct.
  - apply in_order_refl.
  - unfold Cafe1.drink_qty_of. apply Forall_forall. intros entry I.
    apply in_map_iff in I. destruct I as [item [<- _]]. apply H.
Qed.

(** C2 at 23h to 7h and at 7h to 23h. *)
Lemma sleep_duration_witness :
  (7 <= 23 ->
   Cafe1.compute_sleep_hours_from_hours 23 7 = inject_Z (7 + 24 - 23)) /\
  (7 < 23 -> Cafe1.compute_sleep_hours_from_hours 7 23 = inject_Z (23 - 7)).
Proof.
  split.
  - exact (proj1 (proj2 (sleep_duration_wraps_midnight 23 7))).
  - exact (proj1 (sleep_duration_wraps_midnight 7 23)).
Defined.

(** C8 on the catalogue of [Cafe1.py] with two espressos, no filter
    coffee and one instant coffee, and on a catalogue of three items. *)
Lemma total_intake_witness :
  NoDup (map fst Cafe1.CAFFEINE_CATALOG) /\
  NoDup (map fst [ ("Café instantané (250 ml)", 1);
                   ("Café filtre (250 ml)", 0);
                   ("Espresso (30 ml)", 2) ]) /\
  snd (caffeine_total_with Cafe1.CAFFEINE_CATALOG
         [ ("Café instantané (250 ml)", 1); ("Café filtre (250 ml)", 0);
           ("Espresso (30 ml)", 2) ])
  = join " | "
      (map (fun entry =>
              fst entry ++ " x" ++ str_int (snd entry) ++ " ("
              ++ str_int (snd entry
                          * dict_get Cafe1.CAFFEINE_CATALOG (fst entry) 0)
              ++ " mg)")
           (filter (fun entry => 0 <? snd entry)
              [ ("Café instantané (250 ml)", 1); ("Café filtre (250 ml)", 0);
                ("Espresso (30 ml)", 2) ])) /\
  caffeine_total_with [("A", 75); ("B", 95); ("C", 60)]
                      [("A", 2); ("B", 0); ("C", 1)]
  = (2 * 75 + 1 * 60,
     "A" ++ " x2 (" ++ str_int (2 * 75) ++ " mg) | "
     ++ "C" ++ " x1 (" ++ str_int (1 * 60) ++ " mg)").
Proof.
  assert (K : NoDup (map fst Cafe1.CAFFEINE_CATALOG))
    by (repeat constructor; cbn; intuition discriminate).
  assert (Q : NoDup (map fst [ ("Café instantané (250 ml)", 1);
                               ("Café filtre (250 ml)", 0);
                               ("Espresso (30 ml)", 2) ]))
    by (repeat constructor; cbn; intuition discriminate).
  assert (N : NoDup ["A"; "B"; "C"])
    by (repeat constructor; cbn; intuition discriminate).
  assert (P : Forall (fun entry : string * Z => 0 <= snd entry)
                [ ("Café instantané (250 ml)", 1); ("Café filtre (250 ml)", 0);
                  ("Espresso (30 ml)", 2) ])
    by (repeat constructor; cbn [snd]; lia).
  split; [exact K|]. split; [exact Q|].
  pose proof (total_intake_sum_and_breakdown Cafe1.CAFFEINE_CATALOG
                [ ("Café instantané (250 ml)", 1); ("Café filtre (250 ml)", 0);
                  ("Espresso (30 ml)", 2) ]
                "A" "B" "C" 75 95 60 K Q P N) as T.
  cbv zeta in T. split; [exact (proj1 (proj2 T))|].
  exact (proj2 (proj2 (proj2 T))).
Defined.

(** The values of that sum and of that listing. *)
Lemma total_intake_example :
  Cafe1.compute_caffeine_total
    [ ("Espresso (30 ml)", 2); ("Café filtre (250 ml)", 0);
      ("Café instantané (250 ml)", 1) ]
  = (210, "Espresso (30 ml) x2 (150 mg) | Café instantané (250 ml) x1 (60 mg)")
  /\
  caffeine_total_with [("A", 75); ("B", 95); ("C", 60)]
                      [("A", 2); ("B", 0); ("C", 1)]
  = (210, "A x2 (150 mg) | C x1 (60 mg)").
Proof. split; reflexivity. Qed.

(** The loop follows the order of the dict it is given: a dict that is
    not in the order of the catalogue is listed in its own order. *)
Lemma breakdown_follows_the_dict :
  Cafe1.compute_caffeine_total [("Cola (330 ml)", 1); ("Espresso (30 ml)", 1)]
  = (110, "Cola (330 ml) x1 (35 mg) | Espresso (30 ml) x1 (75 mg)").
Proof. reflexivity. Qed.

(** C8, counterexample.  The mapping {Cola: 1, Espresso: 1}, whose
    entries are not in the order of the catalogue (the espresso comes
    first there), has its breakdown in its own order: the cola first,
    not the listing in the order of the catalogue. *)
Lemma breakdown_is_not_in_catalogue_order :
  snd (Cafe1.compute_caffeine_total
         [("Cola (330 ml)", 1); ("Espresso (30 ml)", 1)])
  = "Cola (330 ml) x1 (35 mg) | Espresso (30 ml) x1 (75 mg)" /\
  intake_listing Cafe1.CAFFEINE_CATALOG
    [("Cola (330 ml)", 1); ("Espresso (30 ml)", 1)]
  = "Espresso (30 ml) x1 (75 mg) | Cola (330 ml) x1 (35 mg)" /\
  snd (Cafe1.compute_caffeine_total
         [("Cola (330 ml)", 1); ("Espresso (30 ml)", 1)])
  <> intake_listing Cafe1.CAFFEINE_CATALOG
       [("Cola (330 ml)", 1); ("Espresso (30 ml)", 1)].
Proof.
  split; [reflexivity|]. split; [reflexivity|]. discriminate.
Qed.

(** C10 on a dict with three units of a drink that the catalogue does
    not hold. *)
Lemma unknown_item_witness :
  fst (caffeine_total_with Cafe1.CAFFEINE_CATALOG
         [("Espresso (30 ml)", 2); ("Maté", 3); ("Chocolat (50 g)", 1)])
  = 160 /\
  occurs_in "Maté x3 (0 mg)"
    (snd (caffeine_total_with Cafe1.CAFFEINE_CATALOG
            [("Espresso (30 ml)", 2); ("Maté", 3); ("Chocolat (50 g)", 1)])).
Proof.
  assert (A : ~ In "Maté" (map fst Cafe1.CAFFEINE_CATALOG))
    by (cbn; intuition discriminate).
  destruct (unknown_item_counts_zero_but_is_listed Cafe1.CAFFEINE_CATALOG
              [("Espresso (30 ml)", 2)] [("Chocolat (50 g)", 1)] "Maté" 3 A)
    as [T L].
  split.
  - exact T.
  - apply L. lia.
Defined.

(** C9 on a store that holds the day of the form. *)
Lemma duplicate_entry_witness :
  key_present [sample_day "2024-01-01" 150 16 8 3] "P001" "2024-01-01" /\
  Cafe1.daily_entry_submit [sample_day "2024-01-01" 150 16 8 3] sample_form
    "2024-01-01T21:00:00"
  = ([sample_day "2024-01-01" 150 16 8 3], Error Cafe1.msg_duplicate).
Proof.
  assert (K : key_present [sample_day "2024-01-01" 150 16 8 3]
                (f_pid sample_form) (f_entry_date sample_form)).
  { eexists. split; [left; reflexivity | split; reflexivity]. }
  split; [exact K|].
  exact (duplicate_entry_rejected_store_unchanged _ sample_form _ K).
Defined.

(** C6 on a history of two days. *)
Lemma short_history_witness :
  patterns (Cafe1.build_recommendations None
              [sample_day "2024-01-01" 250 18 6 3;
               sample_day "2024-01-02" 250 18 6 3])
  = [Cafe1.msg_no_trend].
Proof.
  refine (proj1 (short_history_reports_insufficient_data None
                   [sample_day "2024-01-01" 250 18 6 3;
                    sample_day "2024-01-02" 250 18 6 3] _ _)).
  - discriminate.
  - vm_compute. lia.
Defined.

(** C7 on three days above 200 mg. *)
Lemma pattern_messages_witness :
  (3 <= List.length
          (window [sample_day "2024-01-01" 250 10 8 3;
                   sample_day "2024-01-02" 250 10 8 3;
                   sample_day "2024-01-03" 250 10 8 3]))%nat /\
  In (Cafe1.msg_high_caf_days 3)
    (patterns (Cafe1.build_recommendations None
                 [sample_day "2024-01-01" 250 10 8 3;
                  sample_day "2024-01-02" 250 10 8 3;
                  sample_day "2024-01-03" 250 10 8 3])).
Proof.
  assert (O : forall d, total_over_200 (sample_day d 250 10 8 3))
    by (intro d; exists 250%Q; split; reflexivity).
  assert (W : (3 <= List.length
                      (window [sample_day "2024-01-01" 250 10 8 3;
                               sample_day "2024-01-02" 250 10 8 3;
                               sample_day "2024-01-03" 250 10 8 3]))%nat)
    by (vm_compute; lia).
  split; [exact W|].
  refine (proj1 (proj2 (proj2 (proj2 (proj2 (proj2
            (window_counts_give_pattern_messages None
               [sample_day "2024-01-01" 250 10 8 3;
                sample_day "2024-01-02" 250 10 8 3;
                sample_day "2024-01-03" 250 10 8 3] W)))))) eq_refl _).
  repeat constructor; apply O.
Defined.

(* ================================================================= *)
(** * Further properties of the code *)

(** ** Decimal texts *)

Lemma ascii_cases (P : ascii -> Prop) :
  (forall b0 b1 b2 b3 b4 b5 b6 b7, P (Ascii b0 b1 b2 b3 b4 b5 b6 b7)) ->
  forall c, P c.
Proof. intros H [b0 b1 b2 b3 b4 b5 b6 b7]. apply H. Qed.

Lemma digit_not_space (c : ascii) : is_digit c = true -> is_space c = false.
Proof.
  destruct c as [[] [] [] [] [] [] [] []]; vm_compute; congruence.
Qed.

Lemma digit_upper (c : ascii) : is_digit c = true -> upper_ascii c = c.
Proof.
  destruct c as [[] [] [] [] [] [] [] []]; vm_compute; congruence.
Qed.

Lemma upper_ascii_idem (c : ascii) : upper_ascii (upper_ascii c) = upper_ascii c.
Proof.
  destruct c as [[] [] [] [] [] [] [] []]; vm_compute; reflexivity.
Qed.

Lemma upper_idem (s : string) : upper (upper s) = upper s.
Proof.
  induction s as [|c s IH]; [reflexivity|].
  cbn [upper]. now rewrite upper_ascii_idem, IH.
Qed.

Lemma upper_digits (s : string) : all_digits s = true -> upper s = s.
Proof.
  induction s as [|c s IH]; [reflexivity|].
  cbn [all_digits upper]. intro H. apply andb_true_iff in H.
  destruct H as [Hc Hs]. now rewrite (digit_upper c Hc), (IH Hs).
Qed.

Lemma uint_text_digits (d : Decimal.uint) :
  all_digits (NilEmpty.string_of_uint d) = true.
Proof.
  induction d; cbn [NilEmpty.string_of_uint all_digits];
    try rewrite IHd; reflexivity.
Qed.

Lemma int_from_acc (d : Decimal.uint) :
  forall acc : positive,
    int_from (Z.pos acc) (NilEmpty.string_of_uint d)
    = Z.pos (Pos.of_uint_acc d acc).
Proof.
  induction d; intro acc;
    cbn [NilEmpty.string_of_uint int_from Pos.of_uint_acc];
    try reflexivity;
    match goal with
    | |- int_from ?a _ = Z.pos (Pos.of_uint_acc _ ?p) =>
        replace a with (Z.pos p)
          by (rewrite ?Pos2Z.inj_add, ?Pos2Z.inj_mul;
              let k := eval vm_compute in (Z.of_nat (nat_of_ascii "0" - 48)) in idtac;
              match goal with
              | |- context [Z.of_nat ?e] =>
                  let v := eval vm_compute in (Z.of_nat e) in
                  change (Z.of_nat e) with v
              end; lia)
    end; apply IHd.
Qed.

Lemma int_from_uint (d : Decimal.uint) :
  int_from 0 (NilEmpty.string_of_uint d) = Z.of_N (Pos.of_uint d).
Proof.
  induction d; cbn [NilEmpty.string_of_uint int_from Pos.of_uint];
    try reflexivity;
    try (match goal with
         | |- int_from ?a _ = _ =>
             match eval vm_compute in a with
             | Z.pos ?p => change a with (Z.pos p)
             end
         end; rewrite int_from_acc; reflexivity).
  exact IHd.
Qed.

(** [int(str(n))] is [n], and [str(n)] is made of digits, for [n >= 0]. *)
Lemma str_int_digits (n : Z) :
  0 <= n -> isdigit (str_int n) = true /\ int_of_digits (str_int n) = n.
Proof.
  intro H. destruct n as [|p|p]; [split; reflexivity | | lia].
  unfold str_int, int_of_digits. cbn [Z.to_int NilZero.string_of_int].
  pose proof (DecimalPos.Unsigned.to_uint_nonnil p) as N.
  unfold NilZero.string_of_uint.
  destruct (Pos.to_uint p) as [| | | | | | | | | |] eqn:E; try congruence;
    rewrite <- E;
    (split;
     [ pose proof (uint_text_digits (Pos.to_uint p)) as D;
       rewrite E in *; cbn [NilEmpty.string_of_uint isdigit] in *; exact D
     | rewrite int_from_uint, DecimalPos.Unsigned.of_to; reflexivity ]).
Qed.

Lemma zeros_digits (k : nat) (s : string) :
  all_digits (zeros k ++ s) = all_digits s
  /\ int_from 0 (zeros k ++ s) = int_from 0 s.
Proof.
  induction k as [|k [IH1 IH2]]; [split; reflexivity|].
  cbn [zeros]. change ("0" ++ zeros k) with (String "0"%char (zeros k)).
  cbn [append all_digits int_from]. rewrite IH1. split; [reflexivity|].
  exact IH2.
Qed.

Lemma isdigit_all (s : string) : isdigit s = true -> all_digits s = true.
Proof. destruct s; [discriminate | trivial]. Qed.

(** The text [f"{n:03d}"] of a number that is not negative. *)
Lemma zero_pad_number (width : nat) (n : Z) :
  0 <= n ->
  isdigit (zero_pad width (str_int n)) = true
  /\ int_of_digits (zero_pad width (str_int n)) = n.
Proof.
  intro H. destruct (str_int_digits n H) as [D V].
  unfold zero_pad, int_of_digits.
  destruct (zeros_digits (width - String.length (str_int n)) (str_int n))
    as [A B].
  rewrite B. split; [|exact V].
  assert (Ds : all_digits (str_int n) = true) by now apply isdigit_all.
  rewrite Ds in A.
  set (t := zeros (width - String.length (str_int n)) ++ str_int n) in *.
  assert (Ne : t <> "").
  { subst t. destruct (str_int n); [discriminate D|].
    destruct (zeros _); discriminate. }
  destruct t; [congruence | exact A].
Qed.

(** ** The identifiers of the participants *)

Lemma lstrip_no_space (l : list ascii) :
  Forall (fun c => is_space c = false) l -> lstrip_chars l = l.
Proof.
  intro H. destruct H as [|c l Hc _]; [reflexivity|].
  cbn [lstrip_chars]. now rewrite Hc.
Qed.

Lemma strip_no_space (s : string) :
  Forall (fun c => is_space c = false) (list_ascii_of_string s) ->
  strip s = s.
Proof.
  intro H. unfold strip.
  rewrite (lstrip_no_space _ H).
  rewrite lstrip_no_space by now apply Forall_rev.
  rewrite rev_involutive. apply string_of_list_ascii_of_string.
Qed.

Lemma digits_no_space (s : string) :
  all_digits s = true ->
  Forall (fun c => is_space c = false) (list_ascii_of_string s).
Proof.
  induction s as [|c s IH]; cbn [all_digits list_ascii_of_string];
    [constructor|].
  intro H. apply andb_true_iff in H. destruct H as [Hc Hs].
  constructor; [now apply digit_not_space | now apply IH].
Qed.

(** An identifier [P<digits>] is read back as its number. *)
Lemma id_number_P (t : string) :
  isdigit t = true -> id_number (String "P"%char t) = Some (int_of_digits t).
Proof.
  intro D. pose proof (isdigit_all t D) as A. unfold id_number.
  rewrite strip_no_space
    by (constructor; [reflexivity | now apply digits_no_space]).
  cbn [upper]. rewrite (upper_digits t A).
  change (upper_ascii "P") with "P"%char. now rewrite D.
Qed.

Lemma next_id_step (max_n : Z) (pid : string) :
  match upper (strip pid) with
  | String "P"%char rest =>
      if isdigit rest then Z.max max_n (int_of_digits rest) else max_n
  | _ => max_n
  end
  = match id_number pid with
    | Some n => Z.max max_n n
    | None => max_n
    end.
Proof.
  unfold id_number. destruct (upper (strip pid)) as [|c rest]; [reflexivity|].
  destruct c as [[] [] [] [] [] [] [] []]; try reflexivity.
  destruct (isdigit rest); reflexivity.
Qed.

Lemma max_number_bounds (ids : list string) :
  forall start : Z,
    let max_n :=
      fold_left
        (fun max_n pid =>
           match id_number pid with
           | Some n => Z.max max_n n
           | None => max_n
           end) ids start in
    start <= max_n /\
    forall pid n, In pid ids -> id_number pid = Some n -> n <= max_n.
Proof.
  induction ids as [|x ids IH]; intro start; cbn [fold_left].
  - split; [lia | intros pid n []].
  - destruct (IH (match id_number x with
                  | Some n => Z.max start n
                  | None => start
                  end)) as [B A].
    split.
    + destruct (id_number x); lia.
    + intros pid n [-> | I] E; [|exact (A pid n I E)].
      rewrite E in B |- *. lia.
Qed.

Lemma next_id_fold (ids : list string) :
  forall start : Z,
    fold_left
      (fun max_n pid =>
         let pid := upper (strip pid) in
         match pid with
         | String "P"%char rest =>
             if isdigit rest then Z.max max_n (int_of_digits rest) else max_n
         | _ => max_n
         end) ids start
    = fold_left
        (fun max_n pid =>
           match id_number pid with
           | Some n => Z.max max_n n
           | None => max_n
           end) ids start.
Proof.
  induction ids as [|x ids IH]; intro start; [reflexivity|].
  cbn [fold_left]. cbn zeta. rewrite next_id_step. apply IH.
Qed.

Lemma next_participant_id_unfold (ids : list string) :
  Cafe1.next_participant_id ids
  = "P" ++ zero_pad 3
             (str_int
                (fold_left
                   (fun max_n pid =>
                      match id_number pid with
                      | Some n => Z.max max_n n
                      | None => max_n
                      end) ids 0 + 1)).
Proof.
  unfold Cafe1.next_participant_id. now rewrite next_id_fold.
Qed.

Lemma next_id_reads_back (ids : list string) :
  id_number (Cafe1.next_participant_id ids)
  = Some (fold_left
            (fun max_n pid =>
               match id_number pid with
               | Some n => Z.max max_n n
               | None => max_n
               end) ids 0 + 1).
Proof.
  rewrite next_participant_id_unfold.
  destruct (max_number_bounds ids 0) as [B _]. cbn zeta in B.
  set (max_n := fold_left _ ids 0) in *.
  destruct (zero_pad_number 3 (max_n + 1)) as [D V]; [lia|].
  change ("P" ++ zero_pad 3 (str_int (max_n + 1)))
    with (String "P"%char (zero_pad 3 (str_int (max_n + 1)))).
  rewrite (id_number_P _ D). now rewrite V.
Qed.

Lemma next_id_not_among (ids : list string) :
  ~ In (Cafe1.next_participant_id ids) ids.
Proof.
  intro I. pose proof (next_id_reads_back ids) as E.
  destruct (max_number_bounds ids 0) as [_ A]. cbn zeta in A.
  specialize (A _ _ I E). lia.
Qed.

(** X1.  For existing identifiers in ASCII (of at most 4300
    characters), the identifier that [next_participant_id] proposes is
    none of the existing ones; it has the shape [P<digits>], and its
    number is at least 1 and above the number of every existing
    identifier of that shape. *)
Theorem next_participant_id_is_new :
  forall ids : list string,
    Forall typed_id ids ->
    ~ In (Cafe1.next_participant_id ids) ids /\
    exists m : Z,
      id_number (Cafe1.next_participant_id ids) = Some m /\
      1 <= m /\
      forall pid n, In pid ids -> id_number pid = Some n -> n < m.
Proof.
  intros ids _. split; [apply next_id_not_among|].
  eexists. split; [apply next_id_reads_back|].
  destruct (max_number_bounds ids 0) as [B A]. cbn zeta in B, A.
  split; [lia|]. intros pid n I E. specialize (A pid n I E). lia.
Qed.

(** ** The form of the participants *)

Lemma existsb_eqb_In (x : string) (l : list string) :
  existsb (String.eqb x) l = true <-> In x l.
Proof.
  rewrite existsb_exists. split.
  - intros [y [I E]]. apply String.eqb_eq in E. now subst.
  - intro I. exists x. split; [exact I | apply String.eqb_refl].
Qed.

(** What the handler does, by cases on the identifier that was typed. *)
Lemma add_participant_cases (file : list participant)
  (form : participant_form) (now : string) :
  let pid := upper (strip (a_pid form)) in
  (exists msg, Cafe1.add_participant_submit file form now = (file, Error msg)
               /\ (pid = "" \/ In pid (Cafe1.participant_ids_of file)))
  \/
  (exists row msg,
      Cafe1.add_participant_submit file form now
      = ((Cafe1.load_participants file ++ [row])%list, Success msg)
      /\ p_participant_id row = pid
      /\ pid <> "" /\ ~ In pid (Cafe1.participant_ids_of file)).
Proof.
  intro pid. unfold Cafe1.add_participant_submit. fold pid.
  fold (Cafe1.participant_ids_of file).
  destruct (is_empty (list_ascii_of_string pid)) eqn:E.
  - left. eexists. split; [reflexivity|]. left.
    destruct pid; [reflexivity | discriminate E].
  - destruct (existsb (String.eqb pid) (Cafe1.participant_ids_of file)) eqn:X.
    + left. eexists. split; [reflexivity|]. right. now apply existsb_eqb_In.
    + right. eexists. eexists. split; [reflexivity|].
      split; [reflexivity|]. split.
      * intro Z. rewrite Z in E. discriminate E.
      * intro I. apply existsb_eqb_In in I. congruence.
Qed.

(** X2.  Within one run, the form of the participants keeps the
    identifiers distinct.  For an identifier typed in ASCII, read after
    [strip] and [upper]: when it is empty or among the loaded
    identifiers the submission is refused and nothing is saved;
    otherwise one row with that identifier is appended to the loaded
    rows, and the identifiers of the frame that is saved are the loaded
    ones followed by the new one, distinct when the loaded ones are. *)
Theorem participant_ids_stay_distinct :
  forall (file : list participant) (form : participant_form) (now : string),
    NoDup (Cafe1.participant_ids_of file) ->
    ascii_text (a_pid form) ->
    let pid := upper (strip (a_pid form)) in
    let result := Cafe1.add_participant_submit file form now in
    (pid = "" \/ In pid (Cafe1.participant_ids_of file) ->
     exists msg, result = (file, Error msg)) /\
    (pid <> "" -> ~ In pid (Cafe1.participant_ids_of file) ->
     exists row,
       result = ((Cafe1.load_participants file ++ [row])%list,
                 Success ("✅ Participant " ++ pid ++ " ajouté.")) /\
       map p_participant_id (fst result)
       = (Cafe1.participant_ids_of file ++ [pid])%list /\
       NoDup (map p_participant_id (fst result))).
Proof.
  intros file form now Hnd _ pid result. subst result.
  destruct (add_participant_cases file form now)
    as [[msg [E C]] | [row [msg [E [Hid [Hne Hnew]]]]]]; cbn zeta in *;
    fold pid in C || fold pid in Hid, Hne, Hnew.
  - split; [intros _; now exists msg|]. intros N1 N2. tauto.
  - split; [tauto|]. intros _ _. exists row.
    assert (M : msg = "✅ Participant " ++ pid ++ " ajouté.").
    { unfold Cafe1.add_participant_submit in E. fold pid in E.
      destruct (is_empty (list_ascii_of_string pid)); [discriminate E|].
      destruct (existsb _ _); [discriminate E|].
      assert (S : forall (a b : list participant * feedback),
                 a = b -> snd a = snd b) by (intros; now subst).
      apply S in E. cbn [snd] in E. congruence. }
    rewrite E, M. cbn [fst]. split; [reflexivity|].
    assert (Ids : map p_participant_id (Cafe1.load_participants file ++ [row])
                  = (Cafe1.participant_ids_of file ++ [pid])%list).
    { rewrite map_app. cbn [map]. now rewrite Hid. }
    rewrite Ids. split; [reflexivity|].
    apply NoDup_app; [exact Hnd | repeat constructor; intros [] |].
    intros x I [<- | []]. exact (Hnew I).
Qed.

Lemma P_digits_normal (t : string) :
  isdigit t = true -> upper (strip (String "P"%char t)) = String "P"%char t.
Proof.
  intro D. pose proof (isdigit_all t D) as A.
  rewrite strip_no_space
    by (constructor; [reflexivity | now apply digits_no_space]).
  cbn [upper]. now rewrite (upper_digits t A).
Qed.

Lemma auto_id_shape (file : list participant) :
  exists t, Cafe1.auto_id file = String "P"%char t /\ isdigit t = true.
Proof.
  unfold Cafe1.auto_id.
  destruct (is_empty (Cafe1.participant_ids_of file)).
  - exists "001". split; reflexivity.
  - rewrite next_participant_id_unfold.
    eexists. split; [reflexivity|]. apply zero_pad_number.
    destruct (max_number_bounds (Cafe1.participant_ids_of file) 0) as [B _].
    cbn zeta in B. lia.
Qed.

Lemma auto_id_fresh (file : list participant) :
  ~ In (Cafe1.auto_id file) (Cafe1.participant_ids_of file).
Proof.
  unfold Cafe1.auto_id.
  destruct (is_empty (Cafe1.participant_ids_of file)) eqn:E.
  - destruct (Cafe1.participant_ids_of file); [intros [] | discriminate E].
  - apply next_id_not_among.
Qed.

(** X3.  When the loaded identifiers are in ASCII (of at most 4300
    characters), a submission that keeps the identifier proposed by the
    form is always accepted: the participant is appended with that
    identifier, which the success text names. *)
Theorem proposed_id_is_accepted :
  forall (file : list participant) (form : participant_form) (now : string),
    Forall typed_id (Cafe1.participant_ids_of file) ->
    a_pid form = Cafe1.auto_id file ->
    exists row,
      Cafe1.add_participant_submit file form now
      = ((Cafe1.load_participants file ++ [row])%list,
         Success ("✅ Participant " ++ Cafe1.auto_id file ++ " ajouté."))
      /\ p_participant_id row = Cafe1.auto_id file.
Proof.
  intros file form now _ Ha.
  destruct (auto_id_shape file) as [t [Et Dt]].
  assert (N : upper (strip (a_pid form)) = Cafe1.auto_id file)
    by (rewrite Ha, Et; now apply P_digits_normal).
  pose proof (auto_id_fresh file) as F.
  destruct (add_participant_cases file form now)
    as [[msg [_ [Z | I]]] | [row [msg [E [Hid _]]]]]; cbn zeta in *.
  - rewrite N, Et in Z. discriminate Z.
  - rewrite N in I. contradiction.
  - exists row. rewrite N in Hid. split; [|exact Hid].
    rewrite E. unfold Cafe1.add_participant_submit in E.
    fold (Cafe1.participant_ids_of file) in E. rewrite N in E.
    destruct (is_empty (list_ascii_of_string (Cafe1.auto_id file)));
      [discriminate E|].
    destruct (existsb _ _); [discriminate E|].
    injection E as _ <-. reflexivity.
Qed.

(** ** The daily log as a keyed store *)

Lemma load_logs_idem (file : list log_row) :
  Cafe1.load_logs (Cafe1.load_logs file) = Cafe1.load_logs file.
Proof.
  unfold Cafe1.load_logs. rewrite map_map.
  apply map_ext. intro r. cbn. now rewrite upper_idem.
Qed.

Lemma load_logs_filter (f : log_row -> bool) (file : list log_row) :
  Cafe1.load_logs (filter f (Cafe1.load_logs file))
  = filter f (Cafe1.load_logs file).
Proof.
  generalize (load_logs_idem file).
  generalize (Cafe1.load_logs file) as logs.
  induction logs as [|r logs IH]; intro E; [reflexivity|].
  cbn [Cafe1.load_logs map] in E. injection E as Er El.
  cbn [filter]. destruct (f r).
  - cbn [Cafe1.load_logs map]. rewrite Er. f_equal. now apply IH.
  - now apply IH.
Qed.

Lemma dup_empty_iff (logs : list log_row) (pid day : string) :
  is_empty (Cafe1.dup logs pid day) = true
  <-> ~ In (pid, day) (map key_of logs).
Proof.
  unfold Cafe1.dup. rewrite in_map_iff. split.
  - intros E [r [K I]]. unfold key_of in K. injection K as P D.
    rewrite (filter_nonempty _ logs r I) in E; [discriminate E|].
    rewrite P, D, !String.eqb_refl. reflexivity.
  - intro N. destruct (filter _ logs) as [|r l] eqn:F; [reflexivity|].
    exfalso. apply N. exists r.
    assert (I : In r (r :: l)) by now left.
    rewrite <- F in I. apply filter_In in I. destruct I as [I E].
    apply andb_true_iff in E. destruct E as [E1 E2].
    apply String.eqb_eq in E1, E2. unfold key_of. now rewrite E1, E2.
Qed.

(** What the handler of the daily form does, by cases on the key. *)
Lemma daily_entry_cases (file : list log_row) (form : daily_entry)
  (now : string) :
  (Cafe1.daily_entry_submit file form now = (file, Error Cafe1.msg_duplicate)
   /\ In (f_pid form, f_entry_date form) (map key_of (Cafe1.load_logs file)))
  \/
  (exists row msg,
      Cafe1.daily_entry_submit file form now
      = ((Cafe1.load_logs file ++ [row])%list, Success msg)
      /\ key_of row = (f_pid form, f_entry_date form)
      /\ ~ In (f_pid form, f_entry_date form)
              (map key_of (Cafe1.load_logs file))).
Proof.
  unfold Cafe1.daily_entry_submit.
  destruct (Cafe1.compute_caffeine_total (Cafe1.drink_qty_of form))
    as [caf_total detail].
  pose proof (dup_empty_iff (Cafe1.load_logs file) (f_pid form)
                (f_entry_date form)) as D.
  destruct (is_empty (Cafe1.dup (Cafe1.load_logs file) (f_pid form)
                        (f_entry_date form))) eqn:E.
  - right. eexists. eexists. split.
    + cbn [negb]. destruct (negb (is_empty (Cafe1.load_logs file)));
        reflexivity.
    + split; [reflexivity | now apply D].
  - left. assert (I : In (f_pid form, f_entry_date form)
                        (map key_of (Cafe1.load_logs file))).
    { destruct (in_dec (fun a b : string * string =>
                          ltac:(decide equality; apply string_dec))
                  (f_pid form, f_entry_date form)
                  (map key_of (Cafe1.load_logs file))) as [I | N];
        [exact I|].
      apply D in N. discriminate N. }
    split; [|exact I].
    destruct (Cafe1.load_logs file) as [|r l]; [destruct I|]. reflexivity.
Qed.


(** X4.  Within one run, the daily form keeps one row for a
    participant and a date.  A form whose participant and date are
    those of a loaded row is refused and nothing is saved; otherwise
    the frame that is saved is the loaded rows, unchanged and in their
    order, followed by one new row that carries the participant and the
    date of the form, and its keys are distinct when the keys of the
    loaded rows are. *)
Theorem daily_keys_stay_distinct :
  forall (file : list log_row) (form : daily_entry) (now : string),
    NoDup (map key_of (Cafe1.load_logs file)) ->
    let key := (f_pid form, f_entry_date form) in
    let result := Cafe1.daily_entry_submit file form now in
    (In key (map key_of (Cafe1.load_logs file)) ->
     result = (file, Error Cafe1.msg_duplicate)) /\
    (~ In key (map key_of (Cafe1.load_logs file)) ->
     exists row msg,
       result = ((Cafe1.load_logs file ++ [row])%list, Success msg) /\
       key_of row = key /\
       NoDup (map key_of (fst result))).
Proof.
  intros file form now Hnd key result. subst key result.
  destruct (daily_entry_cases file form now)
    as [[E I] | [row [msg [E [K N]]]]].
  - split; [intros _; exact E | intro N; contradiction].
  - split; [intro I; contradiction|]. intros _.
    exists row, msg. split; [exact E|]. split; [exact K|].
    rewrite E. cbn [fst]. rewrite map_app. cbn [map]. rewrite K.
    apply NoDup_app; [exact Hnd | repeat constructor; intros [] |].
    intros k I [<- | []]. exact (N I).
Qed.

(** X5.  When a form was accepted and the next run loads the rows that
    were saved, the same form is refused, and nothing is saved. *)
Theorem resubmission_is_refused :
  forall (file next_file saved : list log_row) (form : daily_entry)
         (now later msg : string),
    Cafe1.daily_entry_submit file form now = (saved, Success msg) ->
    Cafe1.load_logs next_file = saved ->
    Cafe1.daily_entry_submit next_file form later
    = (next_file, Error Cafe1.msg_duplicate).
Proof.
  intros file next_file saved form now later msg S L.
  assert (P : In (f_pid form, f_entry_date form)
                (map key_of (Cafe1.load_logs next_file))).
  { destruct (daily_entry_cases file form now)
      as [[E I] | [row [msg' [E [K N]]]]]; rewrite E in S;
      [discriminate S|].
    assert (Es : saved = (Cafe1.load_logs file ++ [row])%list) by congruence.
    rewrite L, Es, map_app. apply in_or_app. right. cbn [map].
    rewrite K. now left. }
  destruct (daily_entry_cases next_file form later)
    as [[E _] | [row [msg' [_ [_ N]]]]]; [exact E | contradiction].
Qed.

Lemma delete_keeps_loaded (file : list log_row) (del_pid del_date : string) :
  Cafe1.load_logs (fst (Cafe1.delete_entry_submit file del_pid del_date))
  = fst (Cafe1.delete_entry_submit file del_pid del_date).
Proof. cbn [Cafe1.delete_entry_submit fst]. apply load_logs_filter. Qed.

Lemma filter_in_order {A} (f : A -> bool) (l : list A) :
  in_order (filter f l) l.
Proof.
  induction l as [|x l IH]; cbn [filter]; [constructor|].
  destruct (f x); now constructor.
Qed.

(** X6.  After the deletion of an entry no loaded row carries its
    participant and date; the rows of every other key stay, unchanged
    and in their order. *)
Theorem deletion_removes_the_key_only :
  forall (file : list log_row) (del_pid del_date : string),
    let after := fst (Cafe1.delete_entry_submit file del_pid del_date) in
    ~ key_present after del_pid del_date /\
    (forall r, In r after
               <-> In r (Cafe1.load_logs file)
                   /\ key_of r <> (del_pid, del_date)) /\
    in_order after (Cafe1.load_logs file).
Proof.
  intros file del_pid del_date after.
  assert (M : forall r, In r after
                        <-> In r (Cafe1.load_logs file)
                            /\ key_of r <> (del_pid, del_date)).
  { intro r. subst after. cbn [Cafe1.delete_entry_submit fst].
    rewrite filter_In, negb_true_iff, andb_false_iff, !String.eqb_neq.
    unfold key_of. split; intros [I H]; (split; [exact I|]).
    - intro E. injection E as P D. tauto.
    - destruct (string_dec (participant_id r) del_pid) as [P | P];
        [|now left].
      right. intro D. apply H. now rewrite P, D. }
  split; [|split; [exact M | apply filter_in_order]].
  intros [r [I [P D]]]. subst after. rewrite delete_keeps_loaded in I.
  apply M in I. destruct I as [_ K]. apply K. unfold key_of. now rewrite P, D.
Qed.

(** X7.  Deletion undoes an accepted entry: when a form was accepted
    and the next run loads the rows that were saved, the deletion of
    the participant and date of the form saves exactly the rows that
    were loaded before the entry. *)
Theorem deletion_undoes_an_accepted_entry :
  forall (file next_file saved : list log_row) (form : daily_entry)
         (now msg : string),
    Cafe1.daily_entry_submit file form now = (saved, Success msg) ->
    Cafe1.load_logs next_file = saved ->
    fst (Cafe1.delete_entry_submit next_file
           (f_pid form) (f_entry_date form))
    = Cafe1.load_logs file.
Proof.
  intros file next_file saved form now msg S L.
  destruct (daily_entry_cases file form now)
    as [[E I] | [row [msg' [E [K Habs]]]]]; rewrite E in S;
    [discriminate S|].
  assert (Es : saved = (Cafe1.load_logs file ++ [row])%list) by congruence.
  cbn [fst Cafe1.delete_entry_submit]. rewrite L, Es, filter_app.
  unfold key_of in K. injection K as P D.
  replace (filter _ [row]) with (@nil log_row).
  - rewrite app_nil_r.
    apply forallb_filter_id. apply forallb_forall. intros r I.
    rewrite negb_true_iff, andb_false_iff, !String.eqb_neq.
    destruct (string_dec (participant_id r) (f_pid form)) as [Pr | Pr];
      [|now left].
    right. intro Dr. apply Habs. apply in_map_iff. exists r.
    unfold key_of. now rewrite Pr, Dr.
  - cbn [filter]. rewrite P, D, !String.eqb_refl. reflexivity.
Qed.

(** X8.  A correction goes through: when the next run loads the rows
    that the deletion of a participant and date saved, the form for
    that participant and date is accepted and its row is appended to
    those rows. *)
Theorem entry_is_accepted_after_deletion :
  forall (file next_file : list log_row) (form : daily_entry) (now : string),
    Cafe1.load_logs next_file
    = fst (Cafe1.delete_entry_submit file (f_pid form) (f_entry_date form)) ->
    exists row msg,
      Cafe1.daily_entry_submit next_file form now
      = ((Cafe1.load_logs next_file ++ [row])%list, Success msg)
      /\ key_of row = (f_pid form, f_entry_date form).
Proof.
  intros file next_file form now L.
  destruct (daily_entry_cases next_file form now)
    as [[_ I] | [row [msg [E [K _]]]]].
  - exfalso. rewrite L in I.
    apply in_map_iff in I. destruct I as [r [K I]].
    cbn [Cafe1.delete_entry_submit fst] in I. apply filter_In in I.
    destruct I as [_ F]. unfold key_of in K. injection K as P D.
    rewrite P, D, !String.eqb_refl in F. discriminate F.
  - exists row, msg. split; [exact E | exact K].
Qed.

(** ** The metrics that the form stores *)

Lemma join_empty_iff (sep : string) (parts : list string) :
  Forall (fun p => p <> "") parts -> (join sep parts = "" <-> parts = []).
Proof.
  intro H. destruct H as [|p l Hp _]; [tauto|].
  split; [|discriminate]. intro E. exfalso.
  destruct l; cbn [join] in E; [contradiction|].
  destruct p; [contradiction | discriminate E].
Qed.

Lemma breakdown_part_nonempty (drink : string) (qty mg : Z) :
  breakdown_part drink qty mg <> "".
Proof.
  unfold breakdown_part. destruct drink; discriminate.
Qed.

(** X9.  With the counts that the number inputs allow (0 to 20 of each
    drink), the total that the form stores lies between 0 and 8600 mg,
    so that the trend analyzer always finds a bin for it; the breakdown
    is empty exactly when the total is 0. *)
Theorem form_total_is_bounded_and_binned :
  forall form : daily_entry,
    counts_in_form_range form ->
    let total := fst (Cafe1.compute_caffeine_total (Cafe1.drink_qty_of form)) in
    let detail := snd (Cafe1.compute_caffeine_total (Cafe1.drink_qty_of form)) in
    0 <= total <= 8600 /\
    (detail = "" <-> total = 0) /\
    Cafe1.caf_bin_of (day_with_total (inject_Z total)) <> None.
Proof.
  intros form H total detail.
  assert (E : Cafe1.compute_caffeine_total (Cafe1.drink_qty_of form)
              = (intake_sum Cafe1.CAFFEINE_CATALOG (Cafe1.drink_qty_of form),
                 intake_listing Cafe1.CAFFEINE_CATALOG
                   (Cafe1.drink_qty_of form))).
  { apply total_intake_of_form. intro item. apply H. }
  subst total detail. rewrite E. cbn [fst snd].
  pose proof (H "Espresso (30 ml)") as H1.
  pose proof (H "Café filtre (250 ml)") as H2.
  pose proof (H "Café instantané (250 ml)") as H3.
  pose proof (H "Thé noir (250 ml)") as H4.
  pose proof (H "Thé vert (250 ml)") as H5.
  pose proof (H "Boisson énergétique (250 ml)") as H6.
  pose proof (H "Cola (330 ml)") as H7.
  pose proof (H "Chocolat (50 g)") as H8.
  assert (S : intake_sum Cafe1.CAFFEINE_CATALOG (Cafe1.drink_qty_of form)
              = f_qty form "Espresso (30 ml)" * 75
                + (f_qty form "Café filtre (250 ml)" * 95
                + (f_qty form "Café instantané (250 ml)" * 60
                + (f_qty form "Thé noir (250 ml)" * 45
                + (f_qty form "Thé vert (250 ml)" * 30
                + (f_qty form "Boisson énergétique (250 ml)" * 80
                + (f_qty form "Cola (330 ml)" * 35
                + (f_qty form "Chocolat (50 g)" * 10 + 0)))))))) by reflexivity.
  assert (B : 0 <= intake_sum Cafe1.CAFFEINE_CATALOG (Cafe1.drink_qty_of form)
              <= 8600) by (rewrite S; lia).
  split; [exact B|]. split.
  - unfold intake_listing. rewrite join_empty_iff.
    2:{ apply Forall_forall. intros p I. apply in_map_iff in I.
        destruct I as [e [<- _]]. apply breakdown_part_nonempty. }
    split.
    + intro M. apply map_eq_nil in M.
      assert (Z : forall e, In e Cafe1.CAFFEINE_CATALOG ->
                   count_of (Cafe1.drink_qty_of form) (fst e) <= 0).
      { intros e I. destruct (Z.ltb_spec 0 (count_of (Cafe1.drink_qty_of form)
                                             (fst e))) as [L | L]; [|exact L].
        exfalso.
        assert (J : In e (filter
                            (fun entry =>
                               0 <? count_of (Cafe1.drink_qty_of form)
                                      (fst entry))
                            Cafe1.CAFFEINE_CATALOG)).
        { apply filter_In. split; [exact I|]. now apply Z.ltb_lt. }
        rewrite M in J. destruct J. }
      unfold intake_sum.
      assert (T : forall cat,
                 incl cat Cafe1.CAFFEINE_CATALOG ->
                 Forall (fun e => 0 <= snd e) cat ->
                 (forall item, 0 <= count_of (Cafe1.drink_qty_of form) item) ->
                 fold_right Z.add 0
                   (map (fun entry =>
                           count_of (Cafe1.drink_qty_of form) (fst entry)
                           * snd entry) cat) = 0).
      { induction cat as [|e cat IH]; intros Hi Hm Hc; [reflexivity|].
        cbn [map fold_right]. inversion Hm; subst.
        rewrite IH; [|intros x Ix; apply Hi; now right | assumption | assumption].
        pose proof (Z e (Hi e (or_introl eq_refl))).
        pose proof (Hc (fst e)).
        replace (count_of (Cafe1.drink_qty_of form) (fst e)) with 0 by lia.
        reflexivity. }
      apply T; [apply incl_refl | repeat constructor; cbn [snd]; lia |].
      intro item. unfold count_of, Cafe1.drink_qty_of.
      cbn [Cafe1.CAFFEINE_CATALOG map fst dict_get].
      repeat match goal with
             | |- context [String.eqb ?k item] =>
                 destruct (String.eqb k item); [apply H|]
             end.
      lia.
    + intro Z0. rewrite S in Z0.
      assert (Q1 : f_qty form "Espresso (30 ml)" = 0) by lia.
      assert (Q2 : f_qty form "Café filtre (250 ml)" = 0) by lia.
      assert (Q3 : f_qty form "Café instantané (250 ml)" = 0) by lia.
      assert (Q4 : f_qty form "Thé noir (250 ml)" = 0) by lia.
      assert (Q5 : f_qty form "Thé vert (250 ml)" = 0) by lia.
      assert (Q6 : f_qty form "Boisson énergétique (250 ml)" = 0) by lia.
      assert (Q7 : f_qty form "Cola (330 ml)" = 0) by lia.
      assert (Q8 : f_qty form "Chocolat (50 g)" = 0) by lia.
      unfold count_of, Cafe1.drink_qty_of.
      cbn [Cafe1.CAFFEINE_CATALOG map filter fst snd dict_get String.eqb
             Ascii.eqb Bool.eqb].
      cbn. rewrite Q1, Q2, Q3, Q4, Q5, Q6, Q7, Q8. reflexivity.
  - unfold Cafe1.caf_bin_of, day_with_total, sample_day, cut.
    cbn [caffeine_mg_total].
    set (t := intake_sum _ _) in *.
    destruct (Z.leb_spec t 99) as [L1 | L1].
    + replace (Qltb (-1) (inject_Z t)) with true
        by (symmetry; apply Qltb_lt; change (-1)%Q with (inject_Z (-1));
            rewrite <- Zlt_Qlt; lia).
      replace (Qle_bool (inject_Z t) 99) with true
        by (symmetry; apply Qle_bool_iff; change 99%Q with (inject_Z 99);
            rewrite <- Zle_Qle; lia).
      discriminate.
    + replace (Qle_bool (inject_Z t) 99) with false
        by (symmetry; apply Qle_bool_gt; change 99%Q with (inject_Z 99);
            rewrite <- Zlt_Qlt; lia).
      rewrite andb_false_r.
      replace (Qltb 99 (inject_Z t)) with true
        by (symmetry; apply Qltb_lt; change 99%Q with (inject_Z 99);
            rewrite <- Zlt_Qlt; lia).
      destruct (Qle_bool (inject_Z t) 200) eqn:E2; [discriminate|].
      cbn [andb].
      replace (Qltb 200 (inject_Z t)) with true
        by (symmetry; apply Qltb_lt; now apply Qle_bool_gt).
      replace (Qle_bool (inject_Z t) 10000) with true
        by (symmetry; apply Qle_bool_iff; change 10000%Q with (inject_Z 10000);
            rewrite <- Zle_Qle; lia).
      discriminate.
Qed.

Lemma Qle_bool_Z (a b : Z) : Qle_bool (inject_Z a) (inject_Z b) = (a <=? b).
Proof.
  apply eq_true_iff_eq. rewrite Qle_bool_iff, <- Zle_Qle. symmetry.
  apply Z.leb_le.
Qed.

Lemma cut_cases (q : Q) (l1 l2 l3 : string) :
  (-1 < q)%Q -> (q <= 10000)%Q ->
  ((q <= 99)%Q /\ cut (Num q) (-1) 99 200 10000 l1 l2 l3 = Some l1) \/
  ((99 < q)%Q /\ (q <= 200)%Q
   /\ cut (Num q) (-1) 99 200 10000 l1 l2 l3 = Some l2) \/
  ((200 < q)%Q /\ cut (Num q) (-1) 99 200 10000 l1 l2 l3 = Some l3).
Proof.
  intros L U. unfold cut.
  apply Qltb_lt in L. apply Qle_bool_iff in U. rewrite L, U.
  destruct (Qle_bool q 99) eqn:E1; cbn [andb].
  - left. apply Qle_bool_iff in E1. auto.
  - apply Qle_bool_gt in E1. pose proof E1 as E1'. apply Qltb_lt in E1'.
    rewrite E1'. destruct (Qle_bool q 200) eqn:E2; cbn [andb].
    + right; left. apply Qle_bool_iff in E2. auto.
    + right; right. apply Qle_bool_gt in E2. pose proof E2 as E2'.
      apply Qltb_lt in E2'. rewrite E2'. cbn [andb]. auto.
Qed.

(** X10.  The bin of the trend analyzer and the level of the summary
    are the same class of a total, except strictly between 99 and 100,
    where the bin is already "Moyen (100–200)" while the level is still
    "Faible"; on a whole total, as the form stores it, they agree. *)
Theorem bin_and_level_differ_only_between_99_and_100 :
  forall q : Q,
    (-1 < q)%Q -> (q <= 10000)%Q ->
    let bin := Cafe1.caf_bin_of (day_with_total q) in
    let level := Cafe1.caffeine_level q in
    ((q <= 99)%Q /\ bin = Some "Faible (<100)" /\ level = "Faible") \/
    ((99 < q)%Q /\ (q < 100)%Q
     /\ bin = Some "Moyen (100–200)" /\ level = "Faible") \/
    ((100 <= q)%Q /\ (q <= 200)%Q
     /\ bin = Some "Moyen (100–200)" /\ level = "Moyen") \/
    ((200 < q)%Q /\ bin = Some "Élevé (>200)" /\ level = "Élevé").
Proof.
  intros q L U bin level. subst bin level.
  unfold Cafe1.caf_bin_of, day_with_total, sample_day.
  cbn [caffeine_mg_total].
  destruct (cut_cases q "Faible (<100)" "Moyen (100–200)" "Élevé (>200)" L U)
    as [[B1 ->] | [[B1 [B2 ->]] | [B1 ->]]];
    destruct (caffeine_level_cases q) as [[C1 ->] | [[C1 [C2 ->]] | [C1 ->]]].
  - left. auto.
  - exfalso. apply (Qlt_irrefl q).
    apply Qle_lt_trans with 99%Q; [exact B1|].
    apply Qlt_le_trans with 100%Q; [reflexivity | exact C1].
  - exfalso. apply (Qlt_irrefl q).
    apply Qle_lt_trans with 99%Q; [exact B1|].
    apply Qlt_trans with 200%Q; [reflexivity | exact C1].
  - right; left. auto.
  - right; right; left. auto.
  - exfalso. apply (Qlt_irrefl q).
    apply Qle_lt_trans with 200%Q; [exact B2 | exact C1].
  - exfalso. apply (Qlt_irrefl q).
    apply Qlt_trans with 100%Q; [exact C1|].
    apply Qlt_trans with 200%Q; [reflexivity | exact B1].
  - exfalso. apply (Qlt_irrefl q).
    apply Qle_lt_trans with 200%Q; [exact C2 | exact B1].
  - right; right; right. auto.
Qed.

(** X11.  For hours of the day (0 to 23) the stored sleep duration is a
    whole number of hours between 1 and 24; it is 24 exactly when the
    two hours are equal, and otherwise the night and the day between
    the same two hours add up to 24. *)
Theorem sleep_hours_between_1_and_24 :
  forall bed wake : Z,
    0 <= bed <= 23 -> 0 <= wake <= 23 ->
    exists h : Z,
      Cafe1.compute_sleep_hours_from_hours bed wake = inject_Z h /\
      1 <= h <= 24 /\
      (h = 24 <-> bed = wake) /\
      (bed <> wake ->
       Cafe1.compute_sleep_hours_from_hours wake bed = inject_Z (24 - h)).
Proof.
  intros bed wake Hb Hw. rewrite !sleep_hours_unfold.
  eexists. split; [reflexivity|].
  destruct (Z.leb_spec wake bed) as [L | L];
    destruct (Z.leb_spec bed wake) as [L' | L'];
    (split; [lia|]); (split; [lia|]); intro N; f_equal; lia.
Qed.

(** ** The advice of the day *)

Lemma rule_text_iff (sens : string) (latest : log_row) (r : rule) :
  In (message r) (Cafe1.conseils_du_jour sens latest) <-> holds sens latest r.
Proof.
  rewrite conseils_du_jour_table, <- fired_iff. split.
  - intro I. destruct (fired sens latest) as [|r0 l] eqn:E.
    + cbn in I. destruct I as [I | []]. symmetry in I.
      now apply message_not_fallback in I.
    + cbn [answer map] in I. change (In (message r) (map message (r0 :: l))) in I.
      apply in_map_iff in I. destruct I as [r' [M I]].
      apply message_injective in M. now subst.
  - intro I. apply in_answer. now apply in_map.
Qed.

Lemma NoDup_map_inj {A B} (f : A -> B) (l : list A) :
  (forall x y, f x = f y -> x = y) -> NoDup l -> NoDup (map f l).
Proof.
  intros Hf H. induction H as [|x l Hx _ IH]; cbn [map]; constructor; auto.
  intro I. apply in_map_iff in I. destruct I as [y [E I]].
  apply Hf in E. now subst.
Qed.

Lemma two_dropped {A} (f : A -> bool) (l : list A) (x y : A) :
  In x l -> In y l -> x <> y -> f x = false -> f y = false ->
  (List.length (filter f l) + 2 <= List.length l)%nat.
Proof.
  intros Ix Iy N Fx Fy. rewrite <- (filter_length f l).
  apply Nat.add_le_mono_l.
  change 2%nat with (List.length [x; y]).
  apply NoDup_incl_length.
  - constructor; [|constructor; [intros []|constructor]].
    intros [E | []]. now apply N.
  - intros z [<- | [<- | []]]; apply filter_In; split; auto;
      [now rewrite Fx | now rewrite Fy].
Qed.

Lemma rule_table_NoDup : NoDup rule_table.
Proof.
  unfold rule_table.
  repeat (constructor; [cbn [In]; intuition discriminate|]). constructor.
Qed.

Lemma band_excludes_high_dose (sens : string) (latest : log_row) :
  holds sens latest UsefulBand ->
  ~ holds sens latest HighDoseHeart /\ ~ holds sens latest Overstimulation.
Proof.
  cbn [holds]. intros [_ U].
  split; intro H; apply (Qlt_irrefl 200);
    (apply Qlt_le_trans with (safe_float (caffeine_mg_total latest) 0);
     [exact H|]);
    (apply Qle_trans with 150%Q; [exact U | discriminate]).
Qed.

Lemma sensitivities_exclude (sens : string) (latest : log_row) :
  holds sens latest SensitivityHigh -> ~ holds sens latest SensitivityLow.
Proof.
  cbn [holds]. intros [E _] [E' _]. rewrite E in E'. discriminate.
Qed.

Lemma holdsb_false (sens : string) (latest : log_row) (r : rule) :
  ~ holds sens latest r -> holdsb sens latest r = false.
Proof.
  intro N. destruct (holdsb sens latest r) eqn:E; [|reflexivity].
  apply holdsb_holds in E. contradiction.
Qed.

Lemma fired_at_most_11 (sens : string) (latest : log_row) :
  (List.length (fired sens latest) <= 11)%nat.
Proof.
  assert (X : exists x, x <> SensitivityHigh /\ x <> SensitivityLow
                        /\ holdsb sens latest x = false).
  { destruct (holdsb sens latest UsefulBand) eqn:E.
    - exists HighDoseHeart. repeat split; try discriminate.
      apply holdsb_false. apply holdsb_holds in E.
      now apply band_excludes_high_dose.
    - exists UsefulBand. repeat split; try discriminate. exact E. }
  assert (Y : exists y, (y = SensitivityHigh \/ y = SensitivityLow)
                        /\ holdsb sens latest y = false).
  { destruct (holdsb sens latest SensitivityHigh) eqn:E.
    - exists SensitivityLow. split; [now right|].
      apply holdsb_false. apply holdsb_holds in E.
      now apply sensitivities_exclude.
    - exists SensitivityHigh. split; [now left | exact E]. }
  destruct X as [x [N1 [N2 Fx]]]. destruct Y as [y [Ey Fy]].
  pose proof (two_dropped (holdsb sens latest) rule_table x y
                (rule_in_table x) (rule_in_table y)) as T.
  unfold fired. change (List.length rule_table) with 13%nat in T.
  assert (x <> y) by (destruct Ey; congruence).
  specialize (T H Fx Fy). lia.
Qed.

Lemma summary_of_report (participant_row : option participant)
  (first : log_row) (rest : list log_row) :
  summary (Cafe1.build_recommendations participant_row (first :: rest))
  = Cafe1.resume (sensitivity_of participant_row)
      (last (sort_by_date (first :: rest)) first).
Proof. reflexivity. Qed.

(** X12.  For a history that is not empty the advice of the day is
    never empty, holds no text twice and has at most 11 texts (the
    useful band excludes the two texts on a total above 200, and the two
    sensitivities exclude each other); a day reaches 11. *)
Theorem advice_is_between_1_and_11_distinct_texts :
  (forall (participant_row : option participant)
          (first : log_row) (rest : list log_row),
      let out :=
        today (Cafe1.build_recommendations participant_row (first :: rest)) in
      out <> [] /\ NoDup out /\ (List.length out <= 11)%nat) /\
  List.length
    (today (Cafe1.build_recommendations (Some low_sensitivity_participant)
              [heavy_day])) = 11%nat.
Proof.
  split; [|reflexivity].
  intros p first rest out. subst out.
  rewrite today_of_report, conseils_du_jour_table.
  set (sens := sensitivity_of p).
  set (latest := last (sort_by_date (first :: rest)) first).
  pose proof (fired_at_most_11 sens latest) as L.
  assert (D : NoDup (map message (fired sens latest))).
  { apply NoDup_map_inj; [exact message_injective|].
    unfold fired. apply NoDup_filter. exact rule_table_NoDup. }
  rewrite <- (length_map message) in L.
  destruct (map message (fired sens latest)) as [|t l]; cbn [answer].
  - split; [discriminate|]. split; [|cbn; lia].
    constructor; [intros [] | constructor].
  - split; [discriminate|]. split; assumption.
Qed.

Lemma string_app_inv_head (p a b : string) : p ++ a = p ++ b -> a = b.
Proof.
  induction p as [|c p IH]; cbn [append]; [auto|].
  intro H. injection H as H. auto.
Qed.

Lemma list_ascii_app (s t : string) :
  list_ascii_of_string (s ++ t)
  = (list_ascii_of_string s ++ list_ascii_of_string t)%list.
Proof.
  induction s as [|c s IH]; cbn [append list_ascii_of_string app];
    [reflexivity | now rewrite IH].
Qed.

Lemma string_app_inv_tail (s s' t : string) : s ++ t = s' ++ t -> s = s'.
Proof.
  intro H. apply (f_equal list_ascii_of_string) in H.
  rewrite !list_ascii_app in H. apply app_inv_tail in H.
  rewrite <- (string_of_list_ascii_of_string s),
          <- (string_of_list_ascii_of_string s').
  now rewrite H.
Qed.

Lemma in_append_if (cond : bool) (msg x : string) (acc : list string) :
  In x (append_if cond msg acc) <-> In x acc \/ (cond = true /\ x = msg).
Proof.
  unfold append_if. destruct cond.
  - rewrite in_app_iff. cbn [In]. intuition.
  - intuition discriminate.
Qed.

(** The line of the level occurs in the summary with the level of the
    total of the latest day, and with no other. *)
Lemma level_line_in_summary (sens : string) (latest : log_row)
  (level : string) :
  In (level_line latest level) (Cafe1.resume sens latest)
  <-> level = Cafe1.caffeine_level (safe_float (caffeine_mg_total latest) 0).
Proof.
  unfold Cafe1.resume. cbv zeta. rewrite in_append_if. split.
  - intros [I | [_ I]].
    + cbn [In] in I.
      destruct I as [I | [I | [I | [I | [I | []]]]]];
        unfold level_line in I; try (cbn [append] in I; discriminate I).
      apply string_app_inv_head in I. apply string_app_inv_head in I.
      apply string_app_inv_head in I. apply string_app_inv_tail in I.
      now symmetry.
    + unfold level_line in I. cbn [append] in I. discriminate I.
  - intros ->. left. right. left. reflexivity.
Qed.

(** X13.  The summary and the advice of the day agree on the total of
    the latest day: the summary gives the level "Élevé" exactly when the
    advice holds the caution on the heart, which comes exactly with the
    text on overstimulation; and when the advice holds the text on the
    useful band, the summary gives "Faible" or "Moyen". *)
Theorem summary_level_agrees_with_advice :
  forall (participant_row : option participant)
         (first : log_row) (rest : list log_row),
    let r := Cafe1.build_recommendations participant_row (first :: rest) in
    let latest := last (sort_by_date (first :: rest)) first in
    (In (level_line latest "Élevé") (summary r)
     <-> In Cafe1.msg_heart_dose (today r)) /\
    (In Cafe1.msg_heart_dose (today r)
     <-> In Cafe1.msg_overstimulation (today r)) /\
    (In Cafe1.msg_useful_band (today r) ->
     In (level_line latest "Faible") (summary r)
     \/ In (level_line latest "Moyen") (summary r)).
Proof.
  intros p first rest r latest. subst r.
  rewrite summary_of_report, today_of_report. fold latest.
  set (sens := sensitivity_of p).
  rewrite !level_line_in_summary.
  change Cafe1.msg_heart_dose with (message HighDoseHeart).
  change Cafe1.msg_overstimulation with (message Overstimulation).
  change Cafe1.msg_useful_band with (message UsefulBand).
  rewrite !rule_text_iff. cbn [holds].
  set (caf := safe_float (caffeine_mg_total latest) 0).
  destruct (caffeine_level_cases caf) as [[C ->] | [[C [C' ->]] | [C ->]]].
  - split; [|split; [tauto | auto]].
    split; [discriminate|]. intro H. exfalso. apply (Qlt_irrefl caf).
    apply Qlt_trans with 100%Q; [exact C|].
    apply Qlt_trans with 200%Q; [reflexivity | exact H].
  - split; [|split; [tauto | auto]].
    split; [discriminate|]. intro H. exfalso. apply (Qlt_irrefl caf).
    apply Qle_lt_trans with 200%Q; [exact C' | exact H].
  - split; [tauto|]. split; [tauto|].
    intros [_ U]. exfalso. apply (Qlt_irrefl caf).
    apply Qle_lt_trans with 150%Q; [exact U|].
    apply Qlt_trans with 200%Q; [reflexivity | exact C].
Qed.

(** ** The patterns over the last seven records *)

Lemma str_int_no_space (k : Z) :
  0 <= k ->
  Forall (fun c => is_space c = false) (list_ascii_of_string (str_int k)).
Proof.
  intro H. apply digits_no_space, isdigit_all. now apply str_int_digits.
Qed.

Lemma split_at_space (s s' a b : string) :
  Forall (fun c => is_space c = false) (list_ascii_of_string s) ->
  Forall (fun c => is_space c = false) (list_ascii_of_string s') ->
  s ++ String " " a = s' ++ String " " b -> s = s' /\ a = b.
Proof.
  revert s'. induction s as [|c s IH]; intros [|c' s'] Hs Hs' E;
    cbn [append list_ascii_of_string] in *.
  - injection E as E. auto.
  - injection E as E1 E2. inversion Hs' as [|? ? Hc _]; subst.
    discriminate Hc.
  - injection E as E1 E2. inversion Hs as [|? ? Hc _]; subst.
    discriminate Hc.
  - injection E as E1 E2. inversion Hs; inversion Hs'; subst.
    destruct (IH s') as [-> ->]; auto.
Qed.

Lemma str_int_inj (k c : Z) : 0 <= k -> 0 <= c -> str_int k = str_int c -> k = c.
Proof.
  intros Hk Hc E.
  rewrite <- (proj2 (str_int_digits k Hk)), <- (proj2 (str_int_digits c Hc)).
  now rewrite E.
Qed.

Section PatternTexts.

Variables k c : Z.
Hypothesis Hk : 0 <= k.
Hypothesis Hc : 0 <= c.

Lemma high_text_inj :
  Cafe1.msg_high_caf_days k = Cafe1.msg_high_caf_days c -> k = c.
Proof.
  unfold Cafe1.msg_high_caf_days. intro E.
  apply string_app_inv_head in E.
  apply split_at_space in E; auto using str_int_no_space.
  apply str_int_inj; tauto.
Qed.

Lemma late_text_inj :
  Cafe1.msg_late_days k = Cafe1.msg_late_days c -> k = c.
Proof.
  unfold Cafe1.msg_late_days. intro E.
  apply string_app_inv_head in E.
  apply split_at_space in E; auto using str_int_no_space.
  apply str_int_inj; tauto.
Qed.

Lemma low_sleep_text_inj :
  Cafe1.msg_low_sleep_days k = Cafe1.msg_low_sleep_days c -> k = c.
Proof.
  unfold Cafe1.msg_low_sleep_days. intro E.
  apply string_app_inv_head in E.
  apply split_at_space in E; auto using str_int_no_space.
  apply str_int_inj; tauto.
Qed.

Lemma late_text_not_low_sleep :
  Cafe1.msg_late_days k <> Cafe1.msg_low_sleep_days c.
Proof.
  unfold Cafe1.msg_late_days, Cafe1.msg_low_sleep_days. intro E.
  apply string_app_inv_head in E.
  apply split_at_space in E; auto using str_int_no_space.
  destruct E as [_ E]. discriminate E.
Qed.

End PatternTexts.

Lemma high_text_not_late (k c : Z) :
  Cafe1.msg_high_caf_days k <> Cafe1.msg_late_days c.
Proof.
  unfold Cafe1.msg_high_caf_days, Cafe1.msg_late_days. intro E.
  cbn [append] in E. discriminate E.
Qed.

Lemma high_text_not_low_sleep (k c : Z) :
  Cafe1.msg_high_caf_days k <> Cafe1.msg_low_sleep_days c.
Proof.
  unfold Cafe1.msg_high_caf_days, Cafe1.msg_low_sleep_days. intro E.
  cbn [append] in E. discriminate E.
Qed.

(** What a text of the comparison looks like. *)
Lemma in_comparaison (x : string) (last7 : list log_row) :
  In x (Cafe1.comparaison last7) ->
  exists best worst, x = Cafe1.msg_comparison best worst.
Proof.
  unfold Cafe1.comparaison. cbv zeta.
  destruct (_ && _); [|intros []].
  destruct (sort_values _ false _) as [|best ?]; [intros []|].
  destruct (sort_values _ true _) as [|worst ?]; [intros []|].
  intros [<- | []]. eauto.
Qed.

Lemma in_answer_cases (fallback x : string) (texts : list string) :
  In x (answer fallback texts)
  <-> (x = fallback /\ answer fallback texts = [fallback]) \/ In x texts.
Proof.
  destruct texts as [|t l]; cbn [answer In].
  - intuition.
  - split; [tauto|]. intros [[-> E] | I]; [|exact I].
    injection E as E1 E2. now left.
Qed.

Lemma in_pattern_if_iff (count : Z) (text : Z -> string) (x : string) :
  In x (pattern_if count text) <-> 3 <= count /\ x = text count.
Proof.
  unfold pattern_if. destruct (Z.leb_spec 3 count); cbn [In].
  - intuition.
  - intuition lia.
Qed.

(** The members of the list of patterns. *)
Lemma in_tendances (df : list log_row) (x : string) :
  In x (Cafe1.tendances df) <->
  (x = Cafe1.msg_no_trend /\ Cafe1.tendances df = [Cafe1.msg_no_trend]) \/
  ((3 <= List.length (tail 7 df))%nat /\
   ((3 <= Cafe1.high_caf_days (tail 7 df)
     /\ x = Cafe1.msg_high_caf_days (Cafe1.high_caf_days (tail 7 df))) \/
    (3 <= Cafe1.late_days (tail 7 df)
     /\ x = Cafe1.msg_late_days (Cafe1.late_days (tail 7 df))) \/
    (3 <= Cafe1.low_sleep_days (tail 7 df)
     /\ x = Cafe1.msg_low_sleep_days (Cafe1.low_sleep_days (tail 7 df))) \/
    In x (Cafe1.comparaison (tail 7 df)))).
Proof.
  destruct (Nat.ltb_spec (List.length (tail 7 df)) 3) as [S | L].
  - rewrite (tendances_short df S). cbn [In]. split.
    + intros [<- | []]. now left.
    + intros [[-> _] | [L _]]; [now left | lia].
  - rewrite (tendances_long df L), in_answer_cases, !in_app_iff,
      !in_pattern_if_iff.
    tauto.
Qed.

Lemma window_counts_bounds (logs : list log_row) :
  0 <= Cafe1.high_caf_days (window logs) <= 7 /\
  0 <= Cafe1.late_days (window logs) <= 7 /\
  0 <= Cafe1.low_sleep_days (window logs) <= 7.
Proof.
  pose proof (window_length logs) as L.
  unfold Cafe1.high_caf_days, Cafe1.late_days, Cafe1.low_sleep_days.
  repeat split;
    match goal with
    | |- context [mask_sum ?m ?l] => pose proof (mask_sum_bounds m l)
    end; lia.
Qed.

(** The patterns in terms of the counters of the code. *)
Lemma patterns_by_counters :
  forall (participant_row : option participant)
         (first : log_row) (rest : list log_row) (k : Z),
    0 <= k ->
    let out :=
      patterns (Cafe1.build_recommendations participant_row (first :: rest)) in
    let w := window (first :: rest) in
    out <> [] /\
    (In (Cafe1.msg_high_caf_days k) out
     <-> k = Cafe1.high_caf_days w /\ 3 <= k <= 7) /\
    (In (Cafe1.msg_late_days k) out
     <-> k = Cafe1.late_days w /\ 3 <= k <= 7) /\
    (In (Cafe1.msg_low_sleep_days k) out
     <-> k = Cafe1.low_sleep_days w /\ 3 <= k <= 7) /\
    (In Cafe1.msg_no_trend out <-> out = [Cafe1.msg_no_trend]).
Proof.
  intros p first rest k Hk out w. subst out.
  rewrite patterns_of_report.
  set (df := sort_by_date (first :: rest)).
  change w with (tail 7 df).
  destruct (window_counts_bounds (first :: rest)) as [Bh [Bl Bs]].
  change (window (first :: rest)) with (tail 7 df) in Bh, Bl, Bs.
  assert (W : (List.length (tail 7 df) <= 7)%nat).
  { unfold df. change (tail 7 (sort_by_date (first :: rest)))
      with (window (first :: rest)). rewrite window_length. lia. }
  assert (Short : forall count, 0 <= count <= Z.of_nat (List.length (tail 7 df))
                                -> 3 <= count
                                -> (3 <= List.length (tail 7 df))%nat)
    by (intros; lia).
  split; [|split; [|split; [|split]]].
  - destruct (Nat.ltb_spec (List.length (tail 7 df)) 3) as [S | L].
    + rewrite (tendances_short df S). discriminate.
    + rewrite (tendances_long df L).
      destruct (_ ++ _)%list; cbn [answer]; discriminate.
  - rewrite in_tendances. split.
    + intros [[E _] | [_ [[T E] | [[_ E] | [[_ E] | I]]]]].
      * unfold Cafe1.msg_high_caf_days in E. cbn [append] in E.
        discriminate E.
      * apply high_text_inj in E; lia.
      * now apply high_text_not_late in E.
      * now apply high_text_not_low_sleep in E.
      * apply in_comparaison in I. destruct I as [b [w' I]].
        unfold Cafe1.msg_high_caf_days, Cafe1.msg_comparison in I.
        cbn [append] in I. discriminate I.
    + intros [-> T]. right. split; [|left; split; [lia | reflexivity]].
      apply (Short (Cafe1.high_caf_days (tail 7 df))); [|lia].
      pose proof (mask_sum_bounds
                    (fun r => series_gt (caffeine_mg_total r) 200)
                    (tail 7 df)) as M.
      exact M.
  - rewrite in_tendances. split.
    + intros [[E _] | [_ [[_ E] | [[T E] | [[_ E] | I]]]]].
      * unfold Cafe1.msg_late_days in E. cbn [append] in E.
        discriminate E.
      * symmetry in E. now apply high_text_not_late in E.
      * apply late_text_inj in E; lia.
      * apply late_text_not_low_sleep in E; [contradiction | lia | lia].
      * apply in_comparaison in I. destruct I as [b [w' I]].
        unfold Cafe1.msg_late_days, Cafe1.msg_comparison in I.
        cbn [append] in I. discriminate I.
    + intros [-> T]. right.
      split; [|right; left; split; [lia | reflexivity]].
      apply (Short (Cafe1.late_days (tail 7 df))); [|lia].
      pose proof (mask_sum_bounds
                    (fun r => series_ge (last_caffeine_hour r) 17)
                    (tail 7 df)) as M.
      exact M.
  - rewrite in_tendances. split.
    + intros [[E _] | [_ [[_ E] | [[_ E] | [[T E] | I]]]]].
      * unfold Cafe1.msg_low_sleep_days in E. cbn [append] in E.
        discriminate E.
      * symmetry in E. now apply high_text_not_low_sleep in E.
      * symmetry in E.
        apply late_text_not_low_sleep in E; [contradiction | lia | lia].
      * apply low_sleep_text_inj in E; lia.
      * apply in_comparaison in I. destruct I as [b [w' I]].
        unfold Cafe1.msg_low_sleep_days, Cafe1.msg_comparison in I.
        cbn [append] in I. discriminate I.
    + intros [-> T]. right.
      split; [|right; right; left; split; [lia | reflexivity]].
      apply (Short (Cafe1.low_sleep_days (tail 7 df))); [|lia].
      pose proof (mask_sum_bounds
                    (fun r => series_lt (sleep_hours r) 7)
                    (tail 7 df)) as M.
      exact M.
  - rewrite in_tendances. split.
    + intros [[_ E] | [_ [[_ E] | [[_ E] | [[_ E] | I]]]]];
        [exact E | | | |];
        try (apply in_comparaison in I; destruct I as [b [w' I]]; rename I into E);
        exfalso;
        unfold Cafe1.msg_high_caf_days, Cafe1.msg_late_days,
          Cafe1.msg_low_sleep_days, Cafe1.msg_comparison in E;
        cbn [append] in E; discriminate E.
    + intro E. left. split; [reflexivity | exact E].
Qed.

Lemma number_is_the_counter {A} (P : A -> Prop) (l : list A) (c k : Z) :
  number_of P l c -> (number_of P l k <-> k = c).
Proof.
  intro C. split.
  - intro K. exact (number_of_unique P l k c K C).
  - intros ->. exact C.
Qed.

(** X14.  For a history that is not empty the list of patterns is never
    empty.  A text that names k days above 200 mg is in it exactly when
    k is the number of days of the window with a total above 200 mg and
    k is at least 3 (so between 3 and 7); the same holds for the text
    on the last intake and the days with a last intake from 17h, and
    for the text on sleep and the days with less than 7 hours of sleep.
    The text on too few days is there only when it is the whole
    list. *)
Theorem patterns_name_exactly_the_reached_counts :
  forall (participant_row : option participant)
         (first : log_row) (rest : list log_row) (k : Z),
    0 <= k ->
    let out :=
      patterns (Cafe1.build_recommendations participant_row (first :: rest)) in
    let w := window (first :: rest) in
    out <> [] /\
    (In (Cafe1.msg_high_caf_days k) out
     <-> number_of total_over_200 w k /\ 3 <= k <= 7) /\
    (In (Cafe1.msg_late_days k) out
     <-> number_of last_intake_from_17h w k /\ 3 <= k <= 7) /\
    (In (Cafe1.msg_low_sleep_days k) out
     <-> number_of sleep_under_7h w k /\ 3 <= k <= 7) /\
    (In Cafe1.msg_no_trend out <-> out = [Cafe1.msg_no_trend]).
Proof.
  intros p first rest k Hk out w.
  destruct (patterns_by_counters p first rest k Hk) as [N [H [L [S F]]]].
  fold out in N, H, L, S, F. fold w in H, L, S.
  destruct (window_counts w) as [Ch [Cl Cs]].
  split; [exact N|].
  rewrite (number_is_the_counter _ _ _ k Ch),
    (number_is_the_counter _ _ _ k Cl), (number_is_the_counter _ _ _ k Cs).
  tauto.
Qed.

(** ** Records older than the window *)

Lemma sort_older_last (x : log_row) (logs : list log_row) :
  older_than_all x logs ->
  sort_by_date (logs ++ [x]) = x :: sort_by_date logs.
Proof.
  unfold sort_by_date, sort_values, older_than_all.
  induction logs as [|y logs IH]; intro H; [reflexivity|].
  cbn [app sort_asc]. rewrite IH by (intros r I; apply H; now right).
  cbn [insert_by]. rewrite (H y) by now left. reflexivity.
Qed.

Lemma tail_cons_full {A} (k : nat) (x : A) (l : list A) :
  (k <= List.length l)%nat -> tail k (x :: l) = tail k l.
Proof.
  intro H. unfold tail. cbn [List.length].
  replace (S (List.length l) - k)%nat with (S (List.length l - k)) by lia.
  reflexivity.
Qed.

Lemma last_cons_nonempty {A} (x d : A) (l : list A) :
  l <> [] -> last (x :: l) d = last l d.
Proof. destruct l; [contradiction | reflexivity]. Qed.

(** X15.  A record entered afterwards for a day older than all the
    days of a history changes neither the summary nor the advice of the
    day, and once the history holds seven records it changes nothing in
    the patterns either: the report reads the latest day and the last
    seven days only. *)
Theorem older_record_leaves_the_report :
  forall (participant_row : option participant)
         (first : log_row) (rest : list log_row) (x : log_row),
    older_than_all x (first :: rest) ->
    let before :=
      Cafe1.build_recommendations participant_row (first :: rest) in
    let after :=
      Cafe1.build_recommendations participant_row ((first :: rest) ++ [x]) in
    summary after = summary before /\
    today after = today before /\
    ((7 <= List.length (first :: rest))%nat ->
     patterns after = patterns before).
Proof.
  intros p first rest x H before after. subst before after.
  change ((first :: rest) ++ [x])%list with (first :: (rest ++ [x]))%list.
  rewrite !summary_of_report, !today_of_report, !patterns_of_report.
  change (first :: (rest ++ [x]))%list with ((first :: rest) ++ [x])%list.
  rewrite (sort_older_last x (first :: rest) H).
  assert (N : sort_by_date (first :: rest) <> []).
  { intro E. apply (f_equal (@List.length _)) in E.
    rewrite sort_by_date_length in E. discriminate E. }
  rewrite (last_cons_nonempty x first _ N).
  split; [reflexivity|]. split; [reflexivity|].
  intro L. unfold Cafe1.tendances. cbv zeta.
  rewrite tail_cons_full by (rewrite sort_by_date_length; exact L).
  reflexivity.
Qed.

(** ** The two applications with the full rule set *)

(** X16.  [CafeLamiaa.py] and [Cafe1.py] fire the same rules on the
    same history, with the same thresholds: their advice of the day is
    the answer for one list of rules, the rules that hold on the latest
    record, each application with its own texts; the two lists of advice
    have the same length. *)
Theorem lamiaa_and_cafe1_fire_the_same_rules :
  forall (participant_row : option participant)
         (first : log_row) (rest : list log_row),
    let a := today (Cafe1.build_recommendations participant_row
                      (first :: rest)) in
    let b := today (CafeLamiaa.build_recommendations participant_row
                      (first :: rest)) in
    let latest := last (sort_by_date (first :: rest)) first in
    exists rules : list rule,
      (forall r, In r rules
                 <-> holds (sensitivity_of participant_row) latest r) /\
      a = answer Cafe1.msg_nothing_alarming (map message rules) /\
      b = answer CafeLamiaa.msg_nothing_alarming
            (map lamiaa_message rules) /\
      List.length a = List.length b.
Proof.
  intros p first rest a b latest.
  exists (fired (sensitivity_of p) latest).
  assert (Ea : a = answer Cafe1.msg_nothing_alarming
                     (map message (fired (sensitivity_of p) latest))).
  { subst a. rewrite today_of_report. apply conseils_du_jour_table. }
  assert (Eb : b = answer CafeLamiaa.msg_nothing_alarming
                     (map lamiaa_message (fired (sensitivity_of p) latest))).
  { subst b. cbn [CafeLamiaa.build_recommendations today].
    apply lamiaa_conseils_du_jour_table. }
  split; [intro r; apply fired_iff|].
  split; [exact Ea|]. split; [exact Eb|].
  rewrite Ea, Eb.
  destruct (fired (sensitivity_of p) latest); cbn [map answer List.length];
    [reflexivity|].
  now rewrite !length_map.
Qed.

(** ** The quality control of the keys *)

Lemma key_dec (a b : string * string) : {a = b} + {a <> b}.
Proof. decide equality; apply string_dec. Qed.

Lemma dup_counts_the_key (df : list log_row) (pid day : string) :
  List.length (Cafe1.dup df pid day)
  = count_occ key_dec (map key_of df) (pid, day).
Proof.
  unfold Cafe1.dup.
  induction df as [|r df IH]; [reflexivity|].
  cbn [filter map count_occ].
  destruct (key_dec (key_of r) (pid, day)) as [E | N].
  - unfold key_of in E. injection E as P D.
    rewrite P, D, !String.eqb_refl. cbn [andb List.length]. now rewrite IH.
  - destruct (String.eqb (participant_id r) pid) eqn:P;
      destruct (String.eqb (date r) day) eqn:D; cbn [andb]; try exact IH.
    exfalso. apply N. apply String.eqb_eq in P, D. unfold key_of.
    now rewrite P, D.
Qed.

Lemma filter_marks {A} (f : A -> bool) (l : list A) :
  List.length (filter (fun b : bool => b) (map f l))
  = List.length (filter f l).
Proof.
  induction l as [|x l IH]; [reflexivity|].
  cbn [map filter]. destruct (f x); cbn [List.length]; now rewrite IH.
Qed.

Lemma filter_length_mono {A} (p q : A -> bool) (l : list A) :
  (forall x, In x l -> p x = true -> q x = true) ->
  (List.length (filter p l) <= List.length (filter q l))%nat.
Proof.
  induction l as [|x l IH]; intro H; [reflexivity|].
  cbn [filter].
  assert (IH' : (List.length (filter p l) <= List.length (filter q l))%nat)
    by (apply IH; intros y I; apply H; now right).
  destruct (p x) eqn:P.
  - rewrite (H x (or_introl eq_refl) P). cbn [List.length]. lia.
  - destruct (q x); cbn [List.length]; lia.
Qed.

Lemma n_dup_unfold (df : list log_row) :
  Cafe1.n_dup df
  = Z.of_nat
      (List.length
         (filter (fun r =>
                    (1 <? count_occ key_dec (map key_of df) (key_of r))%nat)
                 df)).
Proof.
  unfold Cafe1.n_dup, Cafe1.duplicated. rewrite filter_marks.
  do 2 f_equal. apply filter_ext. intro r.
  now rewrite dup_counts_the_key.
Qed.

Lemma n_dup_zero_iff (df : list log_row) :
  Cafe1.n_dup df = 0 <-> NoDup (map key_of df).
Proof.
  rewrite n_dup_unfold, (NoDup_count_occ key_dec). split.
  - intros Z k.
    destruct (in_dec key_dec k (map key_of df)) as [I | N].
    + apply in_map_iff in I. destruct I as [r [<- I]].
      destruct (Nat.ltb_spec 1 (count_occ key_dec (map key_of df) (key_of r)))
        as [L | L]; [|exact L].
      exfalso.
      assert (J : In r (filter
                          (fun r => (1 <? count_occ key_dec (map key_of df)
                                            (key_of r))%nat) df)).
      { apply filter_In. split; [exact I|]. now apply Nat.ltb_lt. }
      destruct (filter _ df); [destruct J | discriminate Z].
    + apply (count_occ_not_In key_dec) in N. rewrite N. lia.
  - intro H.
    replace (filter _ df) with (@nil log_row); [reflexivity|].
    symmetry. revert H. generalize (map key_of df) as keys.
    intros keys Hk. induction df as [|r df IH]; [reflexivity|].
    cbn [filter].
    destruct (Nat.ltb_spec 1 (count_occ key_dec keys (key_of r))) as [L | L];
      [|exact IH].
    specialize (Hk (key_of r)). lia.
Qed.

Lemma n_dup_not_one (df : list log_row) : Cafe1.n_dup df <> 1.
Proof.
  rewrite n_dup_unfold. intro E.
  set (marked := fun r => (1 <? count_occ key_dec (map key_of df)
                                  (key_of r))%nat) in E.
  destruct (filter marked df) as [|r l] eqn:F; [discriminate E|].
  assert (I : In r (filter marked df)) by (rewrite F; now left).
  apply filter_In in I. destruct I as [I M].
  unfold marked in M. apply Nat.ltb_lt in M.
  assert (K : key_of r = (participant_id r, date r)) by reflexivity.
  rewrite K, <- dup_counts_the_key in M. unfold Cafe1.dup in M.
  pose proof (filter_length_mono
                (fun r' => String.eqb (participant_id r') (participant_id r)
                           && String.eqb (date r') (date r))
                marked df) as Le.
  rewrite F in Le. cbn [List.length] in E, Le.
  assert ((List.length
             (filter (fun r' => String.eqb (participant_id r') (participant_id r)
                                && String.eqb (date r') (date r)) df)
           <= S (List.length l))%nat).
  { apply Le. intros x Ix Hx. apply andb_true_iff in Hx.
    destruct Hx as [P D]. apply String.eqb_eq in P, D.
    unfold marked. apply Nat.ltb_lt.
    replace (key_of x) with (participant_id r, date r)
      by (unfold key_of; now rewrite P, D).
    rewrite <- dup_counts_the_key. unfold Cafe1.dup. exact M. }
  lia.
Qed.

Lemma distinct_keys_filter {K} (keep : log_row -> bool)
  (key : log_row -> K) (rows : list log_row) :
  NoDup (map key rows) -> NoDup (map key (filter keep rows)).
Proof.
  intro D. induction rows as [|r rows IH]; [exact D|].
  cbn [map filter] in *. apply NoDup_cons_iff in D. destruct D as [Hr D].
  destruct (keep r); [|exact (IH D)].
  cbn [map]. apply NoDup_cons; [|exact (IH D)].
  intro I. apply Hr. apply in_map_iff in I. destruct I as [y [E I]].
  apply filter_In in I. rewrite <- E. apply in_map. tauto.
Qed.

Lemma selection_keys_distinct (logs : list log_row)
  (pid_choice start_date end_date : string) :
  NoDup (map key_of logs) ->
  NoDup (map key_of (Cafe1.selection logs pid_choice start_date end_date)).
Proof.
  intro H. unfold Cafe1.selection, in_period, rows_of. cbv zeta.
  destruct (negb _); repeat apply distinct_keys_filter; exact H.
Qed.

(** X17.  The quality control of the export page reports no duplicate
    exactly when no two rows of the frame it is given share participant
    and date; the number it reports otherwise is never 1; and when the
    rows of a frame have distinct keys, it reports no duplicate for
    every selection of a participant and a period in it. *)
Theorem quality_control_finds_exactly_shared_keys :
  forall df : list log_row,
    (Cafe1.controle_doublons df
     = st_success "Pas de doublons (participant + date) sur la sélection."
     <-> NoDup (map key_of df)) /\
    Cafe1.n_dup df <> 1 /\
    (NoDup (map key_of df) ->
     forall pid_choice start_date end_date : string,
       Cafe1.controle_doublons
         (Cafe1.selection df pid_choice start_date end_date)
       = st_success "Pas de doublons (participant + date) sur la sélection.").
Proof.
  assert (C : forall df,
             Cafe1.controle_doublons df
             = st_success "Pas de doublons (participant + date) sur la sélection."
             <-> NoDup (map key_of df)).
  { intro df. rewrite <- n_dup_zero_iff. unfold Cafe1.controle_doublons.
    assert (0 <= Cafe1.n_dup df) by (unfold Cafe1.n_dup; lia).
    destruct (Z.ltb_spec 0 (Cafe1.n_dup df)) as [L | L].
    - split; [discriminate | lia].
    - split; [lia | reflexivity]. }
  intro df. split; [apply C|]. split; [apply n_dup_not_one|].
  intros D pid_choice start_date end_date.
  apply C. now apply selection_keys_distinct.
Qed.

(** ** The page of the recommendations *)

Lemma rows_of_saved_entry (file saved : list log_row) (form : daily_entry)
  (now msg pid : string) :
  f_pid form <> pid ->
  Cafe1.daily_entry_submit file form now = (saved, Success msg) ->
  rows_of pid saved = rows_of pid (Cafe1.load_logs file).
Proof.
  intros N S.
  destruct (daily_entry_cases file form now)
    as [[E _] | [row [msg' [E [K _]]]]]; rewrite E in S; [discriminate S|].
  assert (Es : saved = (Cafe1.load_logs file ++ [row])%list) by congruence.
  rewrite Es. unfold rows_of. rewrite filter_app.
  unfold key_of in K. injection K as P D.
  cbn [filter]. rewrite P.
  apply String.eqb_neq in N. rewrite N. apply app_nil_r.
Qed.

Lemma rows_of_deleted_other (file : list log_row)
  (del_pid del_date pid : string) :
  del_pid <> pid ->
  rows_of pid (fst (Cafe1.delete_entry_submit file del_pid del_date))
  = rows_of pid (Cafe1.load_logs file).
Proof.
  intro N. cbn [Cafe1.delete_entry_submit fst]. unfold rows_of.
  generalize (Cafe1.load_logs file) as logs.
  induction logs as [|r logs IH]; [reflexivity|].
  cbn [filter].
  destruct (String.eqb (participant_id r) pid) eqn:P.
  - apply String.eqb_eq in P.
    assert (D : String.eqb (participant_id r) del_pid = false)
      by (apply String.eqb_neq; congruence).
    rewrite D. cbn [andb negb filter].
    apply String.eqb_eq in P. rewrite P. now rewrite IH.
  - destruct (negb _); cbn [filter]; [rewrite P|]; exact IH.
Qed.

Lemma page_reads_the_rows_of (participants_file : list participant)
  (a b : list log_row) (pid start_date end_date : string) :
  rows_of pid (Cafe1.load_logs a) = rows_of pid (Cafe1.load_logs b) ->
  rows_of pid (Cafe1.load_logs b) <> [] ->
  Cafe1.page_recommandations participants_file a pid start_date end_date
  = Cafe1.page_recommandations participants_file b pid start_date end_date.
Proof.
  intros E N. unfold Cafe1.page_recommandations. cbv zeta. rewrite E.
  assert (Na : Cafe1.load_logs a <> [])
    by (intro Z; rewrite Z in E; cbn in E; now rewrite <- E in N).
  assert (Nb : Cafe1.load_logs b <> [])
    by (intro Z; rewrite Z in N; now apply N).
  destruct (Cafe1.load_logs a); [contradiction|].
  destruct (Cafe1.load_logs b); [contradiction|].
  reflexivity.
Qed.

(** X18.  The page of the recommendations of a participant who has
    at least one record reads the loaded records of that participant
    only.  So, when the next run loads the rows that an accepted entry
    for another participant saved, or the rows that the deletion of an
    entry of another participant saved, the page shows what it showed
    before, for every period. *)
Theorem other_participants_leave_the_page :
  forall (participants_file : list participant)
         (file next_file : list log_row)
         (pid start_date end_date : string),
    rows_of pid (Cafe1.load_logs file) <> [] ->
    (rows_of pid (Cafe1.load_logs next_file)
     = rows_of pid (Cafe1.load_logs file) ->
     Cafe1.page_recommandations participants_file next_file
       pid start_date end_date
     = Cafe1.page_recommandations participants_file file
         pid start_date end_date) /\
    (forall (form : daily_entry) (now msg : string),
        f_pid form <> pid ->
        Cafe1.daily_entry_submit file form now
        = (Cafe1.load_logs next_file, Success msg) ->
        Cafe1.page_recommandations participants_file next_file
          pid start_date end_date
        = Cafe1.page_recommandations participants_file file
            pid start_date end_date) /\
    (forall del_pid del_date : string,
        del_pid <> pid ->
        Cafe1.load_logs next_file
        = fst (Cafe1.delete_entry_submit file del_pid del_date) ->
        Cafe1.page_recommandations participants_file next_file
          pid start_date end_date
        = Cafe1.page_recommandations participants_file file
            pid start_date end_date).
Proof.
  intros P file next_file pid start_date end_date N.
  assert (R : rows_of pid (Cafe1.load_logs next_file)
              = rows_of pid (Cafe1.load_logs file) ->
              Cafe1.page_recommandations P next_file pid start_date end_date
              = Cafe1.page_recommandations P file pid start_date end_date)
    by (intro E; now apply page_reads_the_rows_of).
  split; [exact R|]. split.
  - intros form now msg H S. apply R.
    exact (rows_of_saved_entry file _ form now msg pid H S).
  - intros del_pid del_date H L. apply R. rewrite L.
    now apply rows_of_deleted_other.
Qed.

(** ** The sleep duration of [cafe.py] *)

Lemma round_half_even_thirds (k : Z) :
  round_half_even (k # 3) = (k + 1) / 3.
Proof.
  unfold round_half_even.
  change (Qfloor (k # 3)) with (k / 3).
  pose proof (Z.div_mod k 3 ltac:(lia)) as D.
  pose proof (Z.mod_pos_bound k 3 ltac:(lia)) as B.
  set (a := k / 3) in *. set (r := k mod 3) in *.
  assert (E : ((k # 3) - inject_Z a == r # 3)%Q).
  { unfold Qeq, Qminus, Qplus, Qopp, inject_Z. cbn. lia. }
  replace (Qeq_bool ((k # 3) - inject_Z a) (1 # 2)) with false.
  - assert (F : Qfloor (2 * ((k # 3) - inject_Z a)) = (2 * r) / 3).
    { transitivity (Qfloor ((2 * r) # 3)); [|reflexivity].
      apply Qfloor_comp. rewrite E. unfold Qeq, Qmult. cbn. lia. }
    rewrite F. clearbody a r. subst k.
    assert (C : r = 0 \/ r = 1 \/ r = 2) by lia.
    replace (3 * a + r + 1) with (a * 3 + (r + 1)) by ring.
    rewrite Z.div_add_l by lia.
    destruct C as [-> | [-> | ->]]; reflexivity.
  - symmetry. apply not_true_iff_false. intro H.
    apply Qeq_bool_iff in H. rewrite E in H.
    unfold Qeq in H. cbn in H. lia.
Qed.

Lemma round2_comp (p q : Q) : (p == q)%Q -> round2 p = round2 q.
Proof.
  intro E. unfold round2.
  rewrite (round_half_even_comp (p * 100) (q * 100)); [reflexivity|].
  now rewrite E.
Qed.

(** The duration in hundredths of an hour, from the minutes between
    the two times. *)
Lemma sleep_hours_of_minutes (bed wake : time) (m : Z) :
  Cafe.total_seconds bed wake = 60 * m ->
  (Cafe.compute_sleep_hours bed wake == inject_Z ((5 * m + 1) / 3) / 100)%Q.
Proof.
  intro E. unfold Cafe.compute_sleep_hours, round2. rewrite E.
  rewrite Qred_correct.
  rewrite (round_half_even_comp _ ((5 * m) # 3)).
  - rewrite round_half_even_thirds. reflexivity.
  - unfold Qeq, Qdiv, Qmult, Qinv, inject_Z; cbn -[Z.mul Z.add Z.sub Z.div]; lia.
Qed.

(** X19.  For two times of the day in hours and minutes, the sleep
    duration of [cafe.py] is a number of hundredths of an hour between
    0.02 and 24, within a third of a hundredth of the exact duration; it
    is 24 exactly when the two times are equal; and on whole hours it is
    the duration that [Cafe1.py] computes from the hours. *)
Theorem sleep_hours_of_times :
  forall bed wake : time,
    valid_time bed -> valid_time wake ->
    exists c : Z,
      (Cafe.compute_sleep_hours bed wake == inject_Z c / 100)%Q /\
      2 <= c <= 2400 /\
      -60 <= 180 * c - 5 * Cafe.total_seconds bed wake <= 60 /\
      (c = 2400 <-> bed = wake) /\
      (minute bed = 0 -> minute wake = 0 ->
       Cafe.compute_sleep_hours bed wake
       = Cafe1.compute_sleep_hours_from_hours (hour bed) (hour wake)).
Proof.
  intros [hb mb] [hw mw] [Hb Mb] [Hw Mw]. cbn [hour minute] in *.
  set (m := if hw * 60 + mw <=? hb * 60 + mb
            then hw * 60 + mw + 1440 - (hb * 60 + mb)
            else hw * 60 + mw - (hb * 60 + mb)).
  assert (T : Cafe.total_seconds {| hour := hb; minute := mb |}
                {| hour := hw; minute := mw |} = 60 * m).
  { unfold Cafe.total_seconds, m. cbn [hour minute].
    destruct (Z.leb_spec (hw * 3600 + mw * 60) (hb * 3600 + mb * 60));
      destruct (Z.leb_spec (hw * 60 + mw) (hb * 60 + mb)); lia. }
  assert (R : 1 <= m <= 1440).
  { unfold m. destruct (Z.leb_spec (hw * 60 + mw) (hb * 60 + mb)); lia. }
  exists ((5 * m + 1) / 3).
  split; [now apply sleep_hours_of_minutes|].
  rewrite T.
  pose proof (Z.div_mod (5 * m + 1) 3 ltac:(lia)) as Dc.
  pose proof (Z.mod_pos_bound (5 * m + 1) 3 ltac:(lia)) as Bc.
  set (c := (5 * m + 1) / 3) in *.
  set (rc := (5 * m + 1) mod 3) in *. clearbody c rc.
  split; [lia|]. split; [lia|]. split.
  - split.
    + intro C. assert (M : m = 1440) by lia. unfold m in M.
      destruct (Z.leb_spec (hw * 60 + mw) (hb * 60 + mb)) as [L | L];
        [|lia].
      assert (hw = hb) by lia. assert (mw = mb) by lia. now subst.
    + intro E. injection E as E1 E2.
      assert (M : m = 1440).
      { unfold m. destruct (Z.leb_spec (hw * 60 + mw) (hb * 60 + mb)); lia. }
      lia.
  - intros -> ->. unfold Cafe.compute_sleep_hours,
      Cafe1.compute_sleep_hours_from_hours. cbv zeta.
    apply round2_comp. unfold Cafe.total_seconds. cbn [hour minute].
    destruct (Z.leb_spec (hw * 3600 + 0 * 60) (hb * 3600 + 0 * 60));
      destruct (Z.leb_spec hw hb); try lia;
      unfold Qeq, Qdiv, Qmult, Qinv, inject_Z; cbn -[Z.mul Z.add Z.sub Z.div]; lia.
Qed.

(** ** The best and the worst bin *)

Section Extremes.

Variable A : Type.
Variable leb : A -> A -> bool.
Variable P : A -> Prop.
Hypothesis leb_total :
  forall a b, P a -> P b -> leb a b = true \/ leb b a = true.
Hypothesis leb_trans :
  forall a b c, P a -> P b -> P c ->
                leb a b = true -> leb b c = true -> leb a c = true.

Let R (a b : A) : Prop := leb a b = true.

Lemma insert_by_sorted (x : A) (l : list A) :
  P x -> Forall P l -> StronglySorted R l ->
  StronglySorted R (insert_by leb x l).
Proof.
  intros Px Pl S. induction S as [|y l S IH F]; cbn [insert_by].
  - constructor; constructor.
  - inversion Pl as [|? ? Py Pl']; subst.
    pose proof (proj1 (Forall_forall _ _) F) as Fy.
    pose proof (proj1 (Forall_forall _ _) Pl') as Pz.
    destruct (leb x y) eqn:E.
    + constructor; [constructor; assumption|].
      constructor; [exact E|].
      apply Forall_forall. intros z Iz.
      exact (leb_trans x y z Px Py (Pz z Iz) E (Fy z Iz)).
    + constructor; [exact (IH Pl')|].
      assert (Ryx : R y x)
        by (destruct (leb_total x y Px Py) as [C | C]; [congruence | exact C]).
      apply Forall_forall. intros z Iz.
      apply (Permutation_in _ (insert_by_perm leb x l)) in Iz.
      destruct Iz as [<- | Iz]; [exact Ryx | exact (Fy z Iz)].
Qed.

Lemma sort_asc_sorted (l : list A) :
  Forall P l -> StronglySorted R (sort_asc leb l).
Proof.
  induction l as [|x l IH]; intro F; cbn [sort_asc]; [constructor|].
  inversion F; subst. apply insert_by_sorted; auto.
  rewrite Forall_forall in *. intros z Iz.
  apply (Permutation_in _ (sort_asc_perm leb l)) in Iz. auto.
Qed.

Lemma sorted_last_is_max (s : list A) (b : A) :
  StronglySorted R (s ++ [b]) -> forall a, In a s -> leb a b = true.
Proof.
  induction s as [|x s IH]; intros S a I; [destruct I|].
  cbn [app] in S. inversion S as [|? ? S' F]; subst.
  destruct I as [<- | I]; [|now apply IH].
  rewrite Forall_forall in F. apply F. apply in_or_app. right. now left.
Qed.

(** The first row of the ascending sort is below every row, and the
    first row of the descending sort is above every row. *)
Lemma first_of_sort_is_extreme (l : list A) (worst best : A)
  (ws bs : list A) :
  Forall P l ->
  (forall a, P a -> leb a a = true) ->
  sort_values leb true l = worst :: ws ->
  sort_values leb false l = best :: bs ->
  In worst l /\ In best l /\
  forall a, In a l -> leb worst a = true /\ leb a best = true.
Proof.
  intros F Refl Ew Eb. unfold sort_values in Ew, Eb.
  assert (Iw : In worst l).
  { apply (Permutation_in _ (sort_asc_perm leb l)). rewrite Ew. now left. }
  assert (Ib : In best l).
  { apply in_rev. apply (Permutation_in _ (sort_asc_perm leb (rev l))).
    apply in_rev. rewrite Eb. now left. }
  split; [exact Iw|]. split; [exact Ib|].
  intros a Ia. split.
  - pose proof (sort_asc_sorted l F) as S. rewrite Ew in S.
    inversion S as [|? ? _ Fw]; subst.
    assert (I : In a (worst :: ws))
      by (rewrite <- Ew; apply (Permutation_in _ (Permutation_sym (sort_asc_perm leb l))); exact Ia).
    destruct I as [<- | I].
    + apply Refl. exact (proj1 (Forall_forall _ _) F _ Iw).
    + exact (proj1 (Forall_forall _ _) Fw a I).
  - assert (Fr : Forall P (rev l)).
    { rewrite Forall_forall in *. intros z Iz. apply F. now apply in_rev. }
    pose proof (sort_asc_sorted (rev l) Fr) as S.
    assert (Es : sort_asc leb (rev l) = (rev bs ++ [best])%list).
    { rewrite <- (rev_involutive (sort_asc leb (rev l))), Eb. reflexivity. }
    rewrite Es in S.
    assert (I : In a (rev bs ++ [best])%list).
    { rewrite <- Es.
      apply (Permutation_in _ (Permutation_sym (sort_asc_perm leb (rev l)))).
      now apply in_rev in Ia. }
    apply in_app_or in I. destruct I as [I | [<- | []]].
    + exact (sorted_last_is_max _ _ S a I).
    + apply Refl. exact (proj1 (Forall_forall _ _) F _ Ib).
Qed.

End Extremes.

Lemma valid_bins_have_mean (g : list bin_row) :
  Forall has_mean (dropna_sleep_q g).
Proof.
  apply Forall_forall. intros b I. unfold dropna_sleep_q in I.
  apply filter_In in I. destruct I as [_ H]. unfold has_mean.
  destruct (sleep_q b); [eauto | discriminate].
Qed.

Lemma sleep_q_leb_spec (a b : bin_row) :
  has_mean a -> has_mean b -> (sleep_q_leb a b = true <-> mean_le a b).
Proof.
  intros [x Ex] [y Ey]. unfold sleep_q_leb, mean_le. rewrite Ex, Ey.
  rewrite Qle_bool_iff. split.
  - intro L. exists x, y. auto.
  - intros [x' [y' [E1 [E2 L]]]]. congruence.
Qed.

Lemma extreme_bins (valid : list bin_row) (best worst : bin_row)
  (bs ws : list bin_row) :
  Forall has_mean valid ->
  sort_values sleep_q_leb false valid = best :: bs ->
  sort_values sleep_q_leb true valid = worst :: ws ->
  In best valid /\ In worst valid /\
  forall b, In b valid -> mean_le worst b /\ mean_le b best.
Proof.
  intros F Eb Ew.
  destruct (first_of_sort_is_extreme bin_row sleep_q_leb has_mean) with
    (l := valid) (worst := worst) (best := best) (ws := ws) (bs := bs)
    as [Iw [Ib H]]; auto.
  - intros a b [x Ex] [y Ey]. unfold sleep_q_leb. rewrite Ex, Ey.
    destruct (Qle_bool x y) eqn:E; [now left|]. right.
    apply Qle_bool_iff. apply Qle_bool_gt in E. now apply Qlt_le_weak.
  - intros a b c [x Ex] [y Ey] [z Ez]. unfold sleep_q_leb.
    rewrite Ex, Ey, Ez, !Qle_bool_iff. apply Qle_trans.
  - intros a [x Ex]. unfold sleep_q_leb. rewrite Ex.
    apply Qle_bool_iff, Qle_refl.
  - split; [exact Ib|]. split; [exact Iw|].
    intros b I. rewrite Forall_forall in F.
    destruct (H b I) as [H1 H2].
    split; apply sleep_q_leb_spec; auto.
Qed.

(** X20.  When the comparison of the bins is reported, by [Cafe1.py]
    or by [cafe.py], the bin named as the best has the highest mean
    sleep quality among the bins that have one, and the bin named as
    the weakest has the lowest. *)
Theorem comparison_names_the_extreme_bins :
  (forall (last7 : list log_row) (x : string),
      In x (Cafe1.comparaison last7) ->
      exists best worst,
        x = Cafe1.msg_comparison best worst /\
        In best (dropna_sleep_q (bins_of last7)) /\
        In worst (dropna_sleep_q (bins_of last7)) /\
        forall b, In b (dropna_sleep_q (bins_of last7)) ->
                  mean_le worst b /\ mean_le b best) /\
  (forall (g : list bin_row) (x : string),
      In x (Cafe.comparison_of g) ->
      exists best worst,
        x = Cafe.msg_comparison best worst /\
        In best (dropna_sleep_q g) /\
        In worst (dropna_sleep_q g) /\
        forall b, In b (dropna_sleep_q g) ->
                  mean_le worst b /\ mean_le b best).
Proof.
  split.
  - intros last7 x. unfold Cafe1.comparaison. cbv zeta.
    fold (bins_of last7).
    destruct (_ && _); [|intros []].
    destruct (sort_values _ false _) as [|best bs] eqn:Eb; [intros []|].
    destruct (sort_values _ true _) as [|worst ws] eqn:Ew; [intros []|].
    intros [<- | []]. exists best, worst. split; [reflexivity|].
    apply (extreme_bins _ best worst bs ws); auto using valid_bins_have_mean.
  - intros g x. unfold Cafe.comparison_of. cbv zeta.
    destruct (_ <=? _)%nat; [|intros []].
    destruct (sort_values _ false _) as [|best bs] eqn:Eb; [intros []|].
    destruct (sort_values _ true _) as [|worst ws] eqn:Ew; [intros []|].
    intros [<- | []]. exists best, worst. split; [reflexivity|].
    apply (extreme_bins _ best worst bs ws); auto using valid_bins_have_mean.
Qed.

(** ** The insights of [cafe.py] *)

Lemma flat_map_nil_iff {A B} (f : A -> list B) (l : list A) :
  flat_map f l = [] <-> forall x, In x l -> f x = [].
Proof.
  induction l as [|x l IH]; cbn [flat_map].
  - split; [intros _ y [] | reflexivity].
  - split.
    + intro E. apply app_eq_nil in E. destruct E as [E1 E2].
      intros y [<- | I]; [exact E1 | now apply IH].
    + intro H. rewrite (H x (or_introl eq_refl)).
      apply IH. intros y I. apply H. now right.
Qed.

Lemma caf_bin_is_a_label (r : log_row) (l : string) :
  Cafe1.caf_bin_of r = Some l -> In l Cafe1.bin_labels.
Proof.
  unfold Cafe1.caf_bin_of, cut, Cafe1.bin_labels.
  destruct (caffeine_mg_total r) as [q|]; [|discriminate].
  destruct (_ && _); [intro E; injection E as <-; cbn; tauto|].
  destruct (_ && _); [intro E; injection E as <-; cbn; tauto|].
  destruct (_ && _); [intro E; injection E as <-; cbn; tauto|].
  discriminate.
Qed.

(** No bin at all: no row has a total that falls in a bin. *)
Lemma bins_empty_iff (rows : list log_row) :
  bins_of rows = [] <-> forall r, In r rows -> Cafe1.caf_bin_of r = None.
Proof.
  unfold bins_of, group_by_bin. rewrite flat_map_nil_iff. split.
  - intros H r I. destruct (Cafe1.caf_bin_of r) as [l|] eqn:E; [|reflexivity].
    exfalso. specialize (H l (caf_bin_is_a_label r l E)). cbv beta zeta in H.
    rewrite (filter_nonempty _ rows r I) in H; [discriminate H|].
    rewrite E. apply String.eqb_refl.
  - intros H label _. cbv beta zeta.
    replace (filter _ rows) with (@nil log_row); [reflexivity|].
    symmetry. clear - H. induction rows as [|r rows IH]; [reflexivity|].
    cbn [filter]. rewrite (H r (or_introl eq_refl)).
    apply IH. intros x I. apply H. now right.
Qed.

Lemma comparison_of_cases (g : list bin_row) :
  (List.length (Cafe.comparison_of g) <= 1)%nat /\
  (Cafe.comparison_of g <> []
   <-> (2 <= List.length (dropna_sleep_q g))%nat).
Proof.
  unfold Cafe.comparison_of. cbv zeta.
  destruct (Nat.leb_spec 2 (List.length (dropna_sleep_q g))) as [L | L].
  - assert (N : dropna_sleep_q g <> [])
      by (intro E; rewrite E in L; cbn in L; lia).
    destruct (sort_values sleep_q_leb false (dropna_sleep_q g)) eqn:Eb;
      [apply sort_values_nil_iff in Eb; contradiction|].
    destruct (sort_values sleep_q_leb true (dropna_sleep_q g)) eqn:Ew;
      [apply sort_values_nil_iff in Ew; contradiction|].
    split; [cbn; lia|]. split; [intros _; exact L | discriminate].
  - split; [cbn; lia|]. split; [intro H; now contradiction H | lia].
Qed.

(** X21.  [weekly_insights] never returns an empty list.  Under five
    records it returns the text on too few days alone; from five
    records on, it returns the text on missing values alone exactly when
    no record has a total that falls in a bin, and otherwise the three
    lines of the correlations, preceded by one comparison of the bins
    exactly when at least two bins have a mean sleep quality. *)
Theorem weekly_insights_by_cases :
  forall (corr : list log_row -> cell * cell * cell)
         (logs_df : list log_row),
    let out := Cafe.weekly_insights corr logs_df in
    let lines :=
      [ Cafe.msg_corr_quality (fst (fst (corr logs_df)));
        Cafe.msg_corr_hours (snd (fst (corr logs_df)));
        Cafe.msg_corr_anxiety (snd (corr logs_df)) ] in
    out <> [] /\
    ((List.length logs_df < 5)%nat -> out = [Cafe.msg_few_days]) /\
    ((5 <= List.length logs_df)%nat ->
     (out = [Cafe.msg_no_insight]
      <-> forall r, In r logs_df -> Cafe1.caf_bin_of r = None) /\
     ((exists r, In r logs_df /\ Cafe1.caf_bin_of r <> None) ->
      exists cmp,
        out = (cmp ++ lines)%list /\
        (List.length cmp <= 1)%nat /\
        (cmp <> []
         <-> (2 <= List.length (dropna_sleep_q (bins_of logs_df)))%nat))).
Proof.
  intros corr logs_df out lines.
  assert (Few : (List.length logs_df < 5)%nat -> out = [Cafe.msg_few_days]).
  { intro L. subst out. unfold Cafe.weekly_insights. cbv zeta.
    apply Nat.ltb_lt in L. rewrite L. now rewrite orb_true_r. }
  assert (Many : (5 <= List.length logs_df)%nat ->
                 out = if is_empty (bins_of logs_df)
                       then [Cafe.msg_no_insight]
                       else (Cafe.comparison_of (bins_of logs_df)
                             ++ lines)%list).
  { intro L. subst out lines. unfold Cafe.weekly_insights. cbv zeta.
    fold (bins_of logs_df).
    assert (E : is_empty logs_df = false)
      by (destruct logs_df; [cbn in L; lia | reflexivity]).
    apply Nat.ltb_ge in L. rewrite L, E. cbn [orb].
    destruct (bins_of logs_df) as [|b g]; [reflexivity|].
    cbn [is_empty negb app].
    destruct (corr logs_df) as [[csq csh] cax]. cbn [fst snd].
    destruct (Cafe.comparison_of (b :: g)); reflexivity. }
  split; [|split; [exact Few|]].
  - destruct (Nat.ltb_spec (List.length logs_df) 5) as [L | L].
    + rewrite (Few L). discriminate.
    + rewrite (Many L). destruct (is_empty _); [discriminate|].
      destruct (Cafe.comparison_of _); discriminate.
  - intro L. rewrite (Many L). rewrite <- bins_empty_iff. split.
    + destruct (bins_of logs_df) as [|b g] eqn:E; cbn [is_empty].
      * tauto.
      * split; [|discriminate]. intro H. exfalso.
        apply (f_equal (@List.length _)) in H.
        rewrite length_app in H. cbn in H. lia.
    + intros [r [I N]].
      destruct (bins_of logs_df) as [|b g] eqn:E.
      * exfalso. apply N. now apply (proj1 (bins_empty_iff logs_df) E).
      * cbn [is_empty]. exists (Cafe.comparison_of (b :: g)).
        split; [reflexivity|]. apply comparison_of_cases.
Qed.

(** ** The alert of [cafe.py] on the last three entries *)

Lemma two_of_three {A} (f g : A -> bool) (l : list A) :
  List.length l = 3%nat ->
  2 <= mask_sum f l -> 2 <= mask_sum g l ->
  exists x, In x l /\ f x = true /\ g x = true.
Proof.
  intro L. destruct l as [|a [|b [|c [|d l]]]]; try discriminate L.
  unfold mask_sum. cbn [filter].
  destruct (f a) eqn:Fa, (g a) eqn:Ga; try (exists a; cbn; tauto);
    destruct (f b) eqn:Fb, (g b) eqn:Gb; try (exists b; cbn; tauto);
    destruct (f c) eqn:Fc, (g c) eqn:Gc; try (exists c; cbn; tauto);
    cbn [List.length]; lia.
Qed.

Lemma last_three_are_records (dff : list log_row) (r : log_row) :
  In r (tail 3 (sort_by_date dff)) -> In r dff.
Proof.
  intro I. unfold tail in I.
  unfold sort_by_date in *.
  apply (Permutation_in _ (sort_values_perm
                             (fun a b => String.leb (date a) (date b))
                             true dff)).
  match type of I with
  | In r (skipn ?k ?s) => rewrite <- (firstn_skipn k s)
  end.
  apply in_or_app. now right.
Qed.

(** X22.  The alert of [cafe.py] is silent under three records.  When
    it raises the alert on caffeine and sleep, one of the last three
    days has both a total above 200 mg and less than 7 hours of sleep;
    when it raises the warning on sleep and anxiety, one of them has
    both less than 7 hours of sleep and an anxiety of 7 or more. *)
Theorem alert_needs_a_day_with_both_signs :
  forall dff : list log_row,
    (Cafe.alerte_simple dff = st_info Cafe.msg_alert_needs_3
     <-> (List.length dff < 3)%nat) /\
    (Cafe.alerte_simple dff = st_error Cafe.msg_alert ->
     exists r, In r dff /\ In r (tail 3 (sort_by_date dff))
               /\ sleep_under_7h r /\ total_over_200 r) /\
    (Cafe.alerte_simple dff = st_warning Cafe.msg_attention ->
     exists r, In r dff /\ In r (tail 3 (sort_by_date dff))
               /\ sleep_under_7h r /\ anxiety_from_7 r).
Proof.
  intro dff. unfold Cafe.alerte_simple. cbv zeta.
  set (last_n := tail 3 (sort_by_date dff)).
  assert (Len : List.length last_n = Nat.min 3 (List.length dff)).
  { unfold last_n. now rewrite tail_length, sort_by_date_length. }
  destruct (Nat.leb_spec 3 (List.length last_n)) as [L | L]; cbv iota.
  - assert (L3 : List.length last_n = 3%nat) by lia.
    destruct ((2 <=? _) && (2 <=? _)) eqn:C1; cbv iota.
    + split; [split; [discriminate | lia]|].
      split; [|discriminate]. intros _.
      apply andb_true_iff in C1. destruct C1 as [S C].
      apply Z.leb_le in S, C.
      destruct (two_of_three _ _ last_n L3 S C) as [r [I [Hs Hc]]].
      exists r. split; [now apply last_three_are_records|].
      split; [exact I|].
      split; [now apply series_lt_spec | now apply series_gt_spec].
    + clear C1. destruct ((2 <=? _) && (2 <=? _)) eqn:C2; cbv iota.
      * split; [split; [discriminate | lia]|].
        split; [discriminate|]. intros _.
        apply andb_true_iff in C2. destruct C2 as [S C].
        apply Z.leb_le in S, C.
        destruct (two_of_three _ _ last_n L3 S C) as [r [I [Hs Hc]]].
        exists r. split; [now apply last_three_are_records|].
        split; [exact I|].
        split; [now apply series_lt_spec | now apply series_ge_spec].
      * split; [split; [discriminate | lia]|]. split; discriminate.
  - split; [|split; discriminate].
    split; [lia | reflexivity].
Qed.

(** ** The reduced rule set of [cafe.py] against the full one *)

Lemma float_or_0_gt (c : cell) (k : Q) :
  series_gt (Cafe.float_or_0 c) k = true -> (k < safe_float c 0)%Q.
Proof.
  intro H. apply series_gt_spec in H. destruct H as [q [E L]].
  destruct c as [x|]; [|discriminate E]. cbn in E. injection E as <-.
  cbn [safe_float]. now rewrite <- (or_0_eq x).
Qed.

Lemma float_or_0_ge (c : cell) (k : Q) :
  series_ge (Cafe.float_or_0 c) k = true -> (k <= safe_float c 0)%Q.
Proof.
  intro H. apply series_ge_spec in H. destruct H as [q [E L]].
  destruct c as [x|]; [|discriminate E]. cbn in E. injection E as <-.
  cbn [safe_float]. now rewrite <- (or_0_eq x).
Qed.

Lemma float_or_0_lt (c : cell) (k : Q) :
  series_lt (Cafe.float_or_0 c) k = true -> (safe_float c 0 < k)%Q.
Proof.
  intro H. apply series_lt_spec in H. destruct H as [q [E L]].
  destruct c as [x|]; [|discriminate E]. cbn in E. injection E as <-.
  cbn [safe_float]. now rewrite <- (or_0_eq x).
Qed.

Lemma score_from_7 (c : cell) :
  series_ge (Cafe.float_or_0 c) 7 = true -> 7 <= safe_int c 0.
Proof.
  intro H. pose proof (float_or_0_ge c 7 H) as L.
  destruct c as [x|]; [|discriminate H]. cbn [safe_int safe_float] in *.
  unfold trunc.
  assert (P : Qle_bool 0 x = true).
  { apply Qle_bool_iff. apply Qle_trans with 7%Q; [discriminate | exact L]. }
  rewrite P. change 7 with (Qfloor 7). now apply Qfloor_resp_le.
Qed.

(** Each rule of [cafe.py] that fires is a rule of the table that
    holds. *)
Lemma cafe_py_rule_holds (sens : string) (row : log_row) (c : bool)
  (m : string) :
  In (c, m) (cafe_py_rules row) -> c = true ->
  exists r, holds sens row r /\
            ((m = Cafe.msg_high_dose /\ r = HighDoseHeart) \/
             (m = Cafe.msg_late /\ r = LateIntake) \/
             (m = Cafe.msg_short_sleep /\ r = ShortSleep) \/
             (m = Cafe.msg_anxiety /\ r = AnxietyAmplified) \/
             (m = Cafe.msg_stress /\ r = StressAmplified) \/
             (m = Cafe.msg_palpitations /\ r = PalpitationsFlag)).
Proof.
  unfold cafe_py_rules. cbn [In].
  intros [E | [E | [E | [E | [E | [E | []]]]]]] C;
    injection E as Ec Em; subst m; rewrite C in Ec.
  - exists HighDoseHeart. split; [|intuition auto]. cbn [holds].
    now apply float_or_0_gt.
  - exists LateIntake. split; [|intuition auto]. cbn [holds].
    destruct (last_caffeine_hour row) as [h|]; [|discriminate Ec].
    apply andb_true_iff in Ec. destruct Ec as [H1 H2].
    split; [now apply Z.leb_le | now apply float_or_0_ge].
  - exists ShortSleep. split; [|intuition auto]. cbn [holds].
    now apply float_or_0_lt.
  - exists AnxietyAmplified. split; [|intuition auto]. cbn [holds].
    apply andb_true_iff in Ec. destruct Ec as [H1 H2].
    split; [now apply score_from_7 | now apply float_or_0_ge].
  - exists StressAmplified. split; [|intuition auto]. cbn [holds].
    apply andb_true_iff in Ec. destruct Ec as [H1 H2].
    split; [now apply score_from_7 | now apply float_or_0_ge].
  - exists PalpitationsFlag. split; [|intuition auto]. cbn [holds].
    now apply Z.eqb_eq.
Qed.

(** X23.  The six rules of [cafe.py] are rules of the full table: on a
    row for which [recommendations_for_row] returns, each of its texts
    comes with the text of [Cafe1.py] for the same rule, and when
    [Cafe1.py] finds nothing alarming, [cafe.py] finds nothing either. *)
Theorem cafe_py_texts_come_with_cafe1_texts :
  forall (sens : string) (row : log_row) (recs : list string),
    Cafe.recommendations_for_row row = Some recs ->
    let out := Cafe1.conseils_du_jour sens row in
    (In Cafe.msg_high_dose recs -> In Cafe1.msg_heart_dose out) /\
    (In Cafe.msg_late recs -> In Cafe1.msg_late out) /\
    (In Cafe.msg_short_sleep recs -> In Cafe1.msg_short_sleep out) /\
    (In Cafe.msg_anxiety recs -> In Cafe1.msg_anxiety out) /\
    (In Cafe.msg_stress recs -> In Cafe1.msg_stress out) /\
    (In Cafe.msg_palpitations recs -> In Cafe1.msg_palpitations out) /\
    (out = [Cafe1.msg_nothing_alarming] -> recs = [Cafe.msg_ras]).
Proof.
  intros sens row recs H out.
  rewrite cafe_py_walks_its_rules in H.
  destruct (palpitations row) as [p|] eqn:P; [|discriminate H].
  assert (R : recs = answer Cafe.msg_ras
                       (map snd (filter fst (cafe_py_rules row))))
    by congruence.
  clear H. subst recs.
  assert (T : forall m, m <> Cafe.msg_ras ->
                In m (answer Cafe.msg_ras
                        (map snd (filter fst (cafe_py_rules row)))) ->
                exists c, In (c, m) (cafe_py_rules row) /\ c = true).
  { intros m N I. apply in_answer_cases in I.
    destruct I as [[E _] | I]; [contradiction|].
    apply in_map_iff in I. destruct I as [[c m'] [E I]]. cbn in E. subst m'.
    apply filter_In in I. destruct I as [I C]. exists c. auto. }
  assert (S : forall m r,
             m <> Cafe.msg_ras ->
             (forall c, In (c, m) (cafe_py_rules row) -> c = true ->
                        holds sens row r) ->
             In m (answer Cafe.msg_ras
                     (map snd (filter fst (cafe_py_rules row)))) ->
             In (message r) out).
  { intros m r N K I. destruct (T m N I) as [c [Ic C]].
    apply rule_text_iff. exact (K c Ic C). }
  repeat split.
  - apply (S _ HighDoseHeart); [discriminate|]. intros c I C.
    destruct (cafe_py_rule_holds sens row c _ I C)
      as [r [Hr [[E ->] | [[E ->] | [[E ->] | [[E ->] | [[E ->] | [E ->]]]]]]]];
      try discriminate E; exact Hr.
  - apply (S _ LateIntake); [discriminate|]. intros c I C.
    destruct (cafe_py_rule_holds sens row c _ I C)
      as [r [Hr [[E ->] | [[E ->] | [[E ->] | [[E ->] | [[E ->] | [E ->]]]]]]]];
      try discriminate E; exact Hr.
  - apply (S _ ShortSleep); [discriminate|]. intros c I C.
    destruct (cafe_py_rule_holds sens row c _ I C)
      as [r [Hr [[E ->] | [[E ->] | [[E ->] | [[E ->] | [[E ->] | [E ->]]]]]]]];
      try discriminate E; exact Hr.
  - apply (S _ AnxietyAmplified); [discriminate|]. intros c I C.
    destruct (cafe_py_rule_holds sens row c _ I C)
      as [r [Hr [[E ->] | [[E ->] | [[E ->] | [[E ->] | [[E ->] | [E ->]]]]]]]];
      try discriminate E; exact Hr.
  - apply (S _ StressAmplified); [discriminate|]. intros c I C.
    destruct (cafe_py_rule_holds sens row c _ I C)
      as [r [Hr [[E ->] | [[E ->] | [[E ->] | [[E ->] | [[E ->] | [E ->]]]]]]]];
      try discriminate E; exact Hr.
  - apply (S _ PalpitationsFlag); [discriminate|]. intros c I C.
    destruct (cafe_py_rule_holds sens row c _ I C)
      as [r [Hr [[E ->] | [[E ->] | [[E ->] | [[E ->] | [[E ->] | [E ->]]]]]]]];
      try discriminate E; exact Hr.
  - intro Q.
    destruct (filter fst (cafe_py_rules row)) as [|[c m] l] eqn:F;
      [reflexivity|].
    exfalso.
    assert (I : In (c, m) (filter fst (cafe_py_rules row)))
      by (rewrite F; now left).
    apply filter_In in I. destruct I as [I C]. cbn in C.
    destruct (cafe_py_rule_holds sens row c m I C) as [r [Hr _]].
    apply (rule_text_iff sens row r) in Hr. fold out in Hr. rewrite Q in Hr.
    destruct Hr as [Hr | []]. symmetry in Hr.
    now apply message_not_fallback in Hr.
Qed.

(** ** The deletion of a participant in [cafe.py] *)

(** X24.  The deletion of a participant of [cafe.py] removes that
    identifier from the participants and touches no other participant;
    it never touches the records of another participant; the records
    of the deleted participant go only when the box is ticked, and
    otherwise the log is left as it is. *)
Theorem participant_deletion_keeps_other_data :
  forall (participants : list participant) (logs : list log_row)
         (del_pid : string) (delete_logs : bool),
    let result :=
      Cafe.delete_participant_submit participants logs del_pid delete_logs in
    let ps := fst (fst result) in
    let ls := snd (fst result) in
    ~ In del_pid (map p_participant_id ps) /\
    (forall p, In p ps
               <-> In p participants /\ p_participant_id p <> del_pid) /\
    in_order ps participants /\
    (forall r, participant_id r <> del_pid -> (In r ls <-> In r logs)) /\
    in_order ls logs /\
    (delete_logs = true -> rows_of del_pid ls = []) /\
    (delete_logs = false -> ls = logs).
Proof.
  intros participants logs del_pid delete_logs result ps ls.
  subst result ps ls. unfold Cafe.delete_participant_submit. cbn [fst snd].
  assert (M : forall p,
             In p (filter (fun p => negb (String.eqb (p_participant_id p)
                                            del_pid)) participants)
             <-> In p participants /\ p_participant_id p <> del_pid).
  { intro p. now rewrite filter_In, negb_true_iff, String.eqb_neq. }
  split; [|split; [exact M|split; [apply filter_in_order|]]].
  - intro I. apply in_map_iff in I. destruct I as [p [E I]].
    apply M in I. tauto.
  - assert (F : forall r,
               In r (filter (fun r => negb (String.eqb (participant_id r)
                                              del_pid)) logs)
               <-> In r logs /\ participant_id r <> del_pid).
    { intro r. now rewrite filter_In, negb_true_iff, String.eqb_neq. }
    destruct delete_logs; cbn [andb].
    + destruct logs as [|r0 logs']; cbn [is_empty negb].
      * repeat split; try tauto; try constructor; try reflexivity;
          try discriminate.
      * split; [intros r N; rewrite F; tauto|].
        split; [apply filter_in_order|]. split; [|discriminate].
        intros _. unfold rows_of.
        match goal with
        | |- filter ?f ?l = [] =>
            destruct (filter f l) as [|x xs] eqn:E; [reflexivity|]
        end.
        exfalso.
        match type of E with
        | filter ?f ?l = _ =>
            assert (I : In x (filter f l)) by (rewrite E; now left)
        end.
        apply filter_In in I. destruct I as [I P].
        apply F in I. apply String.eqb_eq in P. tauto.
    + repeat split; try tauto; try apply in_order_refl; try discriminate.
Qed.

(** ** The counter of [lamiaacafe.py] *)

Lemma getitem_catalogue (boisson : string) (mg : Z) :
  Lamiaacafe.getitem Lamiaacafe.CAFEINE_BOISSONS boisson = Some mg ->
  In (boisson, mg) Lamiaacafe.CAFEINE_BOISSONS /\ 40 <= mg <= 100.
Proof.
  unfold Lamiaacafe.CAFEINE_BOISSONS. cbn [Lamiaacafe.getitem].
  destruct (String.eqb "Expresso" boisson) eqn:E1.
  { apply String.eqb_eq in E1. subst. intro H. injection H as <-.
    split; [cbn; tauto | lia]. }
  destruct (String.eqb "Café filtre" boisson) eqn:E2.
  { apply String.eqb_eq in E2. subst. intro H. injection H as <-.
    split; [cbn; tauto | lia]. }
  destruct (String.eqb "Thé" boisson) eqn:E3.
  { apply String.eqb_eq in E3. subst. intro H. injection H as <-.
    split; [cbn; tauto | lia]. }
  discriminate.
Qed.

Lemma getitem_offered (boisson : string) :
  In boisson (map fst Lamiaacafe.CAFEINE_BOISSONS) ->
  exists mg, Lamiaacafe.getitem Lamiaacafe.CAFEINE_BOISSONS boisson = Some mg.
Proof.
  cbn. intros [<- | [<- | [<- | []]]]; eexists; reflexivity.
Qed.

Lemma cups_total_app (h : list (string * Z * Z)) (b : string) (mg t : Z) :
  fold_right Z.add 0 (map (fun h => snd (fst h)) (h ++ [(b, mg, t)]))
  = fold_right Z.add 0 (map (fun h => snd (fst h)) h) + mg.
Proof.
  induction h as [|x h IH]; cbn [app map fold_right fst snd]; [lia|].
  rewrite IH. lia.
Qed.

(** What every action keeps true of the session. *)
Lemma step_keeps_the_account (state state' : Lamiaacafe.session_state)
  (a : action) :
  step state a = Some state' ->
  Lamiaacafe.total_cafeine state = cups_total state ->
  40 * Z.of_nat (List.length (Lamiaacafe.historique state))
    <= Lamiaacafe.total_cafeine state
    <= 100 * Z.of_nat (List.length (Lamiaacafe.historique state)) ->
  Lamiaacafe.total_cafeine state' = cups_total state' /\
  40 * Z.of_nat (List.length (Lamiaacafe.historique state'))
    <= Lamiaacafe.total_cafeine state'
    <= 100 * Z.of_nat (List.length (Lamiaacafe.historique state')).
Proof.
  destruct a as [boisson heure|]; cbn [step].
  - unfold Lamiaacafe.ajouter_une_tasse.
    destruct (Lamiaacafe.getitem _ boisson) as [mg|] eqn:G; [|discriminate].
    destruct (getitem_catalogue boisson mg G) as [_ B].
    cbn [option_map fst]. intro E. injection E as <-.
    cbn [Lamiaacafe.total_cafeine Lamiaacafe.historique].
    intros T L. unfold cups_total in *.
    cbn [Lamiaacafe.historique]. rewrite cups_total_app, length_app.
    cbn [List.length]. lia.
  - cbn. intro E. injection E as <-. cbn. lia.
Qed.

(** X25.  From a new session, whatever cups are added and whenever the
    day is reset, the total that [lamiaacafe.py] shows is the sum of the
    milligrams of the cups of its history, between 40 and 100 mg for a
    cup; so the status is never the dangerous one under 4 cups and
    always from 10 cups on.  With drinks of the select box no action
    fails. *)
Theorem session_total_is_the_sum_of_the_cups :
  forall actions : list action,
    (Forall offered actions ->
     exists state, run Lamiaacafe.initial_state actions = Some state) /\
    (forall state,
        run Lamiaacafe.initial_state actions = Some state ->
        let cups := Z.of_nat (List.length (Lamiaacafe.historique state)) in
        Lamiaacafe.total_cafeine state = cups_total state /\
        40 * cups <= Lamiaacafe.total_cafeine state <= 100 * cups /\
        (Lamiaacafe.stat_global state = Lamiaacafe.msg_danger -> 4 <= cups) /\
        (10 <= cups ->
         Lamiaacafe.stat_global state = Lamiaacafe.msg_danger)).
Proof.
  intro actions. split.
  - generalize Lamiaacafe.initial_state as state.
    induction actions as [|a actions IH]; intros state F;
      [eexists; reflexivity|].
    inversion F as [|? ? Oa Fa]; subst. cbn [run].
    assert (S : exists state', step state a = Some state').
    { destruct a as [boisson heure|]; cbn [step]; [|eexists; reflexivity].
      destruct (getitem_offered boisson Oa) as [mg G].
      unfold Lamiaacafe.ajouter_une_tasse. rewrite G.
      eexists; reflexivity. }
    destruct S as [state' S]. rewrite S. now apply IH.
  - assert (Inv : forall state0 state,
               run state0 actions = Some state ->
               Lamiaacafe.total_cafeine state0 = cups_total state0 ->
               40 * Z.of_nat (List.length (Lamiaacafe.historique state0))
                 <= Lamiaacafe.total_cafeine state0
                 <= 100 * Z.of_nat (List.length (Lamiaacafe.historique state0)) ->
               Lamiaacafe.total_cafeine state = cups_total state /\
               40 * Z.of_nat (List.length (Lamiaacafe.historique state))
                 <= Lamiaacafe.total_cafeine state
                 <= 100 * Z.of_nat (List.length (Lamiaacafe.historique state))).
    { induction actions as [|a actions IH]; intros state0 state R T B.
      - cbn in R. injection R as <-. auto.
      - cbn [run] in R. destruct (step state0 a) as [state1|] eqn:S;
          [|discriminate R].
        destruct (step_keeps_the_account state0 state1 a S T B) as [T1 B1].
        exact (IH state1 state R T1 B1). }
    intros state R cups.
    destruct (Inv Lamiaacafe.initial_state state R) as [T B];
      [reflexivity | cbn; lia |].
    fold cups in B. split; [exact T|]. split; [exact B|].
    unfold Lamiaacafe.stat_global. cbv zeta.
    destruct (Z.ltb_spec (Lamiaacafe.total_cafeine state) 250);
      [split; [discriminate | lia]|].
    destruct (Z.ltb_spec (Lamiaacafe.total_cafeine state) 400);
      [split; [discriminate | lia]|].
    split; [lia | reflexivity].
Qed.

(** X26.  The status and the advice of [lamiaacafe.py] never disagree:
    the dangerous status comes only with the advice on a high risk, and
    the advice without risk only with the healthy status; the dangerous
    status is shown exactly from [MAX_CAFEINE] on; a cup never brings
    the status back to a better one; and the note on a late coffee opens
    the message exactly from [HEURE_LIMITE] on. *)
Theorem status_and_advice_are_consistent :
  forall state : Lamiaacafe.session_state,
    (Lamiaacafe.stat_global state = Lamiaacafe.msg_danger
     <-> Lamiaacafe.MAX_CAFEINE <= Lamiaacafe.total_cafeine state) /\
    (Lamiaacafe.stat_global state = Lamiaacafe.msg_danger ->
     Lamiaacafe.conseils_sante state = Lamiaacafe.msg_risque) /\
    (Lamiaacafe.conseils_sante state = Lamiaacafe.msg_vigilance ->
     Lamiaacafe.stat_global state = Lamiaacafe.msg_sain) /\
    (forall boisson heure state' shown_list,
        Lamiaacafe.ajouter_une_tasse state boisson heure
        = Some (state', shown_list) ->
        (Lamiaacafe.stat_global state' = Lamiaacafe.msg_sain ->
         Lamiaacafe.stat_global state = Lamiaacafe.msg_sain) /\
        (Lamiaacafe.stat_global state = Lamiaacafe.msg_danger ->
         Lamiaacafe.stat_global state' = Lamiaacafe.msg_danger) /\
        exists first,
          shown_list
          = [ first;
              st_info ((if Lamiaacafe.HEURE_LIMITE <=? heure
                        then Lamiaacafe.msg_tard else "")
                       ++ Lamiaacafe.conseils_sante state'
                       ++ Lamiaacafe.nl ++ Lamiaacafe.stat_global state') ]).
Proof.
  intro state.
  unfold Lamiaacafe.stat_global, Lamiaacafe.conseils_sante,
    Lamiaacafe.MAX_CAFEINE. cbv zeta.
  set (total := Lamiaacafe.total_cafeine state).
  split; [|split; [|split]].
  - destruct (Z.ltb_spec total 250); [split; [discriminate | lia]|].
    destruct (Z.ltb_spec total 400); [split; [discriminate | lia]|].
    split; [lia | reflexivity].
  - destruct (Z.ltb_spec total 250); [discriminate|].
    destruct (Z.ltb_spec total 400); [discriminate|].
    destruct (Z.ltb_spec total 200); [lia|].
    destruct (Z.ltb_spec total 350); [lia | reflexivity].
  - destruct (Z.ltb_spec total 200).
    + destruct (Z.ltb_spec total 250); [reflexivity | lia].
    + destruct (Z.ltb_spec total 350); discriminate.
  - intros boisson heure state' shown_list.
    unfold Lamiaacafe.ajouter_une_tasse.
    destruct (Lamiaacafe.getitem _ boisson) as [mg|] eqn:G; [|discriminate].
    destruct (getitem_catalogue boisson mg G) as [_ B].
    intro E. injection E as <- <-.
    unfold Lamiaacafe.stat_global. cbn [Lamiaacafe.total_cafeine].
    fold total.
    split; [|split].
    + destruct (Z.ltb_spec (total + mg) 250).
      * destruct (Z.ltb_spec total 250); [reflexivity | lia].
      * destruct (Z.ltb_spec (total + mg) 400); discriminate.
    + destruct (Z.ltb_spec total 250); [discriminate|].
      destruct (Z.ltb_spec total 400); [discriminate|].
      destruct (Z.ltb_spec (total + mg) 250); [lia|].
      destruct (Z.ltb_spec (total + mg) 400); [lia | reflexivity].
    + eexists. destruct (Lamiaacafe.HEURE_LIMITE <=? heure); reflexivity.
Qed.

(** ** The accounts of [APPLICATION.py] *)

Lemma password_of_app (a : Application.accounts) (u p username : string) :
  Application.password_of (a ++ [(u, p)])%list username
  = match Application.password_of a username with
    | Some q => Some q
    | None => if String.eqb u username then Some p else None
    end.
Proof.
  induction a as [|[u0 p0] a IH]; cbn [app Application.password_of];
    [reflexivity|].
  destruct (String.eqb u0 username); [reflexivity | exact IH].
Qed.

(** X27.  A created account can be used at once, and its creation
    changes nothing for any other name; a name that exists is refused
    and the accounts stay as they were, so that a password is never
    replaced; a connection succeeds only with the stored password of
    the name. *)
Theorem created_account_connects :
  forall (a : Application.accounts) (new_user new_pass : string),
    let after := fst (Application.creer_le_compte a new_user new_pass) in
    (Application.password_of a new_user = None ->
     forall user,
       Application.se_connecter after user new_user new_pass
       = (Some new_user, st_success ("Bienvenue " ++ new_user))) /\
    (forall p, Application.password_of a new_user = Some p ->
               after = a
               /\ snd (Application.creer_le_compte a new_user new_pass)
                  = st_error "Ce nom existe déjà.") /\
    (forall user username password,
        username <> new_user ->
        Application.se_connecter after user username password
        = Application.se_connecter a user username password) /\
    (forall user username password,
        fst (Application.se_connecter a user username password)
        = Some username ->
        user = Some username
        \/ Application.password_of a username = Some password).
Proof.
  intros a new_user new_pass after. subst after.
  unfold Application.creer_le_compte.
  split; [|split; [|split]].
  - intros N user. rewrite N. cbn [fst].
    unfold Application.se_connecter.
    rewrite password_of_app, N, !String.eqb_refl. reflexivity.
  - intros p E. rewrite E. split; reflexivity.
  - intros user username password N.
    destruct (Application.password_of a new_user) eqn:E; cbn [fst];
      [reflexivity|].
    unfold Application.se_connecter. rewrite password_of_app.
    destruct (Application.password_of a username); [reflexivity|].
    assert (F : String.eqb new_user username = false)
      by (apply String.eqb_neq; congruence).
    now rewrite F.
  - intros user username password.
    unfold Application.se_connecter.
    destruct (Application.password_of a username) as [p|]; cbn [fst].
    + destruct (String.eqb p password) eqn:E; cbn [fst].
      * apply String.eqb_eq in E. subst. now right.
      * now left.
    + now left.
Qed.

(** ** A missing sleep duration *)

(** X28.  A missing sleep duration reads as 0 hours in [Cafe1.py]: the
    advice of the day then holds the text on short sleep, and never the
    text that nothing is alarming.  In [cafe.py] a missing duration
    fires no rule: its text on short sleep is not given. *)
Theorem missing_sleep_reads_as_short_sleep :
  forall (sens : string) (row : log_row),
    sleep_hours row = NaN ->
    In Cafe1.msg_short_sleep (Cafe1.conseils_du_jour sens row) /\
    ~ In Cafe1.msg_nothing_alarming (Cafe1.conseils_du_jour sens row) /\
    (forall recs, Cafe.recommendations_for_row row = Some recs ->
                  ~ In Cafe.msg_short_sleep recs).
Proof.
  intros sens row N.
  assert (S : In Cafe1.msg_short_sleep (Cafe1.conseils_du_jour sens row)).
  { change Cafe1.msg_short_sleep with (message ShortSleep).
    apply rule_text_iff. cbn [holds]. rewrite N. reflexivity. }
  split; [exact S|]. split.
  - rewrite conseils_du_jour_table in *. intro F.
    apply answer_fallback_iff in F; [|apply fallback_not_a_rule_text].
    rewrite F in S. cbn in S. destruct S as [S | []]. discriminate S.
  - intros recs H I. rewrite cafe_py_walks_its_rules in H.
    destruct (palpitations row) as [p|] eqn:P; [|discriminate H].
    assert (R : recs = answer Cafe.msg_ras
                         (map snd (filter fst (cafe_py_rules row))))
      by congruence.
    clear H. subst recs. apply in_answer_cases in I.
    destruct I as [[E _] | I]; [discriminate E|].
    apply in_map_iff in I. destruct I as [[c m] [E I]]. cbn in E. subst m.
    apply filter_In in I. destruct I as [I C]. cbn in C. subst c.
    unfold cafe_py_rules in I. cbn [In] in I. rewrite N in I.
    destruct I as [E | [E | [E | [E | [E | [E | []]]]]]];
      try (injection E as Ec Em; discriminate Em).
    injection E as Ec. discriminate Ec.
Qed.

(* ================================================================= *)
(** * The further properties on concrete inputs *)

(** X1 after [P001], [p007] followed by a blank, and [X12]: [P008]. *)
Lemma next_id_witness :
  Forall typed_id ["P001"; "p007 "; "X12"] /\
  ~ In (Cafe1.next_participant_id ["P001"; "p007 "; "X12"])
       ["P001"; "p007 "; "X12"].
Proof.
  assert (T : Forall typed_id ["P001"; "p007 "; "X12"]).
  { repeat (apply Forall_cons; [typed_id_holds|]). apply Forall_nil. }
  split; [exact T|].
  exact (proj1 (next_participant_id_is_new ["P001"; "p007 "; "X12"] T)).
Defined.

(** X2 on a file with one participant and a form for a second one. *)
Lemma participant_ids_witness :
  NoDup (Cafe1.participant_ids_of [low_sensitivity_participant]) /\
  ascii_text (a_pid sample_participant_form) /\
  (upper (strip (a_pid sample_participant_form)) = "" \/
   In (upper (strip (a_pid sample_participant_form)))
      (Cafe1.participant_ids_of [low_sensitivity_participant]) ->
   exists msg,
     Cafe1.add_participant_submit [low_sensitivity_participant]
       sample_participant_form "2024-01-02T08:00:00"
     = ([low_sensitivity_participant], Error msg)).
Proof.
  assert (D : NoDup (Cafe1.participant_ids_of [low_sensitivity_participant])).
  { constructor; [intros [] | constructor]. }
  assert (A : ascii_text (a_pid sample_participant_form))
    by (unfold ascii_text; cbn; repeat constructor).
  split; [exact D|]. split; [exact A|].
  exact (proj1 (participant_ids_stay_distinct [low_sensitivity_participant]
                  sample_participant_form "2024-01-02T08:00:00" D A)).
Defined.

(** X3: after [P001] the form proposes [P002], which is accepted. *)
Lemma proposed_id_witness :
  Forall typed_id (Cafe1.participant_ids_of [low_sensitivity_participant]) /\
  a_pid sample_participant_form = Cafe1.auto_id [low_sensitivity_participant]
  /\ exists row,
      Cafe1.add_participant_submit [low_sensitivity_participant]
        sample_participant_form "2024-01-02T08:00:00"
      = ((Cafe1.load_participants [low_sensitivity_participant] ++ [row])%list,
         Success ("✅ Participant "
                  ++ Cafe1.auto_id [low_sensitivity_participant] ++ " ajouté."))
      /\ p_participant_id row = Cafe1.auto_id [low_sensitivity_participant].
Proof.
  assert (T : Forall typed_id
                (Cafe1.participant_ids_of [low_sensitivity_participant])).
  { apply Forall_cons; [typed_id_holds | apply Forall_nil]. }
  assert (E : a_pid sample_participant_form
              = Cafe1.auto_id [low_sensitivity_participant])
    by (vm_compute; reflexivity).
  split; [exact T|]. split; [exact E|].
  exact (proposed_id_is_accepted [low_sensitivity_participant]
           sample_participant_form "2024-01-02T08:00:00" T E).
Defined.

(** X4 on a log with the second of January and a form for the first. *)
Lemma daily_keys_witness :
  NoDup (map key_of (Cafe1.load_logs [sample_day "2024-01-02" 150 16 8 3])) /\
  (In (f_pid sample_form, f_entry_date sample_form)
      (map key_of (Cafe1.load_logs [sample_day "2024-01-02" 150 16 8 3])) ->
   Cafe1.daily_entry_submit [sample_day "2024-01-02" 150 16 8 3] sample_form
     "2024-01-01T21:00:00"
   = ([sample_day "2024-01-02" 150 16 8 3], Error Cafe1.msg_duplicate)).
Proof.
  assert (D : NoDup (map key_of
                       (Cafe1.load_logs [sample_day "2024-01-02" 150 16 8 3]))).
  { constructor; [intros [] | constructor]. }
  split; [exact D|].
  exact (proj1 (daily_keys_stay_distinct [sample_day "2024-01-02" 150 16 8 3]
                  sample_form "2024-01-01T21:00:00" D)).
Defined.

(** X5: the form on an empty log, then the same form on the rows that
    were saved. *)
Lemma resubmission_witness :
  Cafe1.daily_entry_submit [] sample_form "2024-01-01T21:00:00"
  = (fst (Cafe1.daily_entry_submit [] sample_form "2024-01-01T21:00:00"),
     Success "✅ Enregistré: P001 • 2024-01-01 • 150 mg • Sommeil 8.0 h") /\
  Cafe1.load_logs
    (fst (Cafe1.daily_entry_submit [] sample_form "2024-01-01T21:00:00"))
  = fst (Cafe1.daily_entry_submit [] sample_form "2024-01-01T21:00:00") /\
  Cafe1.daily_entry_submit
    (fst (Cafe1.daily_entry_submit [] sample_form "2024-01-01T21:00:00"))
    sample_form "2024-01-01T21:05:00"
  = (fst (Cafe1.daily_entry_submit [] sample_form "2024-01-01T21:00:00"),
     Error Cafe1.msg_duplicate).
Proof.
  assert (S : Cafe1.daily_entry_submit [] sample_form "2024-01-01T21:00:00"
              = (fst (Cafe1.daily_entry_submit [] sample_form
                        "2024-01-01T21:00:00"),
                 Success
                   "✅ Enregistré: P001 • 2024-01-01 • 150 mg • Sommeil 8.0 h"))
    by (vm_compute; reflexivity).
  assert (L : Cafe1.load_logs
                (fst (Cafe1.daily_entry_submit [] sample_form
                        "2024-01-01T21:00:00"))
              = fst (Cafe1.daily_entry_submit [] sample_form
                       "2024-01-01T21:00:00"))
    by (vm_compute; reflexivity).
  split; [exact S|]. split; [exact L|].
  exact (resubmission_is_refused [] _ _ sample_form "2024-01-01T21:00:00"
           "2024-01-01T21:05:00" _ S L).
Defined.

(** X7: an entry for the first of January on a log with the second,
    then its deletion on the rows that were saved. *)
Lemma deletion_undoes_witness :
  Cafe1.daily_entry_submit [sample_day "2024-01-02" 150 16 8 3] sample_form
    "2024-01-01T21:00:00"
  = (fst (Cafe1.daily_entry_submit [sample_day "2024-01-02" 150 16 8 3]
            sample_form "2024-01-01T21:00:00"),
     Success "✅ Enregistré: P001 • 2024-01-01 • 150 mg • Sommeil 8.0 h") /\
  fst (Cafe1.delete_entry_submit
         (fst (Cafe1.daily_entry_submit [sample_day "2024-01-02" 150 16 8 3]
                 sample_form "2024-01-01T21:00:00"))
         (f_pid sample_form) (f_entry_date sample_form))
  = Cafe1.load_logs [sample_day "2024-01-02" 150 16 8 3].
Proof.
  assert (S : Cafe1.daily_entry_submit [sample_day "2024-01-02" 150 16 8 3]
                sample_form "2024-01-01T21:00:00"
              = (fst (Cafe1.daily_entry_submit
                        [sample_day "2024-01-02" 150 16 8 3]
                        sample_form "2024-01-01T21:00:00"),
                 Success
                   "✅ Enregistré: P001 • 2024-01-01 • 150 mg • Sommeil 8.0 h"))
    by (vm_compute; reflexivity).
  split; [exact S|].
  refine (deletion_undoes_an_accepted_entry
            [sample_day "2024-01-02" 150 16 8 3] _ _ sample_form
            "2024-01-01T21:00:00" _ S _).
  vm_compute. reflexivity.
Defined.

(** X8: the first of three days is deleted, then entered again on the
    two rows that were saved. *)
Lemma entry_after_deletion_witness :
  Cafe1.load_logs [ sample_day "2024-01-02" 250 18 6 3;
                    sample_day "2024-01-03" 250 18 6 3 ]
  = fst (Cafe1.delete_entry_submit three_heavy_days
           (f_pid sample_form) (f_entry_date sample_form)) /\
  exists row msg,
    Cafe1.daily_entry_submit [ sample_day "2024-01-02" 250 18 6 3;
                               sample_day "2024-01-03" 250 18 6 3 ]
      sample_form "2024-01-04T08:00:00"
    = ((Cafe1.load_logs [ sample_day "2024-01-02" 250 18 6 3;
                          sample_day "2024-01-03" 250 18 6 3 ] ++ [row])%list,
       Success msg)
    /\ key_of row = (f_pid sample_form, f_entry_date sample_form).
Proof.
  assert (L : Cafe1.load_logs [ sample_day "2024-01-02" 250 18 6 3;
                                sample_day "2024-01-03" 250 18 6 3 ]
              = fst (Cafe1.delete_entry_submit three_heavy_days
                       (f_pid sample_form) (f_entry_date sample_form)))
    by (vm_compute; reflexivity).
  split; [exact L|].
  exact (entry_is_accepted_after_deletion three_heavy_days
           [ sample_day "2024-01-02" 250 18 6 3;
             sample_day "2024-01-03" 250 18 6 3 ]
           sample_form "2024-01-04T08:00:00" L).
Defined.

(** X9 on the form with two espressos: 150 mg. *)
Lemma form_total_witness :
  counts_in_form_range sample_form /\
  0 <= fst (Cafe1.compute_caffeine_total (Cafe1.drink_qty_of sample_form))
    <= 8600.
Proof.
  assert (R : counts_in_form_range sample_form).
  { intro drink. cbn [sample_form f_qty].
    destruct (String.eqb drink "Espresso (30 ml)"); lia. }
  split; [exact R|].
  exact (proj1 (form_total_is_bounded_and_binned sample_form R)).
Defined.

(** X10 at 99.5 mg: the bin is already the middle one. *)
Lemma bin_and_level_witness :
  (-1 < 199 # 2)%Q /\ (199 # 2 <= 10000)%Q /\
  (((199 # 2 <= 99)%Q
    /\ Cafe1.caf_bin_of (day_with_total (199 # 2)) = Some "Faible (<100)"
    /\ Cafe1.caffeine_level (199 # 2) = "Faible") \/
   ((99 < 199 # 2)%Q /\ (199 # 2 < 100)%Q
    /\ Cafe1.caf_bin_of (day_with_total (199 # 2)) = Some "Moyen (100–200)"
    /\ Cafe1.caffeine_level (199 # 2) = "Faible") \/
   ((100 <= 199 # 2)%Q /\ (199 # 2 <= 200)%Q
    /\ Cafe1.caf_bin_of (day_with_total (199 # 2)) = Some "Moyen (100–200)"
    /\ Cafe1.caffeine_level (199 # 2) = "Moyen") \/
   ((200 < 199 # 2)%Q
    /\ Cafe1.caf_bin_of (day_with_total (199 # 2)) = Some "Élevé (>200)"
    /\ Cafe1.caffeine_level (199 # 2) = "Élevé")).
Proof.
  assert (L : (-1 < 199 # 2)%Q) by reflexivity.
  assert (U : (199 # 2 <= 10000)%Q) by discriminate.
  split; [exact L|]. split; [exact U|].
  exact (bin_and_level_differ_only_between_99_and_100 (199 # 2) L U).
Defined.

(** X11 from 23h to 7h. *)
Lemma sleep_hours_range_witness :
  0 <= 23 <= 23 /\ 0 <= 7 <= 23 /\
  exists h : Z,
    Cafe1.compute_sleep_hours_from_hours 23 7 = inject_Z h /\
    1 <= h <= 24 /\
    (h = 24 <-> 23 = 7) /\
    (23 <> 7 ->
     Cafe1.compute_sleep_hours_from_hours 7 23 = inject_Z (24 - h)).
Proof.
  assert (B : 0 <= 23 <= 23) by lia.
  assert (W : 0 <= 7 <= 23) by lia.
  split; [exact B|]. split; [exact W|].
  exact (sleep_hours_between_1_and_24 23 7 B W).
Defined.

(** X14 on three days above 200 mg: the pattern names 3 days. *)
Lemma patterns_count_witness :
  0 <= 3 /\
  (In (Cafe1.msg_high_caf_days 3)
      (patterns (Cafe1.build_recommendations None three_heavy_days))
   <-> number_of total_over_200 (window three_heavy_days) 3 /\ 3 <= 3 <= 7).
Proof.
  assert (P : 0 <= 3) by lia.
  split; [exact P|].
  exact (proj1 (proj2 (patterns_name_exactly_the_reached_counts None
                         (sample_day "2024-01-01" 250 18 6 3)
                         [ sample_day "2024-01-02" 250 18 6 3;
                           sample_day "2024-01-03" 250 18 6 3 ] 3 P))).
Defined.

(** X15: a day of December entered after three days of January. *)
Lemma older_record_witness :
  older_than_all (sample_day "2023-12-31" 250 18 6 3) three_heavy_days /\
  today (Cafe1.build_recommendations None
           (three_heavy_days ++ [sample_day "2023-12-31" 250 18 6 3]))
  = today (Cafe1.build_recommendations None three_heavy_days).
Proof.
  assert (O : older_than_all (sample_day "2023-12-31" 250 18 6 3)
                three_heavy_days).
  { intros r [<- | [<- | [<- | []]]]; reflexivity. }
  split; [exact O|].
  exact (proj1 (proj2 (older_record_leaves_the_report None
                         (sample_day "2024-01-01" 250 18 6 3)
                         [ sample_day "2024-01-02" 250 18 6 3;
                           sample_day "2024-01-03" 250 18 6 3 ]
                         (sample_day "2023-12-31" 250 18 6 3) O))).
Defined.

(** X18: the deletion of the entry of [P002] seen from the page of
    [P001]. *)
Lemma other_participants_witness :
  rows_of "P001"
    (Cafe1.load_logs (three_heavy_days ++ [day_of_P002])%list) <> [] /\
  Cafe1.load_logs three_heavy_days
  = fst (Cafe1.delete_entry_submit (three_heavy_days ++ [day_of_P002])%list
           "P002" "2024-01-01") /\
  Cafe1.page_recommandations [low_sensitivity_participant]
    three_heavy_days "P001" "2024-01-01" "2024-01-31"
  = Cafe1.page_recommandations [low_sensitivity_participant]
      (three_heavy_days ++ [day_of_P002])%list
      "P001" "2024-01-01" "2024-01-31".
Proof.
  assert (N : rows_of "P001"
                (Cafe1.load_logs (three_heavy_days ++ [day_of_P002])%list)
              <> [])
    by discriminate.
  assert (L : Cafe1.load_logs three_heavy_days
              = fst (Cafe1.delete_entry_submit
                       (three_heavy_days ++ [day_of_P002])%list
                       "P002" "2024-01-01"))
    by (vm_compute; reflexivity).
  split; [exact N|]. split; [exact L|].
  refine (proj2 (proj2 (other_participants_leave_the_page
                          [low_sensitivity_participant]
                          (three_heavy_days ++ [day_of_P002])%list
                          three_heavy_days
                          "P001" "2024-01-01" "2024-01-31" N))
            "P002" "2024-01-01" _ L).
  discriminate.
Defined.

(** X19 from 23h30 to 7h00: seven hours and a half. *)
Lemma sleep_hours_of_times_witness :
  valid_time half_past_23 /\ valid_time seven_o_clock /\
  exists c : Z,
    (Cafe.compute_sleep_hours half_past_23 seven_o_clock
     == inject_Z c / 100)%Q /\
    2 <= c <= 2400 /\
    -60 <= 180 * c - 5 * Cafe.total_seconds half_past_23 seven_o_clock <= 60 /\
    (c = 2400 <-> half_past_23 = seven_o_clock) /\
    (minute half_past_23 = 0 -> minute seven_o_clock = 0 ->
     Cafe.compute_sleep_hours half_past_23 seven_o_clock
     = Cafe1.compute_sleep_hours_from_hours (hour half_past_23)
         (hour seven_o_clock)).
Proof.
  assert (B : valid_time half_past_23) by (unfold valid_time; cbn; lia).
  assert (W : valid_time seven_o_clock) by (unfold valid_time; cbn; lia).
  split; [exact B|]. split; [exact W|].
  exact (sleep_hours_of_times half_past_23 seven_o_clock B W).
Defined.

(** X23 on the day on which every sign is set. *)
Lemma cafe_py_texts_witness :
  Cafe.recommendations_for_row heavy_day
  = Some [ Cafe.msg_high_dose; Cafe.msg_late; Cafe.msg_short_sleep;
           Cafe.msg_anxiety; Cafe.msg_stress; Cafe.msg_palpitations ] /\
  (In Cafe.msg_high_dose
      [ Cafe.msg_high_dose; Cafe.msg_late; Cafe.msg_short_sleep;
        Cafe.msg_anxiety; Cafe.msg_stress; Cafe.msg_palpitations ] ->
   In Cafe1.msg_heart_dose (Cafe1.conseils_du_jour "Faible" heavy_day)).
Proof.
  assert (E : Cafe.recommendations_for_row heavy_day
              = Some [ Cafe.msg_high_dose; Cafe.msg_late; Cafe.msg_short_sleep;
                       Cafe.msg_anxiety; Cafe.msg_stress;
                       Cafe.msg_palpitations ])
    by reflexivity.
  split; [exact E|].
  exact (proj1 (cafe_py_texts_come_with_cafe1_texts "Faible" heavy_day _ E)).
Defined.

(** X28 on a day whose sleep duration is missing. *)
Lemma missing_sleep_witness :
  sleep_hours day_without_sleep = NaN /\
  In Cafe1.msg_short_sleep (Cafe1.conseils_du_jour "" day_without_sleep).
Proof.
  assert (N : sleep_hours day_without_sleep = NaN) by reflexivity.
  split; [exact N|].
  exact (proj1 (missing_sleep_reads_as_short_sleep "" day_without_sleep N)).
Defined.
